(** * SkyLink: collision detection and alert prioritisation

    A shallow embedding of the computational core of the SkyLink
    repository and the properties its specification states about it:

    - [collision_module/collision_detection.py]: distance primitives,
      the pairwise detector and the alert summary;
    - [drone_alerts/alert_translator.py]: danger classification and the
      per-drone aggregation of alerts;
    - [dashboard/app.py]: the tiered threat detection of the pilot
      dashboard ([PilotDashboardService.get_collision_threats]), the
      searches for nearby drones and aircraft, the compass sectors, the
      region names and the regional callsigns;
    - [unified_app.py]: the system status of the unified service.

    Python floats are IEEE-754 binary64 numbers, modelled by Rocq's
    primitive floats, so comparisons with NaN and infinities behave as
    they do in the program.  Library code the repository calls but does
    not contain (geopy, the [math] module, pandas reductions, [round])
    is collected in the record [Env] and left abstract. *)

From Stdlib Require Import ZArith Floats Lia Bool List String.
From Stdlib Require Import Sorting.Sorted Sorting.Permutation.
From stdpp Require Import base option list gmap strings pretty.

Open Scope string_scope.
Open Scope list_scope.
Open Scope Z_scope.

(** A decimal literal such as [0.1] denotes the nearest binary64 number,
    as it does in Python. *)
#[local] Set Warnings "-inexact-float".

(* ================================================================== *)
(** * Part I: the model                                                *)
(* ================================================================== *)

(** ** Python values, exceptions and builtins *)

Module Py.

(** The exceptions the modelled code can meet. [ValueError] carries the
    message and, for the schema errors of [detect_collisions], the
    list that is formatted into the message. *)
Inductive exn : Type :=
| ValueError (msg : string) (names : list string)
| KeyError (key : string)
| TypeError (msg : string)
| OverflowError (msg : string).

Inductive result (A : Type) : Type :=
| Ok (a : A)
| Raise (e : exn).
Arguments Ok {A} a.
Arguments Raise {A} e.

(** Sequencing: [x ← m; k] runs [k] on the value of [m] and passes an
    exception of [m] on. *)
#[global] Instance result_ret : MRet result := fun A a => Ok a.
#[global] Instance result_bind : MBind result := fun A B f m =>
  match m with
  | Ok a => f a
  | Raise e => Raise e
  end.

(** A Python [for] loop over [xs] that updates a state and stops at
    the first exception. *)
Fixpoint for_each {A S} (xs : list A) (body : S -> A -> result S) (s : S)
  : result S :=
  match xs with
  | [] => Ok s
  | x :: xs' =>
      match body s x with
      | Ok s' => for_each xs' body s'
      | Raise e => Raise e
      end
  end.

(** [[f(x) for x in xs]] where [f] may raise. *)
Fixpoint map_result {A B} (f : A -> result B) (xs : list A)
  : result (list B) :=
  match xs with
  | [] => Ok []
  | x :: xs' =>
      match f x with
      | Ok y =>
          match map_result f xs' with
          | Ok ys => Ok (y :: ys)
          | Raise e => Raise e
          end
      | Raise e => Raise e
      end
  end.

(** The values stored in dictionaries and data-frame cells.  A number
    is a float; an integer of the program is the float of the same
    value (the literals [0] and [1] of the source, identifiers read
    as numbers), which is exact below 2^53. *)
Inductive pyval : Type :=
| PNone
| PFloat (x : float)
| PStr (s : string).

(** [math.isfinite]. *)
Definition is_finite (x : float) : bool :=
  negb (is_nan x) && negb (is_infinity x).

(** [pd.isna] on a scalar: [None] and NaN are missing values. *)
Definition isna (v : pyval) : bool :=
  match v with
  | PNone => true
  | PFloat x => is_nan x
  | PStr _ => false
  end.

(** [a == b] on values. *)
Definition py_eq (a b : pyval) : bool :=
  match a, b with
  | PNone, PNone => true
  | PFloat x, PFloat y => PrimFloat.eqb x y
  | PStr s, PStr t => String.eqb s t
  | _, _ => false
  end.

(** A number used in float arithmetic ([a - b], [math.radians(a)]):
    anything but a number is a [TypeError]. *)
Definition as_number (v : pyval) : result float :=
  match v with
  | PFloat x => Ok x
  | PNone => Raise (TypeError "unsupported operand type: NoneType")
  | PStr _ => Raise (TypeError "unsupported operand type: str")
  end.

(** [d.get(k, default)] on a dictionary. *)
Definition dict_get (d : gmap string pyval) (k : string) (dflt : pyval)
  : pyval :=
  default dflt (d !! k).

(** [list.sort(key=...)]: the keys are compared with [<] only, and the
    sort is stable.  Insertion after the elements that are not greater
    is the stable sort; on keys that [lt] orders totally every stable
    sort returns this list. *)
Section Sort.
Context {A K : Type} (key : A -> K) (lt : K -> K -> bool).

Fixpoint insert_by (x : A) (l : list A) : list A :=
  match l with
  | [] => [x]
  | y :: l' =>
      if lt (key y) (key x) then y :: insert_by x l'
      else x :: y :: l'
  end.

Definition sort_by (l : list A) : list A :=
  foldr insert_by [] l.
End Sort.

(** What the code calls but the repository does not contain. *)
Record Env : Type := {
  (** [geopy.distance.geodesic(point1, point2).kilometers] *)
  geodesic_km : pyval * pyval -> pyval * pyval -> result float;
  (** [float(s)] on a string, [None] when it does not parse *)
  str_to_float : string -> option float;
  (** [round(x, ndigits)] on a float *)
  round_ndigits : float -> Z -> float;
  (** [Series.mean()] and [Series.min()] of a float column *)
  series_mean : list float -> float;
  series_min : list float -> float;
  (** the [math] module *)
  math_radians : float -> result float;
  math_degrees : float -> result float;
  math_sin : float -> result float;
  math_cos : float -> result float;
  math_sqrt : float -> result float;
  math_atan2 : float -> float -> result float;
  (** [x ** y] and [x % y] on floats *)
  float_pow : float -> float -> result float;
  float_mod : float -> float -> result float
}.

(** The builtin [float(v)]. *)
Definition py_float (E : Env) (v : pyval) : result float :=
  match v with
  | PFloat x => Ok x
  | PStr s =>
      match str_to_float E s with
      | Some x => Ok x
      | None => Raise (ValueError "could not convert string to float" [s])
      end
  | PNone => Raise (TypeError "float() argument must be a string or a real number")
  end.

End Py.

Export Py.

(** ** The part of pandas the detector uses *)

Module Pandas.

(** A row handed out by [iterrows]: the frame's column labels and the
    row's values.  A label of the frame without a stored value reads
    as a missing value, as in a frame built from records. *)
Record Series : Type := {
  index : list string;
  values : gmap string pyval
}.

Record DataFrame : Type := {
  columns : list string;
  rows : list (gmap string pyval)
}.

Definition cell (r : gmap string pyval) (col : string) : pyval :=
  default PNone (r !! col).

(** [s[k]] *)
Definition getitem (s : Series) (k : string) : result pyval :=
  if bool_decide (k ∈ index s) then Ok (cell (values s) k)
  else Raise (KeyError k).

(** [s.get(k, default)] *)
Definition get (s : Series) (k : string) (dflt : pyval) : pyval :=
  if bool_decide (k ∈ index s) then cell (values s) k else dflt.

(** [df.empty]: some axis has length zero. *)
Definition empty (df : DataFrame) : bool :=
  (Nat.eqb (length (columns df)) 0) || (Nat.eqb (length (rows df)) 0).

(** [len(df)] *)
Definition len (df : DataFrame) : nat := length (rows df).

(** [col not in df.columns] for each required column, in order. *)
Definition missing_columns (required : list string) (df : DataFrame)
  : list string :=
  List.filter (fun col => negb (bool_decide (col ∈ columns df))) required.

Definition complete_row (subset : list string) (r : gmap string pyval)
  : bool :=
  forallb (fun col => negb (isna (cell r col))) subset.

(** [df.dropna(subset=...)]: a label that is not a column is a
    [KeyError]; otherwise the rows with a missing value in one of the
    columns are removed. *)
Definition dropna (subset : list string) (df : DataFrame)
  : result DataFrame :=
  match missing_columns subset df with
  | [] => Ok {| columns := columns df;
                rows := List.filter (complete_row subset) (rows df) |}
  | col :: _ => Raise (KeyError col)
  end.

(** [df.iterrows()], without the row labels. *)
Definition iterrows (df : DataFrame) : list Series :=
  map (fun r => {| index := columns df; values := r |}) (rows df).

(** [pd.DataFrame(records)] for records that all have the keys [cols]. *)
Definition of_records (cols : list string) (records : list (gmap string pyval))
  : DataFrame :=
  {| columns := cols; rows := records |}.

(** [Series.nunique()]: the number of distinct values that are not
    missing. *)
Fixpoint unique (l : list pyval) : list pyval :=
  match l with
  | [] => []
  | v :: l' =>
      if existsb (py_eq v) l' then unique l' else v :: unique l'
  end.

Definition nunique (l : list pyval) : Z :=
  Z.of_nat (length (unique (List.filter (fun v => negb (isna v)) l))).

End Pandas.

(** ** collision_module/collision_detection.py *)

Module CollisionDetection.
Import Pandas.

(** What the module prints, one constructor per [print] statement. *)
Inductive event : Type :=
| DistanceError (e : exn)
    (* "Error calculating distance: {e}" *)
| EmptyWarning
    (* "Warning: One or both datasets are empty" *)
| Processing (n_planes n_drones : nat)
    (* "Processing {len(planes_clean)} planes and {len(drones_clean)} drones ..." *)
| PairError (plane drone : pyval) (e : exn)
    (* "Error processing pair - Plane: ..., Drone: ...: {e}" *)
| Complete (collision_count total_pairs : nat).
    (* "Collision detection complete: ... out of ... plane-drone pairs" *)

(** One alert dictionary of [detect_collisions]. *)
Record Alert : Type := {
  drone_id : pyval;
  plane_icao24 : pyval;
  horizontal_distance : float;
  vertical_distance : float;
  drone_lat : pyval;
  drone_lon : pyval;
  plane_lat : pyval;
  plane_lon : pyval;
  drone_altitude : float;
  plane_altitude : float;
  callsign : pyval;
  drone_speed : pyval;
  plane_velocity : pyval
}.

(** The dictionary returned by [get_collision_summary]: three counts
    and four distances. *)
Record Summary : Type := {
  total_alerts : Z;
  unique_drones : Z;
  unique_planes : Z;
  avg_horizontal_distance : float;
  avg_vertical_distance : float;
  min_horizontal_distance : float;
  min_vertical_distance : float
}.

Definition required_plane_cols : list string :=
  ["icao24"; "latitude"; "longitude"; "baro_altitude"].

Definition required_drone_cols : list string :=
  ["drone_id"; "latitude"; "longitude"; "altitude"].

Definition default_h_threshold : float := 0.5%float.
Definition default_v_threshold : float := 100%float.

Section WithEnv.
Variable E : Env.

(** [calculate_horizontal_distance]: the geodesic distance in
    kilometres; any exception of the computation is printed and turned
    into [float('inf')]. *)
Definition calculate_horizontal_distance (lat1 lon1 lat2 lon2 : pyval)
  : float * list event :=
  let point1 := (lat1, lon1) in
  let point2 := (lat2, lon2) in
  match geodesic_km E point1 point2 with
  | Ok distance => (distance, [])
  | Raise e => (infinity, [DistanceError e])
  end.

(** [calculate_vertical_distance]: [abs(altitude1 - altitude2)]. *)
Definition calculate_vertical_distance (altitude1 altitude2 : float) : float :=
  abs (altitude1 - altitude2).

(** The statements of the [try] block after the horizontal distance is
    known: both altitudes, the vertical distance, the threshold test and
    the alert dictionary. *)
Definition check_thresholds (plane drone : Series)
    (h_distance h_threshold v_threshold : float) : result (option Alert) :=
  a1 ← getitem plane "baro_altitude";
  plane_altitude_m ← py_float E a1;
  a2 ← getitem drone "altitude";
  drone_altitude_m ← py_float E a2;
  let v_distance :=
    calculate_vertical_distance plane_altitude_m drone_altitude_m in
  if (h_distance <=? h_threshold)%float && (v_distance <=? v_threshold)%float
  then
    id_d ← getitem drone "drone_id";
    id_p ← getitem plane "icao24";
    d_lat ← getitem drone "latitude";
    d_lon ← getitem drone "longitude";
    p_lat ← getitem plane "latitude";
    p_lon ← getitem plane "longitude";
    Ok (Some {| drone_id := id_d;
                plane_icao24 := id_p;
                horizontal_distance := round_ndigits E h_distance 3;
                vertical_distance := round_ndigits E v_distance 2;
                drone_lat := d_lat;
                drone_lon := d_lon;
                plane_lat := p_lat;
                plane_lon := p_lon;
                drone_altitude := drone_altitude_m;
                plane_altitude := plane_altitude_m;
                callsign := get plane "callsign" (PStr "N/A");
                drone_speed := get drone "speed" (PStr "N/A");
                plane_velocity := get plane "velocity" (PStr "N/A") |})
  else Ok None.

(** The whole [try] block for one pair, with what it prints. *)
Definition check_pair (plane drone : Series) (h_threshold v_threshold : float)
  : result (option Alert) * list event :=
  let coordinates :=
    lat1 ← getitem plane "latitude";
    lon1 ← getitem plane "longitude";
    lat2 ← getitem drone "latitude";
    lon2 ← getitem drone "longitude";
    Ok (lat1, lon1, lat2, lon2) in
  match coordinates with
  | Raise e => (Raise e, [])
  | Ok (lat1, lon1, lat2, lon2) =>
      let '(h_distance, printed) :=
        calculate_horizontal_distance lat1 lon1 lat2 lon2 in
      (check_thresholds plane drone h_distance h_threshold v_threshold, printed)
  end.

(** One iteration of the inner loop on the state
    [(alerts, collision_count, printed so far)]; the [except] clause
    prints the pair and continues. *)
Definition scan_pair (h_threshold v_threshold : float) (plane : Series)
    (st : list Alert * nat * list event) (drone : Series)
  : list Alert * nat * list event :=
  let '(alerts, collision_count, out) := st in
  match check_pair plane drone h_threshold v_threshold with
  | (Ok (Some alert), printed) =>
      (alerts ++ [alert], S collision_count, out ++ printed)
  | (Ok None, printed) =>
      (alerts, collision_count, out ++ printed)
  | (Raise e, printed) =>
      (alerts, collision_count,
       out ++ printed ++
         [PairError (get plane "icao24" (PStr "Unknown"))
                    (get drone "drone_id" (PStr "Unknown")) e])
  end.

(** The two nested [for] loops of [detect_collisions]. *)
Definition scan_pairs (h_threshold v_threshold : float)
    (planes_clean drones_clean : DataFrame)
    (st : list Alert * nat * list event)
  : list Alert * nat * list event :=
  fold_left
    (fun st plane =>
       fold_left (scan_pair h_threshold v_threshold plane)
                 (iterrows drones_clean) st)
    (iterrows planes_clean) st.

(** [detect_collisions(planes_df, drones_df, h_threshold, v_threshold)]:
    the returned list or the raised exception, and the printed lines. *)
Definition detect_collisions (planes_df drones_df : DataFrame)
    (h_threshold v_threshold : float) : result (list Alert) * list event :=
  if empty planes_df || empty drones_df then (Ok [], [EmptyWarning])
  else
    match missing_columns required_plane_cols planes_df with
    | (_ :: _) as missing_plane_cols =>
        (Raise (ValueError "Missing required plane columns: " missing_plane_cols), [])
    | [] =>
    match missing_columns required_drone_cols drones_df with
    | (_ :: _) as missing_drone_cols =>
        (Raise (ValueError "Missing required drone columns: " missing_drone_cols), [])
    | [] =>
    match dropna ["icao24"; "latitude"; "longitude"; "baro_altitude"] planes_df with
    | Raise e => (Raise e, [])
    | Ok planes_clean =>
    match dropna ["drone_id"; "latitude"; "longitude"; "altitude"] drones_df with
    | Raise e => (Raise e, [])
    | Ok drones_clean =>
        let total_pairs := (len planes_clean * len drones_clean)%nat in
        let '(alerts, collision_count, out) :=
          scan_pairs h_threshold v_threshold planes_clean drones_clean
            ([], 0%nat, [Processing (len planes_clean) (len drones_clean)]) in
        (Ok alerts, out ++ [Complete collision_count total_pairs])
    end end end end.

(** [get_collision_summary(alerts)] *)
Definition get_collision_summary (alerts : list Alert) : Summary :=
  match alerts with
  | [] =>
      {| total_alerts := 0;
         unique_drones := 0;
         unique_planes := 0;
         avg_horizontal_distance := 0%float;
         avg_vertical_distance := 0%float;
         min_horizontal_distance := 0%float;
         min_vertical_distance := 0%float |}
  | _ :: _ =>
      let h := map horizontal_distance alerts in
      let v := map vertical_distance alerts in
      {| total_alerts := Z.of_nat (length alerts);
         unique_drones := nunique (map drone_id alerts);
         unique_planes := nunique (map plane_icao24 alerts);
         avg_horizontal_distance := round_ndigits E (series_mean E h) 3;
         avg_vertical_distance := round_ndigits E (series_mean E v) 2;
         min_horizontal_distance := round_ndigits E (series_min E h) 3;
         min_vertical_distance := round_ndigits E (series_min E v) 2 |}
  end.

End WithEnv.
End CollisionDetection.

(** ** drone_alerts/alert_translator.py *)

Module AlertTranslator.

(** The translator object: its only attribute is the table of danger
    thresholds (kilometres) set by [__init__]. *)
Record DroneAlertTranslator : Type := {
  danger_thresholds : gmap string float
}.

Definition init : DroneAlertTranslator :=
  {| danger_thresholds :=
       <["critical" := 0.5%float]>
       (<["high" := 1.0%float]>
       (<["medium" := 2.0%float]>
       (<["low" := 5.0%float]> ∅))) |}.

(** The nested dictionaries of an alert. *)
Record PlaneInfo : Type := {
  plane_info_callsign : pyval;
  plane_info_altitude : pyval;
  plane_info_speed : pyval;
  plane_info_heading : pyval
}.

Record DroneInfo : Type := {
  drone_info_id : pyval;
  drone_info_altitude : pyval;
  drone_info_location : list pyval
}.

(** The dictionary built by [translate_plane_to_drone_alert].  Its
    [alert_id] and [timestamp] entries are read off the wall clock and
    are left out. *)
Record DroneAlert : Type := {
  danger_level : string;
  distance_km : float;
  plane_info : PlaneInfo;
  drone_info : DroneInfo;
  guidance : string;
  priority : Z;
  color_code : string
}.

(** The per-drone summary built by [process_multiple_alerts]. *)
Record DroneSummary : Type := {
  drone_id : pyval;
  location : list pyval;
  altitude : pyval;
  alerts : list DroneAlert;
  alert_count : nat;
  highest_priority : string
}.

(** [self.danger_thresholds[k]] *)
Definition threshold (self : DroneAlertTranslator) (k : string) : result float :=
  match danger_thresholds self !! k with
  | Some x => Ok x
  | None => Raise (KeyError k)
  end.

(** [_get_danger_level] *)
Definition _get_danger_level (self : DroneAlertTranslator) (distance : float)
  : result string :=
  critical ← threshold self "critical";
  if (distance <=? critical)%float then Ok "CRITICAL"
  else
    high ← threshold self "high";
    if (distance <=? high)%float then Ok "HIGH"
    else
      medium ← threshold self "medium";
      if (distance <=? medium)%float then Ok "MEDIUM"
      else
        low ← threshold self "low";
        if (distance <=? low)%float then Ok "LOW"
        else Ok "SAFE".

Definition guidance_map : gmap string string :=
  <["CRITICAL" := "âš ï¸ IMMEDIATE ACTION REQUIRED: Descend to safe altitude and move away from flight path!"]>
  (<["HIGH" := "ðŸš¨ HIGH ALERT: Adjust altitude and maintain safe distance from aircraft"]>
  (<["MEDIUM" := "âš¡ CAUTION: Monitor aircraft movement and be prepared to take evasive action"]>
  (<["LOW" := "ðŸ“¡ ADVISORY: Aircraft detected in area, maintain awareness"]>
  (<["SAFE" := "âœ… CLEAR: No immediate threats detected"]> ∅)))).

(** [_generate_guidance]; the texts are the source's, byte for byte. *)
Definition _generate_guidance (plane_data drone_data : gmap string pyval)
    (danger_level : string) : string :=
  default "Monitor surroundings" (guidance_map !! danger_level).

Definition priority_map : gmap string Z :=
  <["CRITICAL" := 1]> (<["HIGH" := 2]> (<["MEDIUM" := 3]>
  (<["LOW" := 4]> (<["SAFE" := 5]> ∅)))).

(** [_get_priority] *)
Definition _get_priority (danger_level : string) : Z :=
  default 5 (priority_map !! danger_level).

Definition color_map : gmap string string :=
  <["CRITICAL" := "#FF0000"]> (<["HIGH" := "#FF6600"]>
  (<["MEDIUM" := "#FFFF00"]> (<["LOW" := "#00FF00"]>
  (<["SAFE" := "#00AA00"]> ∅)))).

(** [_get_color_code] *)
Definition _get_color_code (danger_level : string) : string :=
  default "#808080" (color_map !! danger_level).

Section WithEnv.
Variable E : Env.

(** [_calculate_distance]: the haversine formula, with the defaults
    [0] of the [.get] calls and the radius [6371] as floats. *)
Definition _calculate_distance (plane_data drone_data : gmap string pyval)
  : result float :=
  let lat1 := dict_get plane_data "latitude" (PFloat 0%float) in
  let lon1 := dict_get plane_data "longitude" (PFloat 0%float) in
  let lat2 := dict_get drone_data "latitude" (PFloat 0%float) in
  let lon2 := dict_get drone_data "longitude" (PFloat 0%float) in
  let R := 6371%float in
  lat2' ← as_number lat2;
  lat1' ← as_number lat1;
  dlat ← math_radians E (lat2' - lat1')%float;
  lon2' ← as_number lon2;
  lon1' ← as_number lon1;
  dlon ← math_radians E (lon2' - lon1')%float;
  s1 ← math_sin E (dlat / 2)%float;
  s1_sq ← float_pow E s1 2%float;
  r1 ← math_radians E lat1';
  c1 ← math_cos E r1;
  r2 ← math_radians E lat2';
  c2 ← math_cos E r2;
  s2 ← math_sin E (dlon / 2)%float;
  s2_sq ← float_pow E s2 2%float;
  let a := (s1_sq + c1 * c2 * s2_sq)%float in
  q1 ← math_sqrt E a;
  q2 ← math_sqrt E (1 - a)%float;
  t ← math_atan2 E q1 q2;
  let c := (2 * t)%float in
  Ok (R * c)%float.

(** [translate_plane_to_drone_alert] *)
Definition translate_plane_to_drone_alert (self : DroneAlertTranslator)
    (plane_data drone_data : gmap string pyval) : result DroneAlert :=
  distance ← _calculate_distance plane_data drone_data;
  level ← _get_danger_level self distance;
  let text := _generate_guidance plane_data drone_data level in
  Ok {| danger_level := level;
        distance_km := round_ndigits E distance 2;
        plane_info :=
          {| plane_info_callsign := dict_get plane_data "callsign" (PStr "Unknown");
             plane_info_altitude := dict_get plane_data "altitude" (PFloat 0%float);
             plane_info_speed := dict_get plane_data "velocity" (PFloat 0%float);
             plane_info_heading := dict_get plane_data "heading" (PFloat 0%float) |};
        drone_info :=
          {| drone_info_id := dict_get drone_data "drone_id" PNone;
             drone_info_altitude := dict_get drone_data "altitude" (PFloat 0%float);
             drone_info_location :=
               [dict_get drone_data "latitude" PNone;
                dict_get drone_data "longitude" PNone] |};
        guidance := text;
        priority := _get_priority level;
        color_code := _get_color_code level |}.

(** The inner loop of [process_multiple_alerts]: every plane is
    evaluated against [drone]; alerts that are not SAFE are appended. *)
Definition collect_alerts (self : DroneAlertTranslator)
    (drone : gmap string pyval) (plane_data : list (gmap string pyval))
  : result (list DroneAlert) :=
  for_each plane_data
    (fun drone_alerts plane =>
       alert ← translate_plane_to_drone_alert self plane drone;
       if negb (String.eqb (danger_level alert) "SAFE")
       then Ok (drone_alerts ++ [alert])
       else Ok drone_alerts)
    [].

(** The body of the outer loop of [process_multiple_alerts] after the
    inner loop: the drone's alerts are sorted by priority and the
    summary dictionary is built. *)
Definition summarize_drone (drone : gmap string pyval)
    (collected : list DroneAlert) : DroneSummary :=
  let drone_alerts := sort_by priority Z.ltb collected in
  {| drone_id := dict_get drone "drone_id" PNone;
     location := [dict_get drone "latitude" PNone;
                  dict_get drone "longitude" PNone];
     altitude := dict_get drone "altitude" (PFloat 0%float);
     alerts := drone_alerts;
     alert_count := length drone_alerts;
     highest_priority :=
       match drone_alerts with
       | first :: _ => danger_level first
       | [] => "SAFE"
       end |}.

(** [process_multiple_alerts] *)
Definition process_multiple_alerts (self : DroneAlertTranslator)
    (drone_data plane_data : list (gmap string pyval))
  : result (list DroneSummary) :=
  for_each drone_data
    (fun all_alerts drone =>
       collected ← collect_alerts self drone plane_data;
       Ok (all_alerts ++ [summarize_drone drone collected]))
    [].

End WithEnv.
End AlertTranslator.

(** ** dashboard/app.py: [PilotDashboardService]

    Only what the method prints is left out. *)

Module Dashboard.
Import Pandas.

(** One entry of a [threat_levels] list. *)
Record ThreatLevel : Type := {
  name : string;
  h_threshold : float;
  v_threshold : float
}.

(** "Standard thresholds for test mode". *)
Definition test_threat_levels : list ThreatLevel :=
  [ {| name := "critical"; h_threshold := 0.1%float; v_threshold := 30%float |};
    {| name := "high"; h_threshold := 0.3%float; v_threshold := 50%float |};
    {| name := "medium"; h_threshold := 0.5%float; v_threshold := 100%float |};
    {| name := "low"; h_threshold := 1.0%float; v_threshold := 150%float |} ].

(** "Enhanced thresholds for real mode". *)
Definition real_threat_levels : list ThreatLevel :=
  [ {| name := "critical"; h_threshold := 0.05%float; v_threshold := 25%float |};
    {| name := "high"; h_threshold := 0.2%float; v_threshold := 40%float |};
    {| name := "medium"; h_threshold := 0.4%float; v_threshold := 75%float |};
    {| name := "low"; h_threshold := 0.8%float; v_threshold := 120%float |};
    {| name := "advisory"; h_threshold := 1.5%float; v_threshold := 200%float |} ].

(** The table used by the final sort of [get_collision_threats]. *)
Definition risk_order : gmap string Z :=
  <["critical" := 0]> (<["high" := 1]> (<["medium" := 2]> (<["low" := 3]> ∅))).

(** The dictionary returned by [get_current_aircraft]. *)
Record Aircraft : Type := {
  aircraft_callsign : pyval;
  aircraft_icao24 : pyval;
  aircraft_latitude : float;
  aircraft_longitude : float;
  aircraft_altitude : float;
  aircraft_speed : float;
  aircraft_heading : float;
  aircraft_vertical_rate : float;
  aircraft_country : pyval
}.

(** One dictionary of the list returned by [get_nearby_drones]. *)
Record NearbyDrone : Type := {
  nearby_drone_id : pyval;
  nearby_latitude : float;
  nearby_longitude : float;
  nearby_altitude : float;
  nearby_speed : float;
  nearby_heading : float;
  nearby_distance : float;
  nearby_bearing : float;
  nearby_relative_position : string
}.

(** One threat dictionary of [get_collision_threats]; its ['type'] entry
    is always ["drone"]. *)
Record Threat : Type := {
  threat_type : string;
  threat_id : pyval;
  threat_latitude : pyval;
  threat_longitude : pyval;
  threat_altitude : float;
  threat_horizontal_distance : float;
  threat_vertical_distance : float;
  threat_risk_level : string;
  threat_bearing : float;
  threat_relative_position : string;
  threat_distance_nm : pyval;
  threat_drone_speed : pyval;
  threat_drone_heading : pyval
}.

(** The attributes of the service that the modelled methods read. *)
Record PilotDashboardService : Type := {
  drones_df : DataFrame;
  use_test_data : bool
}.

Section WithEnv.
Variable E : Env.

(** [calculate_bearing] *)
Definition calculate_bearing (lat1 lon1 lat2 lon2 : pyval) : result float :=
  x1 ← as_number lat1;
  lat1_rad ← math_radians E x1;
  x2 ← as_number lat2;
  lat2_rad ← math_radians E x2;
  l2 ← as_number lon2;
  l1 ← as_number lon1;
  dlon_rad ← math_radians E (l2 - l1)%float;
  sin_dlon ← math_sin E dlon_rad;
  cos_lat2 ← math_cos E lat2_rad;
  let y := (sin_dlon * cos_lat2)%float in
  cos_lat1 ← math_cos E lat1_rad;
  sin_lat2 ← math_sin E lat2_rad;
  sin_lat1 ← math_sin E lat1_rad;
  cos_lat2' ← math_cos E lat2_rad;
  cos_dlon ← math_cos E dlon_rad;
  let x := (cos_lat1 * sin_lat2 - sin_lat1 * cos_lat2' * cos_dlon)%float in
  bearing_rad ← math_atan2 E y x;
  degrees ← math_degrees E bearing_rad;
  float_mod E (degrees + 360)%float 360%float.

(** [get_relative_position_description] *)
Definition get_relative_position_description (lat1 lon1 lat2 lon2 : pyval)
  : result string :=
  bearing ← calculate_bearing lat1 lon1 lat2 lon2;
  if (bearing <? 22.5)%float || (337.5 <=? bearing)%float then Ok "N"
  else if (bearing <? 67.5)%float then Ok "NE"
  else if (bearing <? 112.5)%float then Ok "E"
  else if (bearing <? 157.5)%float then Ok "SE"
  else if (bearing <? 202.5)%float then Ok "S"
  else if (bearing <? 247.5)%float then Ok "SW"
  else if (bearing <? 292.5)%float then Ok "W"
  else Ok "NW".

(** One iteration of the loop of [get_nearby_drones]. *)
Definition visit_drone (current_lat current_lon : pyval) (effective_range : float)
    (nearby_drones : list NearbyDrone) (drone : Series)
  : result (list NearbyDrone) :=
  lat ← getitem drone "latitude";
  if isna lat then Ok nearby_drones
  else
    lon ← getitem drone "longitude";
    if isna lon then Ok nearby_drones
    else
      let distance_km :=
        fst (CollisionDetection.calculate_horizontal_distance E
               current_lat current_lon lat lon) in
      let distance_nm := (distance_km / 1.852)%float in
      if (distance_nm <=? effective_range)%float then
        latitude ← py_float E lat;
        longitude ← py_float E lon;
        altitude ← py_float E (get drone "altitude" (PFloat 0%float));
        speed ← py_float E (get drone "speed" (PFloat 0%float));
        heading ← py_float E (get drone "heading" (PFloat 0%float));
        bearing ← calculate_bearing current_lat current_lon lat lon;
        position ← get_relative_position_description current_lat current_lon lat lon;
        Ok (nearby_drones ++
              [ {| nearby_drone_id := get drone "drone_id" (PStr "");
                   nearby_latitude := latitude;
                   nearby_longitude := longitude;
                   nearby_altitude := altitude;
                   nearby_speed := speed;
                   nearby_heading := heading;
                   nearby_distance := distance_nm;
                   nearby_bearing := bearing;
                   nearby_relative_position := position |} ])
      else Ok nearby_drones.

(** [get_nearby_drones] *)
Definition get_nearby_drones (self : PilotDashboardService)
    (current_aircraft : option Aircraft) (range_nm : float)
  : result (list NearbyDrone) :=
  match current_aircraft with
  | None => Ok []
  | Some aircraft =>
      if empty (drones_df self) then Ok []
      else
        let current_lat := PFloat (aircraft_latitude aircraft) in
        let current_lon := PFloat (aircraft_longitude aircraft) in
        let effective_range :=
          if negb (use_test_data self) then (range_nm * 2)%float else range_nm in
        nearby_drones ←
          for_each (iterrows (drones_df self))
            (visit_drone current_lat current_lon effective_range) [];
        let in_order := sort_by nearby_distance PrimFloat.ltb nearby_drones in
        let max_drones := if negb (use_test_data self) then 30%nat else 15%nat in
        Ok (take max_drones in_order)
  end.

(** The one-row frame built from the current aircraft. *)
Definition current_plane_df (aircraft : Aircraft) : DataFrame :=
  of_records
    ["icao24"; "callsign"; "latitude"; "longitude"; "baro_altitude"; "velocity"]
    [ <["icao24" := aircraft_icao24 aircraft]>
      (<["callsign" := aircraft_callsign aircraft]>
      (<["latitude" := PFloat (aircraft_latitude aircraft)]>
      (<["longitude" := PFloat (aircraft_longitude aircraft)]>
      (<["baro_altitude" := PFloat (aircraft_altitude aircraft)]>
      (<["velocity" := PFloat (aircraft_speed aircraft)]> ∅))))) ].

(** The frame built from the nearby drones. *)
Definition nearby_drone_record (drone : NearbyDrone) : gmap string pyval :=
  <["drone_id" := nearby_drone_id drone]>
  (<["latitude" := PFloat (nearby_latitude drone)]>
  (<["longitude" := PFloat (nearby_longitude drone)]>
  (<["altitude" := PFloat (nearby_altitude drone)]>
  (<["speed" := PFloat (nearby_speed drone)]>
  (<["heading" := PFloat (nearby_heading drone)]>
  (<["time_step" := PFloat 1%float]>
  (<["timestamp" := PStr "2025-10-12 12:00:00"]> ∅))))))).

Definition nearby_drones_df (nearby_drones : list NearbyDrone) : DataFrame :=
  of_records
    ["drone_id"; "latitude"; "longitude"; "altitude"; "speed"; "heading";
     "time_step"; "timestamp"]
    (map nearby_drone_record nearby_drones).

(** One iteration of [for alert in alerts]: an alert whose drone is
    already among the threats is skipped, any other becomes a threat at
    the level being scanned. *)
Definition claim_alert (aircraft : Aircraft) (nearby_drones : list NearbyDrone)
    (level : ThreatLevel) (all_threats : list Threat)
    (alert : CollisionDetection.Alert) : result (list Threat) :=
  let existing_threat :=
    List.find (fun t => py_eq (threat_id t) (CollisionDetection.drone_id alert))
              all_threats in
  match existing_threat with
  | Some _ => Ok all_threats
  | None =>
      let drone_data :=
        List.find
          (fun d => py_eq (nearby_drone_id d) (CollisionDetection.drone_id alert))
          nearby_drones in
      bearing ←
        calculate_bearing
          (PFloat (aircraft_latitude aircraft)) (PFloat (aircraft_longitude aircraft))
          (CollisionDetection.drone_lat alert) (CollisionDetection.drone_lon alert);
      position ←
        get_relative_position_description
          (PFloat (aircraft_latitude aircraft)) (PFloat (aircraft_longitude aircraft))
          (CollisionDetection.drone_lat alert) (CollisionDetection.drone_lon alert);
      Ok (all_threats ++
            [ {| threat_type := "drone";
                 threat_id := CollisionDetection.drone_id alert;
                 threat_latitude := CollisionDetection.drone_lat alert;
                 threat_longitude := CollisionDetection.drone_lon alert;
                 threat_altitude := CollisionDetection.drone_altitude alert;
                 threat_horizontal_distance :=
                   CollisionDetection.horizontal_distance alert;
                 threat_vertical_distance :=
                   CollisionDetection.vertical_distance alert;
                 threat_risk_level := name level;
                 threat_bearing := bearing;
                 threat_relative_position := position;
                 threat_distance_nm :=
                   from_option (fun d => PFloat (nearby_distance d)) (PFloat 0%float) drone_data;
                 threat_drone_speed :=
                   from_option (fun d => PFloat (nearby_speed d)) (PFloat 0%float) drone_data;
                 threat_drone_heading :=
                   from_option (fun d => PFloat (nearby_heading d)) (PFloat 0%float) drone_data
              |} ])
  end.

(** One iteration of [for level in threat_levels]. *)
Definition scan_level (aircraft : Aircraft) (nearby_drones : list NearbyDrone)
    (all_threats : list Threat) (level : ThreatLevel) : result (list Threat) :=
  alerts ←
    fst (CollisionDetection.detect_collisions E
           (current_plane_df aircraft) (nearby_drones_df nearby_drones)
           (h_threshold level) (v_threshold level));
  for_each alerts (claim_alert aircraft nearby_drones level) all_threats.

(** The merge of all levels: [all_threats] when the outer loop ends. *)
Definition merge_levels (threat_levels : list ThreatLevel) (aircraft : Aircraft)
    (nearby_drones : list NearbyDrone) : result (list Threat) :=
  for_each threat_levels (scan_level aircraft nearby_drones) [].

(** The key of the final sort: [(risk_order[x['risk_level']],
    x['horizontal_distance'])]. *)
Definition sort_key (t : Threat) : result (Z * float) :=
  match risk_order !! threat_risk_level t with
  | Some rank => Ok (rank, threat_horizontal_distance t)
  | None => Raise (KeyError (threat_risk_level t))
  end.

(** [a < b] on such tuples: the first components that differ decide. *)
Definition key_lt (a b : Z * float) : bool :=
  if negb (Z.eqb (fst a) (fst b)) then Z.ltb (fst a) (fst b)
  else if negb (PrimFloat.eqb (snd a) (snd b)) then PrimFloat.ltb (snd a) (snd b)
  else false.

(** [all_threats.sort(key=...)]: every key is computed first, then the
    list is sorted on the keys. *)
Definition sort_threats (all_threats : list Threat) : result (list Threat) :=
  keyed ← map_result (fun t => k ← sort_key t; Ok (k, t)) all_threats;
  Ok (map snd (sort_by fst key_lt keyed)).

(** [get_collision_threats] from the point where [nearby_drones] is
    known to be non-empty, for any list of levels. *)
Definition tiered_threats (threat_levels : list ThreatLevel) (aircraft : Aircraft)
    (nearby_drones : list NearbyDrone) : result (list Threat) :=
  all_threats ← merge_levels threat_levels aircraft nearby_drones;
  sort_threats all_threats.

(** [get_collision_threats] *)
Definition get_collision_threats (self : PilotDashboardService)
    (current_aircraft : option Aircraft) (range_nm : float)
  : result (list Threat) :=
  match current_aircraft with
  | None => Ok []
  | Some aircraft =>
      if empty (drones_df self) then Ok []
      else
        nearby_drones ← get_nearby_drones self current_aircraft range_nm;
        match nearby_drones with
        | [] => Ok []
        | _ :: _ =>
            let threat_levels :=
              if use_test_data self then test_threat_levels
              else real_threat_levels in
            tiered_threats threat_levels aircraft nearby_drones
        end
  end.

End WithEnv.
End Dashboard.

(** ** A stand-in environment

    The theorems below hold for every [Env].  To run the model on
    concrete inputs the examples use this one.  It measures distances
    on a flat earth at 111 km per degree and refuses points that are not
    finite numbers, as geopy does; its [math] functions are the
    small-angle approximations [sin x = x], [cos x = 1] and
    [atan2 y x = y / x]; [round] returns its argument. *)

Module Sample.

Definition coordinate (v : pyval) : result float :=
  match v with
  | PFloat x =>
      if is_finite x then Ok x
      else Raise (ValueError "Point coordinates must be finite" [])
  | PNone => Ok 0%float
  | PStr s => Raise (ValueError "could not convert string to float" [s])
  end.

Definition flat_km (point1 point2 : pyval * pyval) : result float :=
  lat1 ← coordinate (fst point1);
  lon1 ← coordinate (snd point1);
  lat2 ← coordinate (fst point2);
  lon2 ← coordinate (snd point2);
  let dlat := (lat1 - lat2)%float in
  let dlon := (lon1 - lon2)%float in
  Ok (111 * sqrt (dlat * dlat + dlon * dlon))%float.

Definition first_or_zero (l : list float) : float :=
  match l with
  | x :: _ => x
  | [] => 0%float
  end.

Definition pi : float := 0x1.921fb54442d18p+1%float.

Definition sqrt_or_error (x : float) : result float :=
  if (x <? 0)%float then Raise (ValueError "math domain error" [])
  else Ok (sqrt x).

Definition env : Env :=
  {| geodesic_km := flat_km;
     str_to_float := fun _ => None;
     round_ndigits := fun x _ => x;
     series_mean := first_or_zero;
     series_min := first_or_zero;
     math_radians := fun x => Ok (x * (pi / 180))%float;
     math_degrees := fun x => Ok (x * (180 / pi))%float;
     math_sin := fun x => Ok x;
     math_cos := fun x => Ok 1%float;
     math_sqrt := sqrt_or_error;
     math_atan2 := fun y x => Ok (y / x)%float;
     float_pow := fun x y => Ok (x * x)%float;
     float_mod := fun x y => Ok (if (x <? y)%float then x else (x - y)%float) |}.

(** A plane row and a drone row with the mandatory columns. *)
Definition plane_row (icao24 : string) (lat lon alt : pyval) : gmap string pyval :=
  <["icao24" := PStr icao24]> (<["latitude" := lat]>
  (<["longitude" := lon]> (<["baro_altitude" := alt]> ∅))).

Definition drone_row (drone_id : string) (lat lon alt : pyval) : gmap string pyval :=
  <["drone_id" := PStr drone_id]> (<["latitude" := lat]>
  (<["longitude" := lon]> (<["altitude" := alt]> ∅))).

Definition planes (rs : list (gmap string pyval)) : Pandas.DataFrame :=
  Pandas.of_records CollisionDetection.required_plane_cols rs.

Definition drones (rs : list (gmap string pyval)) : Pandas.DataFrame :=
  Pandas.of_records CollisionDetection.required_drone_cols rs.

End Sample.

(* ================================================================== *)
(** * Part II: properties                                              *)
(* ================================================================== *)

(** ** Order facts about binary64 numbers *)

Section FloatOrder.
Open Scope float_scope.

Ltac cmp_cases :=
  repeat match goal with
  | s : bool |- _ => destruct s
  | |- context [(?a ?= ?b)%Z] => destruct (Z.compare_spec a b)
  | H : context [(?a ?= ?b)%Z] |- _ => destruct (Z.compare_spec a b)
  | |- context [Pos.compare_cont Eq ?a ?b] =>
      change (Pos.compare_cont Eq a b) with (Pos.compare a b);
      destruct (Pos.compare_spec a b)
  | H : context [Pos.compare_cont Eq ?a ?b] |- _ =>
      change (Pos.compare_cont Eq a b) with (Pos.compare a b) in H;
      destruct (Pos.compare_spec a b)
  end; simpl in *; subst; try reflexivity; try discriminate; try lia.

Lemma SFcompare_antisym x y c :
  SFcompare x y = Some c -> SFcompare y x = Some (CompOpp c).
Proof.
  destruct x as [sx|sx| |sx mx ex], y as [sy|sy| |sy my ey]; simpl;
    try discriminate; intros [= <-]; cmp_cases.
Qed.

Lemma SFcompare_refl x : x <> S754_nan -> SFcompare x x = Some Eq.
Proof.
  destruct x as [sx|sx| |sx mx ex]; simpl; intros Hx; try congruence; cmp_cases.
Qed.

Lemma SFcompare_defined x y :
  x <> S754_nan -> y <> S754_nan -> exists c, SFcompare x y = Some c.
Proof.
  destruct x as [sx|sx| |sx mx ex], y as [sy|sy| |sy my ey]; simpl;
    intros Hx Hy; try congruence; eauto.
Qed.

Lemma SFleb_trans x y z :
  SFleb x y = true -> SFleb y z = true -> SFleb x z = true.
Proof.
  unfold SFleb.
  destruct x as [sx|sx| |sx mx ex], y as [sy|sy| |sy my ey],
           z as [sz|sz| |sz mz ez];
    simpl; try discriminate; try reflexivity; cmp_cases.
Qed.

Lemma is_nan_Prim2SF x : is_nan x = true <-> Prim2SF x = S754_nan.
Proof.
  unfold is_nan. rewrite FloatAxioms.eqb_spec. unfold SFeqb.
  destruct (Prim2SF x) as [s|s| |s m e] eqn:Hx.
  1,2,4: rewrite SFcompare_refl by congruence; simpl; split; congruence.
  simpl. tauto.
Qed.

Lemma not_nan_Prim2SF x : is_nan x = false <-> Prim2SF x <> S754_nan.
Proof.
  rewrite <- is_nan_Prim2SF. destruct (is_nan x); split; congruence.
Qed.

(** [x <= y] is transitive. *)
Lemma leb_trans x y z : (x <=? y) = true -> (y <=? z) = true -> (x <=? z) = true.
Proof. rewrite !FloatAxioms.leb_spec. apply SFleb_trans. Qed.

(** [x == y] implies [x <= y]. *)
Lemma eqb_leb x y : (x =? y) = true -> (x <=? y) = true.
Proof.
  rewrite FloatAxioms.eqb_spec, FloatAxioms.leb_spec. unfold SFeqb, SFleb.
  destruct (SFcompare _ _) as [[]|]; congruence.
Qed.

(** [x < y] excludes [y <= x]. *)
Lemma ltb_not_leb x y : (x <? y) = true -> (y <=? x) = false.
Proof.
  rewrite FloatAxioms.ltb_spec, FloatAxioms.leb_spec. unfold SFltb, SFleb.
  destruct (SFcompare (Prim2SF x) (Prim2SF y)) as [c|] eqn:Hc; try discriminate.
  rewrite (SFcompare_antisym _ _ _ Hc). destruct c; simpl; congruence.
Qed.

(** A comparison that holds has no NaN operand. *)
Lemma leb_not_nan x y : (x <=? y) = true -> is_nan x = false /\ is_nan y = false.
Proof.
  rewrite FloatAxioms.leb_spec. unfold SFleb. intros H.
  split; apply not_nan_Prim2SF; intros Hn; rewrite Hn in H;
    destruct (Prim2SF x), (Prim2SF y); simpl in H; discriminate.
Qed.

(** Numbers that are not NaN are totally ordered. *)
Lemma leb_total x y :
  is_nan x = false -> is_nan y = false -> (x <=? y) = false -> (y <? x) = true.
Proof.
  intros Hx%not_nan_Prim2SF Hy%not_nan_Prim2SF.
  rewrite FloatAxioms.leb_spec, FloatAxioms.ltb_spec. unfold SFleb, SFltb.
  destruct (SFcompare_defined _ _ Hx Hy) as [c Hc].
  rewrite Hc, (SFcompare_antisym _ _ _ Hc). destruct c; simpl; congruence.
Qed.

Lemma leb_refl x : is_nan x = false -> (x <=? x) = true.
Proof.
  intros Hx%not_nan_Prim2SF. rewrite FloatAxioms.leb_spec. unfold SFleb.
  rewrite SFcompare_refl by assumption. reflexivity.
Qed.

Lemma SFeqb_trans x y z :
  SFeqb x y = true -> SFeqb y z = true -> SFeqb x z = true.
Proof.
  unfold SFeqb.
  destruct x as [sx|sx| |sx mx ex], y as [sy|sy| |sy my ey],
           z as [sz|sz| |sz mz ez];
    simpl; try discriminate; try reflexivity; cmp_cases.
Qed.

(** [x == y] is symmetric and transitive, and holds of a number and
    itself unless it is NaN. *)
Lemma eqb_sym x y : (x =? y) = (y =? x).
Proof.
  rewrite !FloatAxioms.eqb_spec. unfold SFeqb.
  destruct (SFcompare (Prim2SF x) (Prim2SF y)) as [c|] eqn:Hc.
  - rewrite (SFcompare_antisym _ _ _ Hc). destruct c; reflexivity.
  - destruct (SFcompare (Prim2SF y) (Prim2SF x)) as [c|] eqn:Hc'; [|reflexivity].
    rewrite (SFcompare_antisym _ _ _ Hc') in Hc. discriminate.
Qed.

Lemma eqb_trans x y z : (x =? y) = true -> (y =? z) = true -> (x =? z) = true.
Proof. rewrite !FloatAxioms.eqb_spec. apply SFeqb_trans. Qed.

Lemma eqb_refl x : is_nan x = false -> (x =? x) = true.
Proof. unfold is_nan. now intros ->%negb_false_iff. Qed.

Lemma ltb_asym x y : (x <? y) = true -> (y <? x) = false.
Proof.
  rewrite !FloatAxioms.ltb_spec. unfold SFltb.
  destruct (SFcompare (Prim2SF x) (Prim2SF y)) as [c|] eqn:Hc; try discriminate.
  rewrite (SFcompare_antisym _ _ _ Hc). destruct c; simpl; congruence.
Qed.

(** On numbers that are not NaN, "different and less" is "not greater
    or equal". *)
Lemma strictly_less x y :
  is_nan x = false -> is_nan y = false ->
  (negb (x =? y) && (x <? y))%bool = negb (y <=? x).
Proof.
  intros Hx%not_nan_Prim2SF Hy%not_nan_Prim2SF.
  rewrite FloatAxioms.eqb_spec, FloatAxioms.ltb_spec, FloatAxioms.leb_spec.
  unfold SFeqb, SFltb, SFleb.
  destruct (SFcompare_defined _ _ Hx Hy) as [c Hc].
  rewrite Hc, (SFcompare_antisym _ _ _ Hc). destruct c; reflexivity.
Qed.

End FloatOrder.

(** ** Equality of values *)

Section ValueEquality.

Lemma py_eq_sym a b : py_eq a b = py_eq b a.
Proof.
  destruct a, b; simpl; try reflexivity.
  - apply eqb_sym.
  - apply String.eqb_sym.
Qed.

Lemma py_eq_trans a b c : py_eq a b = true -> py_eq b c = true -> py_eq a c = true.
Proof.
  destruct a, b, c; simpl; try discriminate; try reflexivity.
  - apply eqb_trans.
  - intros ->%String.eqb_eq. auto.
Qed.

(** A value that is not missing equals itself. *)
Lemma py_eq_refl a : isna a = false -> py_eq a a = true.
Proof.
  destruct a; simpl; try discriminate.
  - apply eqb_refl.
  - intros _. apply String.eqb_refl.
Qed.

End ValueEquality.

(** ** Distance primitives *)

Section DistancePrimitives.
Import CollisionDetection.
Variable E : Env.

(** A coordinate that is a float but not a finite one: NaN or an
    infinity. *)
Definition non_finite (v : pyval) : Prop :=
  exists x, v = PFloat x /\ is_finite x = false.

(** geopy (2.0 and later) refuses to build a point from such a
    coordinate: ["Point coordinates must be finite"]. *)
Definition refuses_non_finite_points (E : Env) : Prop :=
  forall lat1 lon1 lat2 lon2,
    non_finite lat1 \/ non_finite lon1 \/ non_finite lat2 \/ non_finite lon2 ->
    exists e, geodesic_km E (lat1, lon1) (lat2, lon2) = Raise e.

(** Whatever the geodesic computation raises, the function returns
    infinity and prints the exception. *)
Lemma horizontal_distance_on_exception lat1 lon1 lat2 lon2 e :
  geodesic_km E (lat1, lon1) (lat2, lon2) = Raise e ->
  calculate_horizontal_distance E lat1 lon1 lat2 lon2
  = (infinity, [DistanceError e]).
Proof.
  intros H. unfold calculate_horizontal_distance. rewrite H. reflexivity.
Qed.

(** Otherwise it returns the geodesic distance and prints nothing. *)
Lemma horizontal_distance_on_value lat1 lon1 lat2 lon2 d :
  geodesic_km E (lat1, lon1) (lat2, lon2) = Ok d ->
  calculate_horizontal_distance E lat1 lon1 lat2 lon2 = (d, []).
Proof.
  intros H. unfold calculate_horizontal_distance. rewrite H. reflexivity.
Qed.

(** C8. With a library that refuses points that are not finite,
    [calculate_horizontal_distance] returns the infinite distance
    whenever one of its four coordinates is NaN or an infinity; the
    exception is printed, not raised. *)
Theorem horizontal_distance_of_non_finite_input lat1 lon1 lat2 lon2 :
  refuses_non_finite_points E ->
  non_finite lat1 \/ non_finite lon1 \/ non_finite lat2 \/ non_finite lon2 ->
  exists e,
    calculate_horizontal_distance E lat1 lon1 lat2 lon2
    = (infinity, [DistanceError e]).
Proof.
  intros Hlib Hbad.
  destruct (Hlib lat1 lon1 lat2 lon2 Hbad) as [e He].
  exists e. now apply horizontal_distance_on_exception.
Qed.

End DistancePrimitives.

Lemma sample_env_refuses_non_finite_points :
  refuses_non_finite_points Sample.env.
Proof.
  intros lat1 lon1 lat2 lon2 Hbad. simpl. unfold Sample.flat_km. simpl.
  assert (Hc : forall v, non_finite v -> exists e, Sample.coordinate v = Raise e).
  { intros v (x & -> & Hx). simpl. rewrite Hx. eauto. }
  destruct (Sample.coordinate lat1) as [a1|e1] eqn:H1; simpl.
  2: eauto.
  destruct (Sample.coordinate lon1) as [o1|e2] eqn:H2; simpl.
  2: eauto.
  destruct (Sample.coordinate lat2) as [a2|e3] eqn:H3; simpl.
  2: eauto.
  destruct (Sample.coordinate lon2) as [o2|e4] eqn:H4; simpl.
  2: eauto.
  destruct Hbad as [H|[H|[H|H]]]; apply Hc in H as [e He]; congruence.
Qed.

(** A NaN latitude of the first point. *)
Lemma horizontal_distance_of_nan_latitude :
  exists e,
    CollisionDetection.calculate_horizontal_distance Sample.env
      (PFloat nan) (PFloat 77.5%float) (PFloat 12.9%float) (PFloat 77.6%float)
    = (infinity, [CollisionDetection.DistanceError e]).
Proof.
  apply (horizontal_distance_of_non_finite_input Sample.env).
  - exact sample_env_refuses_non_finite_points.
  - left. exists nan. split; reflexivity.
Defined.

(** ** The alert summary *)

Section AlertSummary.
Import CollisionDetection.
Variable E : Env.

(** C5. The summary of no alerts is returned, not raised, and each of
    its seven numeric entries is zero: the three counts are the integer
    0, and the averages and minima are the number 0, which is not NaN. *)
Theorem summary_of_no_alerts :
  let s := get_collision_summary E [] in
  (total_alerts s = 0 /\ unique_drones s = 0 /\ unique_planes s = 0)
  /\ Forall (fun x => x = 0%float /\ is_nan x = false)
       [ avg_horizontal_distance s; avg_vertical_distance s;
         min_horizontal_distance s; min_vertical_distance s ].
Proof.
  intros s. unfold s, get_collision_summary. simpl.
  split; [repeat split|]. repeat constructor.
Qed.

(** On alerts the count is their number. *)
Lemma summary_counts_alerts a alerts :
  total_alerts (get_collision_summary E (a :: alerts))
  = Z.of_nat (length (a :: alerts)).
Proof. reflexivity. Qed.

End AlertSummary.

(** ** The pairwise detector *)

Section Detector.
Import Pandas CollisionDetection.
Variable E : Env.

(** The alert of one pair, if the [try] block appends one. *)
Definition emitted (h_threshold v_threshold : float) (pair : Series * Series)
  : option Alert :=
  match fst (check_pair E (fst pair) (snd pair) h_threshold v_threshold) with
  | Ok (Some alert) => Some alert
  | _ => None
  end.

(** What the loop body prints for one pair. *)
Definition printed_for (h_threshold v_threshold : float) (pair : Series * Series)
  : list event :=
  match check_pair E (fst pair) (snd pair) h_threshold v_threshold with
  | (Raise e, printed) =>
      printed ++ [PairError (get (fst pair) "icao24" (PStr "Unknown"))
                            (get (snd pair) "drone_id" (PStr "Unknown")) e]
  | (Ok _, printed) => printed
  end.

(** The two distances of a pair of rows, as the loop body computes
    them: the horizontal one always exists, the vertical one needs both
    altitudes to convert to floats. *)
Definition horizontal_of (plane drone : Series) : float :=
  fst (calculate_horizontal_distance E
         (cell (values plane) "latitude") (cell (values plane) "longitude")
         (cell (values drone) "latitude") (cell (values drone) "longitude")).

Definition vertical_of (plane drone : Series) : result float :=
  a1 ← py_float E (cell (values plane) "baro_altitude");
  a2 ← py_float E (cell (values drone) "altitude");
  Ok (calculate_vertical_distance a1 a2).

(** The number of rows that [dropna] removes. *)
Definition dropped (subset : list string) (df : DataFrame) : nat :=
  length (List.filter (fun r => negb (complete_row subset r)) (rows df)).

Lemma missing_columns_spec required df col :
  col ∈ missing_columns required df <-> col ∈ required /\ col ∉ columns df.
Proof.
  unfold missing_columns.
  rewrite (list_elem_of_In (List.filter _ _) col), filter_In.
  rewrite negb_true_iff, bool_decide_eq_false, <- list_elem_of_In. tauto.
Qed.

Lemma missing_columns_nil required df :
  missing_columns required df = [] <->
  forall col, col ∈ required -> col ∈ columns df.
Proof.
  split.
  - intros Hnil col Hin.
    destruct (decide (col ∈ columns df)) as [|Hout]; [assumption|].
    assert (Hm : col ∈ missing_columns required df)
      by (apply missing_columns_spec; auto).
    rewrite Hnil in Hm. inversion Hm.
  - intros Hall. destruct (missing_columns required df) as [|col l] eqn:Hm;
      [reflexivity|].
    assert (Hin : col ∈ missing_columns required df) by (rewrite Hm; left).
    apply missing_columns_spec in Hin as [Hin Hout]. destruct Hout. auto.
Qed.

Lemma dropna_complete subset df :
  missing_columns subset df = [] ->
  dropna subset df
  = Ok {| columns := columns df;
          rows := List.filter (complete_row subset) (rows df) |}.
Proof. intros H. unfold dropna. rewrite H. reflexivity. Qed.

Lemma dropna_inv subset df clean :
  dropna subset df = Ok clean ->
  columns clean = columns df
  /\ rows clean = List.filter (complete_row subset) (rows df).
Proof.
  unfold dropna. destruct (missing_columns subset df); [|discriminate].
  intros [= <-]. split; reflexivity.
Qed.

(** Kept and removed rows add up to the rows of the frame. *)
Lemma dropna_accounting subset df clean :
  dropna subset df = Ok clean ->
  (len clean + dropped subset df = len df)%nat.
Proof.
  intros [_ Hrows]%dropna_inv. unfold len, dropped. rewrite Hrows.
  apply List.filter_length.
Qed.

Lemma getitem_present (s : Series) col :
  col ∈ index s -> getitem s col = Ok (cell (values s) col).
Proof.
  intros H. unfold getitem. now rewrite bool_decide_eq_true_2.
Qed.

Lemma iterrows_index df s : s ∈ iterrows df -> index s = columns df.
Proof.
  unfold iterrows. intros (r & -> & _)%list_elem_of_fmap. reflexivity.
Qed.

(** A row with the plane columns and a row with the drone columns. *)
Definition plane_series (s : Series) : Prop :=
  forall col, col ∈ required_plane_cols -> col ∈ index s.

Definition drone_series (s : Series) : Prop :=
  forall col, col ∈ required_drone_cols -> col ∈ index s.

Lemma plane_series_of_frame df s :
  missing_columns required_plane_cols df = [] ->
  s ∈ iterrows df -> plane_series s.
Proof.
  intros Hm Hs col Hc. rewrite (iterrows_index _ _ Hs).
  now apply (proj1 (missing_columns_nil _ _) Hm).
Qed.

Lemma drone_series_of_frame df s :
  missing_columns required_drone_cols df = [] ->
  s ∈ iterrows df -> drone_series s.
Proof.
  intros Hm Hs col Hc. rewrite (iterrows_index _ _ Hs).
  now apply (proj1 (missing_columns_nil _ _) Hm).
Qed.

Ltac required_column :=
  match goal with
  | H : plane_series ?s |- _ ∈ index ?s =>
      apply H; unfold required_plane_cols; set_solver
  | H : drone_series ?s |- _ ∈ index ?s =>
      apply H; unfold required_drone_cols; set_solver
  end.

(** On such rows the [try] block reads its columns without a
    [KeyError], so what it does is decided by the two distances. *)
Lemma check_pair_distances plane drone h_threshold v_threshold :
  plane_series plane -> drone_series drone ->
  fst (check_pair E plane drone h_threshold v_threshold)
  = match vertical_of plane drone with
    | Raise e => Raise e
    | Ok v =>
        if ((horizontal_of plane drone <=? h_threshold)%float
            && (v <=? v_threshold)%float)
        then fst (check_pair E plane drone h_threshold v_threshold)
        else Ok None
    end
  /\ (forall v,
        vertical_of plane drone = Ok v ->
        ((horizontal_of plane drone <=? h_threshold)%float
         && (v <=? v_threshold)%float) = true ->
        exists alert,
          fst (check_pair E plane drone h_threshold v_threshold) = Ok (Some alert)
          /\ drone_id alert = cell (values drone) "drone_id"
          /\ plane_icao24 alert = cell (values plane) "icao24"
          /\ horizontal_distance alert
             = round_ndigits E (horizontal_of plane drone) 3
          /\ vertical_distance alert = round_ndigits E v 2
          /\ drone_lat alert = cell (values drone) "latitude"
          /\ drone_lon alert = cell (values drone) "longitude").
Proof.
  intros Hp Hd.
  unfold check_pair, horizontal_of, vertical_of.
  rewrite !getitem_present by required_column. simpl.
  destruct (calculate_horizontal_distance E _ _ _ _) as [h printed]. simpl.
  unfold check_thresholds.
  rewrite !getitem_present by required_column. simpl.
  destruct (py_float E (cell (values plane) "baro_altitude")) as [a1|e1]; simpl.
  2: { split; [reflexivity|]. intros v [=]. }
  destruct (py_float E (cell (values drone) "altitude")) as [a2|e2]; simpl.
  2: { split; [reflexivity|]. intros v [=]. }
  destruct ((h <=? h_threshold)%float
            && (calculate_vertical_distance a1 a2 <=? v_threshold)%float)
    eqn:Hnear; simpl.
  - split; [reflexivity|]. intros v [= <-] _.
    eexists. split; [reflexivity|]. simpl. repeat split.
  - split; [reflexivity|]. intros v [= <-] Hc. congruence.
Qed.

(** The inner loop appends the alerts of the pairs of one plane. *)
Lemma scan_row h_threshold v_threshold plane ds alerts n out :
  fold_left (scan_pair E h_threshold v_threshold plane) ds (alerts, n, out)
  = (alerts ++ omap (fun d => emitted h_threshold v_threshold (plane, d)) ds,
     (n + length (omap (fun d => emitted h_threshold v_threshold (plane, d)) ds))%nat,
     out ++ concat (map (fun d => printed_for h_threshold v_threshold (plane, d)) ds)).
Proof.
  revert alerts n out. induction ds as [|d ds IH]; intros alerts n out; simpl.
  - now rewrite !app_nil_r, Nat.add_0_r.
  - assert (He : emitted h_threshold v_threshold (plane, d)
                 = match fst (check_pair E plane d h_threshold v_threshold) with
                   | Ok (Some a) => Some a
                   | _ => None
                   end) by reflexivity.
    assert (Hp : printed_for h_threshold v_threshold (plane, d)
                 = match check_pair E plane d h_threshold v_threshold with
                   | (Raise e, printed) =>
                       printed ++
                         [PairError (get plane "icao24" (PStr "Unknown"))
                                    (get d "drone_id" (PStr "Unknown")) e]
                   | (Ok _, printed) => printed
                   end) by reflexivity.
    rewrite He, Hp. clear He Hp.
    destruct (check_pair E plane d h_threshold v_threshold)
      as [[[a|]|e] printed]; simpl; rewrite IH; rewrite <- ?app_assoc.
    + simpl. rewrite Nat.add_succ_r. reflexivity.
    + reflexivity.
    + simpl. rewrite <- ?app_assoc. reflexivity.
Qed.

Lemma omap_map {A B C} (f : B -> option C) (g : A -> B) (l : list A) :
  omap f (map g l) = omap (fun x => f (g x)) l.
Proof.
  induction l as [|x l IH]; [reflexivity|].
  cbn. rewrite IH. reflexivity.
Qed.

(** The nested loops append the alerts of all pairs, plane by plane. *)
Lemma scan_pairs_spec h_threshold v_threshold planes_clean drones_clean
    alerts n out :
  let pairs := list_prod (iterrows planes_clean) (iterrows drones_clean) in
  scan_pairs E h_threshold v_threshold planes_clean drones_clean (alerts, n, out)
  = (alerts ++ omap (emitted h_threshold v_threshold) pairs,
     (n + length (omap (emitted h_threshold v_threshold) pairs))%nat,
     out ++ concat (map (printed_for h_threshold v_threshold) pairs)).
Proof.
  unfold scan_pairs. generalize (iterrows drones_clean) as ds.
  generalize (iterrows planes_clean) as ps. intros ps ds.
  revert alerts n out. induction ps as [|p ps IH]; intros alerts n out; simpl.
  - now rewrite !app_nil_r, Nat.add_0_r.
  - rewrite scan_row, IH. simpl.
    rewrite omap_app, map_app, concat_app, length_app.
    rewrite omap_map, map_map.
    rewrite <- !app_assoc, Nat.add_assoc. reflexivity.
Qed.

Lemma list_prod_nil_r {A B} (l : list A) : list_prod l (@nil B) = [].
Proof. induction l as [|x l IH]; [reflexivity|]. simpl. exact IH. Qed.

(** A frame that has the required columns is empty only when it has no
    row. *)
Lemma empty_no_rows required df col :
  col ∈ required -> missing_columns required df = [] ->
  empty df = true -> rows df = [].
Proof.
  intros Hc Hm. unfold empty.
  apply (proj1 (missing_columns_nil _ _) Hm) in Hc.
  destruct (columns df) as [|c cs]; [inversion Hc|]. simpl.
  destruct (rows df); [reflexivity|discriminate].
Qed.

(** What [detect_collisions] returns and prints when it gets past its
    validation. *)
Lemma detect_collisions_run planes_df drones_df h_threshold v_threshold :
  empty planes_df = false -> empty drones_df = false ->
  missing_columns required_plane_cols planes_df = [] ->
  missing_columns required_drone_cols drones_df = [] ->
  let planes_clean :=
    {| columns := columns planes_df;
       rows := List.filter (complete_row required_plane_cols) (rows planes_df) |} in
  let drones_clean :=
    {| columns := columns drones_df;
       rows := List.filter (complete_row required_drone_cols) (rows drones_df) |} in
  let pairs := list_prod (iterrows planes_clean) (iterrows drones_clean) in
  detect_collisions E planes_df drones_df h_threshold v_threshold
  = (Ok (omap (emitted h_threshold v_threshold) pairs),
     Processing (len planes_clean) (len drones_clean)
     :: concat (map (printed_for h_threshold v_threshold) pairs)
     ++ [Complete (length (omap (emitted h_threshold v_threshold) pairs))
                  (len planes_clean * len drones_clean)]).
Proof.
  intros Hp Hd Hmp Hmd planes_clean drones_clean pairs.
  unfold detect_collisions. rewrite Hp, Hd, Hmp, Hmd. simpl.
  fold required_plane_cols required_drone_cols.
  rewrite (dropna_complete _ _ Hmp), (dropna_complete _ _ Hmd).
  fold planes_clean drones_clean.
  rewrite scan_pairs_spec. fold pairs. reflexivity.
Qed.

(** Without a row on one side nothing is compared. *)
Lemma detect_collisions_empty planes_df drones_df h_threshold v_threshold :
  empty planes_df || empty drones_df = true ->
  detect_collisions E planes_df drones_df h_threshold v_threshold
  = (Ok [], [EmptyWarning]).
Proof. intros H. unfold detect_collisions. rewrite H. reflexivity. Qed.

(** The alerts, for frames that have the required columns. *)
Lemma detect_collisions_alerts planes_df drones_df h_threshold v_threshold :
  missing_columns required_plane_cols planes_df = [] ->
  missing_columns required_drone_cols drones_df = [] ->
  fst (detect_collisions E planes_df drones_df h_threshold v_threshold)
  = Ok (omap (emitted h_threshold v_threshold)
          (list_prod
             (iterrows {| columns := columns planes_df;
                          rows := List.filter (complete_row required_plane_cols)
                                    (rows planes_df) |})
             (iterrows {| columns := columns drones_df;
                          rows := List.filter (complete_row required_drone_cols)
                                    (rows drones_df) |}))).
Proof.
  intros Hmp Hmd.
  destruct (empty planes_df) eqn:Hp.
  { rewrite detect_collisions_empty by (rewrite Hp; reflexivity).
    rewrite (empty_no_rows required_plane_cols _ "icao24");
      [reflexivity|unfold required_plane_cols; set_solver|assumption..]. }
  destruct (empty drones_df) eqn:Hd.
  { rewrite detect_collisions_empty by (rewrite Hp, Hd; reflexivity).
    rewrite (empty_no_rows required_drone_cols drones_df "drone_id");
      [|unfold required_drone_cols; set_solver|assumption..].
    unfold iterrows at 2. simpl. rewrite list_prod_nil_r. reflexivity. }
  rewrite detect_collisions_run by assumption. reflexivity.
Qed.

(** The near-miss test of one pair of rows. *)
Lemma emitted_iff plane drone h_threshold v_threshold :
  plane_series plane -> drone_series drone ->
  is_Some (emitted h_threshold v_threshold (plane, drone)) <->
  exists v, vertical_of plane drone = Ok v
            /\ (horizontal_of plane drone <=? h_threshold)%float = true
            /\ (v <=? v_threshold)%float = true.
Proof.
  intros Hp Hd.
  destruct (check_pair_distances plane drone h_threshold v_threshold Hp Hd)
    as [Hfst Halert].
  unfold emitted. simpl. split.
  - intros Hsome. rewrite Hfst in Hsome.
    destruct (vertical_of plane drone) as [v|e]; [|destruct Hsome; discriminate].
    exists v. split; [reflexivity|]. apply andb_true_iff.
    destruct (_ && _); [reflexivity|destruct Hsome; discriminate].
  - intros (v & Hv & Hh & Hvt).
    destruct (Halert v Hv) as (alert & -> & _); [|eauto].
    rewrite Hh, Hvt. reflexivity.
Qed.

(** C1. For frames with the required columns, [detect_collisions]
    returns one alert for each pair of the cross product of the cleaned
    frames (planes outside, drones inside) that passes the test, and a
    pair passes exactly when its horizontal distance is at most
    [h_threshold] and its vertical distance is at most [v_threshold];
    a pair whose distances equal the two thresholds is reported. *)
Theorem detect_collisions_inclusive_thresholds
    planes_df drones_df h_threshold v_threshold :
  missing_columns required_plane_cols planes_df = [] ->
  missing_columns required_drone_cols drones_df = [] ->
  exists planes_clean drones_clean,
    dropna required_plane_cols planes_df = Ok planes_clean
    /\ dropna required_drone_cols drones_df = Ok drones_clean
    /\ fst (detect_collisions E planes_df drones_df h_threshold v_threshold)
       = Ok (omap (emitted h_threshold v_threshold)
               (list_prod (iterrows planes_clean) (iterrows drones_clean)))
    /\ forall plane drone,
         plane ∈ iterrows planes_clean -> drone ∈ iterrows drones_clean ->
         (is_Some (emitted h_threshold v_threshold (plane, drone)) <->
          exists v, vertical_of plane drone = Ok v
                    /\ (horizontal_of plane drone <=? h_threshold)%float = true
                    /\ (v <=? v_threshold)%float = true)
         /\ (forall v, vertical_of plane drone = Ok v ->
               (horizontal_of plane drone =? h_threshold)%float = true ->
               (v =? v_threshold)%float = true ->
               is_Some (emitted h_threshold v_threshold (plane, drone))).
Proof.
  intros Hmp Hmd.
  eexists _, _. split; [apply (dropna_complete _ _ Hmp)|].
  split; [apply (dropna_complete _ _ Hmd)|].
  split; [apply detect_collisions_alerts; assumption|].
  intros plane drone Hplane Hdrone.
  assert (Hp : plane_series plane).
  { intros col Hc. rewrite (iterrows_index _ _ Hplane). simpl.
    now apply (proj1 (missing_columns_nil _ _) Hmp). }
  assert (Hd : drone_series drone).
  { intros col Hc. rewrite (iterrows_index _ _ Hdrone). simpl.
    now apply (proj1 (missing_columns_nil _ _) Hmd). }
  split; [now apply emitted_iff|].
  intros v Hv Hh Hvt. apply emitted_iff; [assumption..|].
  exists v. auto using eqb_leb.
Qed.

(** The claim of the specification about a missing column, as it is
    worded: whenever a required column is absent from a batch, the call
    ends in an error that lists the absent columns of that batch. *)
Definition schema_error_always : Prop :=
  forall (E : Env) planes_df drones_df h_threshold v_threshold,
    missing_columns required_plane_cols planes_df <> []
    \/ missing_columns required_drone_cols drones_df <> [] ->
    exists msg names,
      fst (detect_collisions E planes_df drones_df h_threshold v_threshold)
      = Raise (ValueError msg names).

(** C6, as the code has it. When both frames are non-empty, a required
    column that is absent ends the call in a [ValueError] before
    anything is printed: it lists the absent plane columns, or, when the
    plane frame is complete, the absent drone columns; the list holds
    exactly the required columns that the frame does not have. *)
Theorem schema_error_on_non_empty_batches
    planes_df drones_df h_threshold v_threshold :
  empty planes_df = false -> empty drones_df = false ->
  (missing_columns required_plane_cols planes_df <> [] ->
   detect_collisions E planes_df drones_df h_threshold v_threshold
   = (Raise (ValueError "Missing required plane columns: "
               (missing_columns required_plane_cols planes_df)), []))
  /\ (missing_columns required_plane_cols planes_df = [] ->
      missing_columns required_drone_cols drones_df <> [] ->
      detect_collisions E planes_df drones_df h_threshold v_threshold
      = (Raise (ValueError "Missing required drone columns: "
                  (missing_columns required_drone_cols drones_df)), []))
  /\ (forall required df col,
        col ∈ missing_columns required df <->
        col ∈ required /\ col ∉ columns df).
Proof.
  intros Hp Hd. unfold detect_collisions. rewrite Hp, Hd. cbn [orb].
  split; [|split].
  - intros Hmiss.
    destruct (missing_columns required_plane_cols planes_df);
      [congruence|reflexivity].
  - intros -> Hmiss.
    destruct (missing_columns required_drone_cols drones_df);
      [congruence|reflexivity].
  - apply missing_columns_spec.
Qed.

(** C7, as the code has it. Past the validation, the rows with a
    missing value in a mandatory column are removed from both frames
    before any pair is compared, no error is raised, and the first line
    printed gives the numbers of rows that are kept; the rows removed
    are the remaining ones, and their number is not printed. *)
Theorem rows_with_missing_values_are_dropped
    planes_df drones_df h_threshold v_threshold :
  empty planes_df = false -> empty drones_df = false ->
  missing_columns required_plane_cols planes_df = [] ->
  missing_columns required_drone_cols drones_df = [] ->
  exists planes_clean drones_clean printed,
    dropna required_plane_cols planes_df = Ok planes_clean
    /\ dropna required_drone_cols drones_df = Ok drones_clean
    /\ (forall r, r ∈ rows planes_clean <->
          r ∈ rows planes_df
          /\ forall col, col ∈ required_plane_cols -> isna (cell r col) = false)
    /\ (forall r, r ∈ rows drones_clean <->
          r ∈ rows drones_df
          /\ forall col, col ∈ required_drone_cols -> isna (cell r col) = false)
    /\ (len planes_clean + dropped required_plane_cols planes_df
        = len planes_df)%nat
    /\ (len drones_clean + dropped required_drone_cols drones_df
        = len drones_df)%nat
    /\ detect_collisions E planes_df drones_df h_threshold v_threshold
       = (Ok (omap (emitted h_threshold v_threshold)
                (list_prod (iterrows planes_clean) (iterrows drones_clean))),
          Processing (len planes_clean) (len drones_clean) :: printed).
Proof.
  intros Hp Hd Hmp Hmd.
  assert (Hrows : forall subset (l : list (gmap string pyval)) r,
             r ∈ List.filter (complete_row subset) l <->
             r ∈ l /\ forall col, col ∈ subset -> isna (cell r col) = false).
  { intros subset l r. rewrite !list_elem_of_In, filter_In.
    unfold complete_row. rewrite forallb_forall.
    setoid_rewrite negb_true_iff. setoid_rewrite <- list_elem_of_In.
    reflexivity. }
  eexists _, _, _.
  split; [apply (dropna_complete _ _ Hmp)|].
  split; [apply (dropna_complete _ _ Hmd)|].
  split; [apply Hrows|]. split; [apply Hrows|].
  split; [apply dropna_accounting, dropna_complete, Hmp|].
  split; [apply dropna_accounting, dropna_complete, Hmd|].
  rewrite detect_collisions_run by assumption. reflexivity.
Qed.

End Detector.

(** ** The detector on concrete batches *)

Module DetectorRuns.
Import Pandas CollisionDetection.

(** A plane frame without the column [baro_altitude]. *)
Definition planes_without_altitude : DataFrame :=
  of_records ["icao24"; "latitude"; "longitude"]
    [ <["icao24" := PStr "abc123"]> (<["latitude" := PFloat 12.9%float]>
      (<["longitude" := PFloat 77.5%float]> ∅)) ].

Definition one_drone : DataFrame :=
  Sample.drones
    [ Sample.drone_row "D1" (PFloat 50%float) (PFloat 8%float) (PFloat 90%float) ].

(** Ten planes, two of them without a latitude ([None] and NaN). *)
Definition ten_planes : DataFrame :=
  Sample.planes
    (map (fun p => Sample.plane_row (fst p) (snd p)
                     (PFloat 77.5%float) (PFloat 1000%float))
       [ ("P0", PFloat 12.0%float); ("P1", PFloat 12.1%float);
         ("P2", PNone);             ("P3", PFloat 12.3%float);
         ("P4", PFloat 12.4%float); ("P5", PFloat 12.5%float);
         ("P6", PFloat nan);        ("P7", PFloat 12.7%float);
         ("P8", PFloat 12.8%float); ("P9", PFloat 12.9%float) ]).

(** The eight of them that have one. *)
Definition eight_planes : DataFrame :=
  Sample.planes
    (map (fun p => Sample.plane_row (fst p) (snd p)
                     (PFloat 77.5%float) (PFloat 1000%float))
       [ ("P0", PFloat 12.0%float); ("P1", PFloat 12.1%float);
         ("P3", PFloat 12.3%float); ("P4", PFloat 12.4%float);
         ("P5", PFloat 12.5%float); ("P7", PFloat 12.7%float);
         ("P8", PFloat 12.8%float); ("P9", PFloat 12.9%float) ]).

(** A plane and a drone half a degree and 100 m apart: 55.5 km on the
    grid of the stand-in environment. *)
Definition plane_at_origin : DataFrame :=
  Sample.planes
    [ Sample.plane_row "abc123" (PFloat 0%float) (PFloat 0%float) (PFloat 200%float) ].

Definition drone_half_degree_north : DataFrame :=
  Sample.drones
    [ Sample.drone_row "D1" (PFloat 0.5%float) (PFloat 0%float) (PFloat 100%float) ].

End DetectorRuns.

Section DetectorRunFacts.
Import Pandas CollisionDetection DetectorRuns.

(** A pair exactly at both thresholds yields its alert. *)
Lemma pair_at_both_thresholds_is_reported :
  exists alert,
    fst (detect_collisions Sample.env plane_at_origin drone_half_degree_north
           55.5%float 100%float) = Ok [alert]
    /\ PrimFloat.eqb (horizontal_distance alert) 55.5%float = true
    /\ PrimFloat.eqb (vertical_distance alert) 100%float = true.
Proof.
  destruct (detect_collisions_inclusive_thresholds Sample.env
              plane_at_origin drone_half_degree_north 55.5%float 100%float)
    as (planes_clean & drones_clean & Hp & Hd & Hres & _).
  - vm_compute. reflexivity.
  - vm_compute. reflexivity.
  - apply dropna_inv in Hp as [Hpc Hpr]. apply dropna_inv in Hd as [Hdc Hdr].
    destruct planes_clean as [pc pr], drones_clean as [dc dr]. simpl in *.
    subst. rewrite Hres. vm_compute. eexists. repeat split.
Defined.

(** A missing column next to a batch without rows: the call returns the
    empty list and prints the warning. *)
Lemma missing_column_beside_empty_batch :
  missing_columns required_plane_cols planes_without_altitude = ["baro_altitude"]
  /\ detect_collisions Sample.env planes_without_altitude (Sample.drones [])
       0.5%float 100%float
     = (Ok [], [EmptyWarning]).
Proof. split; vm_compute; reflexivity. Qed.

(** So the claim of the specification does not hold as it is worded. *)
Lemma schema_error_always_fails : ~ schema_error_always.
Proof.
  intros H.
  destruct (H Sample.env planes_without_altitude (Sample.drones [])
              0.5%float 100%float) as (msg & names & Hraise).
  - left. vm_compute. discriminate.
  - vm_compute in Hraise. discriminate.
Qed.

(** The same plane frame next to a drone: the error names the column. *)
Lemma missing_altitude_column_is_named :
  detect_collisions Sample.env planes_without_altitude one_drone
    0.5%float 100%float
  = (Raise (ValueError "Missing required plane columns: " ["baro_altitude"]), []).
Proof.
  destruct (schema_error_on_non_empty_batches Sample.env
              planes_without_altitude one_drone 0.5%float 100%float)
    as (Hplane & _ & _).
  - vm_compute. reflexivity.
  - vm_compute. reflexivity.
  - rewrite Hplane by (vm_compute; discriminate). vm_compute. reflexivity.
Defined.

(** Ten planes of which two lack a latitude, and the eight complete
    ones: two rows are dropped in one call and none in the other, and
    both calls return and print the same; the number 2 is nowhere. *)
Lemma dropped_rows_are_not_counted :
  dropped required_plane_cols ten_planes = 2%nat
  /\ dropped required_plane_cols eight_planes = 0%nat
  /\ detect_collisions Sample.env ten_planes one_drone 0.5%float 100%float
     = (Ok [], [Processing 8 1; Complete 0 8])
  /\ detect_collisions Sample.env eight_planes one_drone 0.5%float 100%float
     = (Ok [], [Processing 8 1; Complete 0 8]).
Proof. repeat split; vm_compute; reflexivity. Qed.

(** Of the ten planes eight are kept, and 8 is the number printed. *)
Lemma ten_planes_two_without_latitude :
  exists planes_clean printed,
    dropna required_plane_cols ten_planes = Ok planes_clean
    /\ len planes_clean = 8%nat
    /\ dropped required_plane_cols ten_planes = 2%nat
    /\ detect_collisions Sample.env ten_planes one_drone 0.5%float 100%float
       = (Ok [], Processing 8 1 :: printed).
Proof.
  destruct (rows_with_missing_values_are_dropped Sample.env
              ten_planes one_drone 0.5%float 100%float)
    as (planes_clean & drones_clean & printed
        & Hp & Hd & _ & _ & Hcount & _ & Hrun).
  1-4: vm_compute; reflexivity.
  exists planes_clean, printed. split; [exact Hp|].
  assert (Hdropped : dropped required_plane_cols ten_planes = 2%nat)
    by (vm_compute; reflexivity).
  assert (Hlen : len planes_clean = 8%nat).
  { rewrite Hdropped in Hcount. change (len ten_planes) with 10%nat in Hcount. lia. }
  split; [exact Hlen|]. split; [exact Hdropped|].
  rewrite Hrun. rewrite Hlen.
  apply dropna_inv in Hp as [Hpc Hpr]. apply dropna_inv in Hd as [Hdc Hdr].
  destruct planes_clean as [pc pr], drones_clean as [dc dr]. simpl in *.
  subst. vm_compute. reflexivity.
Defined.

End DetectorRunFacts.

(** ** Danger classification *)

Section Classification.
Import AlertTranslator.
Open Scope float_scope.

Lemma init_thresholds :
  threshold init "critical" = Ok 0.5
  /\ threshold init "high" = Ok 1.0
  /\ threshold init "medium" = Ok 2.0
  /\ threshold init "low" = Ok 5.0.
Proof. repeat split; vm_compute; reflexivity. Qed.

(** With the thresholds of [__init__] the lookups succeed and the
    function is this ladder. *)
Lemma danger_level_ladder d :
  _get_danger_level init d
  = Ok (if d <=? 0.5 then "CRITICAL"
        else if d <=? 1.0 then "HIGH"
        else if d <=? 2.0 then "MEDIUM"
        else if d <=? 5.0 then "LOW"
        else "SAFE").
Proof.
  destruct init_thresholds as (Hc & Hh & Hm & Hl).
  unfold _get_danger_level. rewrite Hc, Hh, Hm, Hl. simpl.
  repeat match goal with |- context [if ?b then _ else _] => destruct b end;
    reflexivity.
Qed.

Lemma priorities :
  _get_priority "CRITICAL" = 1%Z
  /\ _get_priority "HIGH" = 2%Z
  /\ _get_priority "MEDIUM" = 3%Z
  /\ _get_priority "LOW" = 4%Z
  /\ _get_priority "SAFE" = 5%Z.
Proof. repeat split; vm_compute; reflexivity. Qed.

(** A distance above one rung and outside the next interval is above
    the next rung. *)
Lemma above_next_rung d lo hi :
  is_nan lo = false ->
  (d <=? lo) = false -> ((lo <? d) && (d <=? hi))%bool = false ->
  (d <=? hi) = false.
Proof.
  intros Hlo Hbelow Hout.
  destruct (d <=? hi) eqn:Hhi; [|reflexivity].
  destruct (leb_not_nan _ _ Hhi) as [Hd _].
  rewrite (leb_total d lo Hd Hlo Hbelow) in Hout. discriminate.
Qed.

(** A distance above a rung is above the rungs below it. *)
Lemma above_lower_rung d lo hi :
  (lo <=? hi) = true -> (d <=? hi) = false -> (d <=? lo) = false.
Proof.
  intros Hrungs Hhi. destruct (d <=? lo) eqn:Hlo; [|reflexivity].
  rewrite (leb_trans _ _ _ Hlo Hrungs) in Hhi. discriminate.
Qed.

(** C2. With the thresholds of [__init__], a distance is CRITICAL up to
    0.5, HIGH above 0.5 and up to 1.0, MEDIUM above 1.0 and up to 2.0,
    LOW above 2.0 and up to 5.0, and SAFE in every other case (NaN
    included); the priorities of the five levels are 1 to 5. *)
Theorem danger_levels_and_priorities (d : float) :
  ((d <=? 0.5) = true -> _get_danger_level init d = Ok "CRITICAL")
  /\ ((0.5 <? d) = true -> (d <=? 1.0) = true ->
      _get_danger_level init d = Ok "HIGH")
  /\ ((1.0 <? d) = true -> (d <=? 2.0) = true ->
      _get_danger_level init d = Ok "MEDIUM")
  /\ ((2.0 <? d) = true -> (d <=? 5.0) = true ->
      _get_danger_level init d = Ok "LOW")
  /\ ((d <=? 0.5) = false ->
      ((0.5 <? d) && (d <=? 1.0))%bool = false ->
      ((1.0 <? d) && (d <=? 2.0))%bool = false ->
      ((2.0 <? d) && (d <=? 5.0))%bool = false ->
      _get_danger_level init d = Ok "SAFE")
  /\ _get_priority "CRITICAL" = 1%Z
  /\ _get_priority "HIGH" = 2%Z
  /\ _get_priority "MEDIUM" = 3%Z
  /\ _get_priority "LOW" = 4%Z
  /\ _get_priority "SAFE" = 5%Z.
Proof.
  rewrite danger_level_ladder.
  split; [|split; [|split; [|split; [|split; [|exact priorities]]]]].
  - intros ->. reflexivity.
  - intros Hlo%ltb_not_leb ->. rewrite Hlo. reflexivity.
  - intros Hlo%ltb_not_leb ->. rewrite Hlo.
    rewrite (above_lower_rung d 0.5 1.0) by (assumption || reflexivity).
    reflexivity.
  - intros Hlo%ltb_not_leb ->. rewrite Hlo.
    rewrite (above_lower_rung d 1.0 2.0) by (assumption || reflexivity).
    rewrite (above_lower_rung d 0.5 2.0) by (assumption || reflexivity).
    reflexivity.
  - intros H1 H2 H3 H4.
    assert (H1' := above_next_rung d 0.5 1.0 eq_refl H1 H2).
    assert (H2' := above_next_rung d 1.0 2.0 eq_refl H1' H3).
    assert (H3' := above_next_rung d 2.0 5.0 eq_refl H2' H4).
    rewrite H1, H1', H2', H3'. reflexivity.
Qed.

(** C10. A distance that is not greater gets a priority that is not
    greater: the classification is monotone, so less separation never
    means less severity. *)
Theorem danger_level_monotone (d1 d2 : float) :
  (d1 <=? d2) = true ->
  exists level1 level2,
    _get_danger_level init d1 = Ok level1
    /\ _get_danger_level init d2 = Ok level2
    /\ (_get_priority level1 <= _get_priority level2)%Z.
Proof.
  intros Hle. rewrite !danger_level_ladder. eexists _, _.
  split; [reflexivity|]. split; [reflexivity|].
  assert (Hrung : forall t, (d2 <=? t) = true -> (d1 <=? t) = true)
    by (intros t; apply leb_trans; exact Hle).
  destruct priorities as (Pc & Ph & Pm & Pl & Ps).
  destruct (d2 <=? 0.5) eqn:C2; [rewrite (Hrung _ C2), Pc; lia|].
  destruct (d2 <=? 1.0) eqn:H2.
  { rewrite (Hrung _ H2). destruct (d1 <=? 0.5); rewrite ?Pc, ?Ph; lia. }
  destruct (d2 <=? 2.0) eqn:M2.
  { rewrite (Hrung _ M2).
    destruct (d1 <=? 0.5), (d1 <=? 1.0); rewrite ?Pc, ?Ph, ?Pm; lia. }
  destruct (d2 <=? 5.0) eqn:L2.
  { rewrite (Hrung _ L2).
    destruct (d1 <=? 0.5), (d1 <=? 1.0), (d1 <=? 2.0);
      rewrite ?Pc, ?Ph, ?Pm, ?Pl; lia. }
  destruct (d1 <=? 0.5), (d1 <=? 1.0), (d1 <=? 2.0), (d1 <=? 5.0);
    rewrite ?Pc, ?Ph, ?Pm, ?Pl, ?Ps; lia.
Qed.

(** Between two distances of one level every distance has that level:
    the levels are intervals of the distance axis. *)
Lemma danger_levels_are_intervals (d1 d d2 : float) :
  (d1 <=? d) = true -> (d <=? d2) = true ->
  _get_danger_level init d1 = _get_danger_level init d2 ->
  _get_danger_level init d = _get_danger_level init d1.
Proof.
  intros H1 H2. rewrite !danger_level_ladder. intros [= Heq]. f_equal.
  assert (Hup : forall t, (d2 <=? t) = true -> (d <=? t) = true)
    by (intros t; apply leb_trans; exact H2).
  assert (Hdown : forall t, (d <=? t) = true -> (d1 <=? t) = true)
    by (intros t; apply leb_trans; exact H1).
  destruct (d2 <=? 0.5) eqn:A2, (d2 <=? 1.0) eqn:B2,
           (d2 <=? 2.0) eqn:C2, (d2 <=? 5.0) eqn:D2;
    rewrite ?(Hup _ eq_refl) in *;
    repeat match goal with
           | H : (d2 <=? ?t) = true |- _ =>
               rewrite (Hup _ H); rewrite ?(Hdown _ (Hup _ H)) in *; clear H
           end;
    try reflexivity;
    destruct (d <=? 0.5) eqn:A, (d <=? 1.0) eqn:B,
             (d <=? 2.0) eqn:C, (d <=? 5.0) eqn:D;
    repeat match goal with
           | H : (d <=? ?t) = true |- _ =>
               rewrite ?(Hdown _ H) in *; clear H
           end;
    try reflexivity;
    destruct (d1 <=? 0.5), (d1 <=? 1.0), (d1 <=? 2.0), (d1 <=? 5.0);
    try reflexivity; try discriminate.
Qed.

End Classification.

(** Two distances and their levels: 0.3 km is CRITICAL (priority 1),
    1.5 km is MEDIUM (priority 3). *)
Lemma closer_is_not_less_severe :
  exists level1 level2,
    AlertTranslator._get_danger_level AlertTranslator.init 0.3%float = Ok level1
    /\ AlertTranslator._get_danger_level AlertTranslator.init 1.5%float = Ok level2
    /\ AlertTranslator._get_priority level1 <= AlertTranslator._get_priority level2.
Proof.
  apply (danger_level_monotone 0.3%float 1.5%float). vm_compute. reflexivity.
Defined.

(** ** The stable sort *)

(** Whatever the comparison, the sort rearranges its list. *)
Section SortPermutation.
Context {A K : Type} (key : A -> K) (lt : K -> K -> bool).

Lemma insert_by_permutation x l :
  Permutation (insert_by key lt x l) (x :: l).
Proof.
  induction l as [|y l IH]; simpl; [reflexivity|].
  destruct (lt (key y) (key x)); [|reflexivity].
  rewrite IH. apply perm_swap.
Qed.

Lemma sort_by_permutation l : Permutation (sort_by key lt l) l.
Proof.
  induction l as [|x l IH]; simpl; [reflexivity|].
  rewrite insert_by_permutation. now constructor.
Qed.

End SortPermutation.

(** On integer keys it sorts, and it is stable. *)
Section SortByInteger.
Context {A : Type} (key : A -> Z).

Definition key_le (a b : A) : Prop := key a <= key b.

Definition with_key (p : Z) (l : list A) : list A :=
  List.filter (fun a => Z.eqb (key a) p) l.

Lemma insert_by_sorted x l :
  StronglySorted key_le l -> StronglySorted key_le (insert_by key Z.ltb x l).
Proof.
  induction 1 as [|y l Hl IH Hy]; simpl.
  - repeat constructor.
  - destruct (Z.ltb_spec (key y) (key x)) as [Hlt|Hge].
    + constructor; [exact IH|].
      rewrite Forall_forall. intros z Hz.
      rewrite insert_by_permutation in Hz.
      apply elem_of_cons in Hz as [->|Hz]; [unfold key_le; lia|].
      rewrite Forall_forall in Hy. now apply Hy.
    + constructor; [now constructor|].
      constructor; [exact Hge|].
      rewrite Forall_forall in Hy |- *. intros z Hz.
      specialize (Hy z Hz). unfold key_le in *. lia.
Qed.

Lemma sort_by_sorted l : StronglySorted key_le (sort_by key Z.ltb l).
Proof.
  induction l as [|x l IH]; simpl; [constructor|].
  now apply insert_by_sorted.
Qed.

(** Insertion keeps the elements of each key in their order. *)
Lemma insert_by_stable p x l :
  with_key p (insert_by key Z.ltb x l) = with_key p (x :: l).
Proof.
  unfold with_key.
  induction l as [|y l IH]; simpl; [reflexivity|].
  destruct (Z.ltb_spec (key y) (key x)) as [Hlt|Hge]; [|reflexivity].
  simpl. rewrite IH. simpl.
  destruct (Z.eqb_spec (key y) p), (Z.eqb_spec (key x) p); try reflexivity.
  lia.
Qed.

Lemma sort_by_stable p l : with_key p (sort_by key Z.ltb l) = with_key p l.
Proof.
  induction l as [|x l IH]; simpl; [reflexivity|].
  rewrite insert_by_stable. unfold with_key in *. simpl. now rewrite IH.
Qed.

End SortByInteger.

(** ** Per-drone aggregation *)

Section Aggregation.
Import AlertTranslator.
Variable E : Env.

Definition not_safe (a : DroneAlert) : bool :=
  negb (String.eqb (danger_level a) "SAFE").

(** What makes a summary the summary of [drone] against [plane_data]:
    every plane is evaluated, the alerts that are not SAFE are kept, and
    they are stored sorted by priority with ties in evaluation order. *)
Definition summary_of (self : DroneAlertTranslator)
    (plane_data : list (gmap string pyval)) (drone : gmap string pyval)
    (s : DroneSummary) : Prop :=
  exists evaluated,
    map_result (fun plane => translate_plane_to_drone_alert E self plane drone)
      plane_data = Ok evaluated
    /\ Permutation (alerts s) (List.filter not_safe evaluated)
    /\ StronglySorted (fun a b => priority a <= priority b) (alerts s)
    /\ (forall p, with_key priority p (alerts s)
                  = with_key priority p (List.filter not_safe evaluated))
    /\ Forall (fun a => danger_level a <> "SAFE") (alerts s)
    /\ alert_count s = length (alerts s)
    /\ highest_priority s
       = match alerts s with
         | first :: _ => danger_level first
         | [] => "SAFE"
         end
    /\ drone_id s = dict_get drone "drone_id" PNone.

Lemma map_result_raise {X Y} (f : X -> result Y) l e :
  map_result f l = Raise e -> exists x, x ∈ l /\ f x = Raise e.
Proof.
  induction l as [|x l IH]; simpl; [discriminate|].
  destruct (f x) as [y|e'] eqn:Hx.
  - destruct (map_result f l) as [ys|e''] eqn:Hl; [discriminate|].
    intros [= <-]. destruct (IH eq_refl) as (x' & Hin & Hx').
    exists x'. split; [now right|assumption].
  - intros [= <-]. exists x. split; [left|assumption].
Qed.

(** The inner loop evaluates every plane and keeps what is not SAFE. *)
Lemma collect_alerts_spec self drone plane_data acc :
  for_each plane_data
    (fun drone_alerts plane =>
       alert ← translate_plane_to_drone_alert E self plane drone;
       if negb (String.eqb (danger_level alert) "SAFE")
       then Ok (drone_alerts ++ [alert])
       else Ok drone_alerts)
    acc
  = match map_result
            (fun plane => translate_plane_to_drone_alert E self plane drone)
            plane_data with
    | Ok evaluated => Ok (acc ++ List.filter not_safe evaluated)
    | Raise e => Raise e
    end.
Proof.
  revert acc. induction plane_data as [|plane l IH]; intros acc; simpl.
  - now rewrite app_nil_r.
  - destruct (translate_plane_to_drone_alert E self plane drone) as [a|e];
      simpl; [|reflexivity].
    destruct (negb (String.eqb (danger_level a) "SAFE")) eqn:Hsafe;
      rewrite IH; destruct (map_result _ l) as [evaluated|e];
      try reflexivity; cbn [List.filter];
      change (not_safe a) with (negb (String.eqb (danger_level a) "SAFE"));
      rewrite Hsafe, <- ?app_assoc; reflexivity.
Qed.

Lemma summarize_drone_spec self plane_data drone evaluated :
  map_result (fun plane => translate_plane_to_drone_alert E self plane drone)
    plane_data = Ok evaluated ->
  summary_of self plane_data drone
    (summarize_drone drone (List.filter not_safe evaluated)).
Proof.
  intros Heval. exists evaluated. split; [exact Heval|]. simpl.
  split; [apply sort_by_permutation|].
  split; [apply (sort_by_sorted priority)|].
  split; [intros p; apply sort_by_stable|].
  split; [|repeat split].
  rewrite Forall_forall. intros a Ha.
  rewrite sort_by_permutation in Ha.
  apply list_elem_of_In, filter_In in Ha as [_ Ha]. unfold not_safe in Ha.
  apply negb_true_iff, String.eqb_neq in Ha. exact Ha.
Qed.

(** The outer loop, from any list of summaries built so far. *)
Lemma process_alerts_from self drone_data plane_data acc :
  match for_each drone_data
          (fun all_alerts drone =>
             collected ← collect_alerts E self drone plane_data;
             Ok (all_alerts ++ [summarize_drone drone collected]))
          acc with
  | Ok summaries =>
      exists added,
        summaries = acc ++ added
        /\ Forall2 (summary_of self plane_data) drone_data added
  | Raise e =>
      exists drone plane,
        drone ∈ drone_data /\ plane ∈ plane_data
        /\ translate_plane_to_drone_alert E self plane drone = Raise e
  end.
Proof.
  revert acc. induction drone_data as [|drone l IH]; intros acc; simpl.
  - exists []. split; [now rewrite app_nil_r|constructor].
  - unfold collect_alerts at 1. rewrite collect_alerts_spec.
    destruct (map_result _ plane_data) as [evaluated|e] eqn:Heval; simpl.
    + specialize (IH (acc ++ [summarize_drone drone
                                (List.filter not_safe evaluated)])).
      destruct (for_each l _ _) as [summaries|e].
      * destruct IH as (added & -> & Hall).
        exists (summarize_drone drone (List.filter not_safe evaluated) :: added).
        split; [now rewrite <- app_assoc|].
        constructor; [now apply summarize_drone_spec|exact Hall].
      * destruct IH as (d & p & Hd & Hp & Hraise).
        exists d, p. split; [now right|]. split; assumption.
    + apply map_result_raise in Heval as (plane & Hin & Hraise).
      exists drone, plane. split; [left|]. split; assumption.
Qed.

(** C3. [process_multiple_alerts] returns one summary per drone, in
    order. In each, the alerts are the evaluations of the drone against
    every plane that are not SAFE, sorted by non-decreasing priority
    with equal priorities in evaluation order, and [highest_priority]
    is the danger level of the first alert, or SAFE when there is none.
    The call raises only what the evaluation of some pair raises. *)
Theorem per_drone_summaries self drone_data plane_data :
  match process_multiple_alerts E self drone_data plane_data with
  | Ok summaries => Forall2 (summary_of self plane_data) drone_data summaries
  | Raise e =>
      exists drone plane,
        drone ∈ drone_data /\ plane ∈ plane_data
        /\ translate_plane_to_drone_alert E self plane drone = Raise e
  end.
Proof.
  unfold process_multiple_alerts.
  pose proof (process_alerts_from self drone_data plane_data []) as H.
  destruct (for_each drone_data _ []) as [summaries|e]; [|exact H].
  destruct H as (added & -> & Hall). exact Hall.
Qed.

(** The first alert of a sorted list has the least priority. *)
Lemma first_alert_is_most_severe self plane_data drone s first rest :
  summary_of self plane_data drone s ->
  alerts s = first :: rest ->
  highest_priority s = danger_level first
  /\ Forall (fun a => priority first <= priority a) rest.
Proof.
  intros (evaluated & _ & _ & Hsorted & _ & _ & _ & Hhigh & _) Halerts.
  rewrite Halerts in *. split; [exact Hhigh|].
  inversion Hsorted; assumption.
Qed.

End Aggregation.

(** ** The aggregation on a concrete drone *)

Module AggregationRuns.

Definition position (name : string) (key : string) (lat lon : float)
  : gmap string pyval :=
  <[key := PStr name]> (<["latitude" := PFloat lat]>
  (<["longitude" := PFloat lon]> ∅)).

Definition the_drone : gmap string pyval :=
  position "D1" "drone_id" 12.0%float 77.0%float.

(** Planes at about 1.7 km, 0.3 km, 0.8 km and 11 km of the drone, in
    the stand-in environment: MEDIUM, CRITICAL, HIGH and SAFE. *)
Definition the_planes : list (gmap string pyval) :=
  [ position "MED1" "callsign" 12.015%float 77.0%float;
    position "CRI1" "callsign" 12.003%float 77.0%float;
    position "HIG1" "callsign" 12.007%float 77.0%float;
    position "FAR1" "callsign" 12.1%float 77.0%float ].

End AggregationRuns.

(** Alerts met at priorities 3, 1, 2 are stored as 1, 2, 3, the SAFE
    evaluation is left out, and the summary is CRITICAL. *)
Lemma priorities_3_1_2_are_stored_sorted :
  exists s,
    AlertTranslator.process_multiple_alerts Sample.env AlertTranslator.init
      [AggregationRuns.the_drone] AggregationRuns.the_planes = Ok [s]
    /\ map AlertTranslator.priority (AlertTranslator.alerts s) = [1; 2; 3]
    /\ map AlertTranslator.plane_info_callsign
         (map AlertTranslator.plane_info (AlertTranslator.alerts s))
       = [PStr "CRI1"; PStr "HIG1"; PStr "MED1"]
    /\ AlertTranslator.alert_count s = 3%nat
    /\ AlertTranslator.highest_priority s = "CRITICAL".
Proof. vm_compute. eexists. repeat split. Qed.

(** ** Tiered detection *)

Section Tiers.
Import Pandas CollisionDetection Dashboard.
Variable E : Env.

(** The alerts that [detect_collisions] returns for the current
    aircraft and the nearby drones at the thresholds of one level. *)
Definition alerts_at (aircraft : Aircraft) (nearby_drones : list NearbyDrone)
    (level : ThreatLevel) : list Alert :=
  match fst (detect_collisions E (current_plane_df aircraft)
               (nearby_drones_df nearby_drones)
               (h_threshold level) (v_threshold level)) with
  | Ok alerts => alerts
  | Raise _ => []
  end.

(** No two threats of the list have equal identifiers. *)
Inductive distinct_ids : list Threat -> Prop :=
| distinct_ids_nil : distinct_ids []
| distinct_ids_cons t l :
    Forall (fun t' => py_eq (threat_id t) (threat_id t') = false) l ->
    distinct_ids l ->
    distinct_ids (t :: l).

(** The threat [t] stands for an alert of some level of the list, and
    no level before that one has an alert for the same drone. *)
Definition claimed_at_first_level (levels : list ThreatLevel)
    (aircraft : Aircraft) (nearby_drones : list NearbyDrone) (t : Threat)
  : Prop :=
  exists before level after alert,
    levels = before ++ level :: after
    /\ threat_risk_level t = name level
    /\ alert ∈ alerts_at aircraft nearby_drones level
    /\ threat_id t = drone_id alert
    /\ threat_horizontal_distance t = horizontal_distance alert
    /\ threat_vertical_distance t = vertical_distance alert
    /\ forall level' alert',
         level' ∈ before ->
         alert' ∈ alerts_at aircraft nearby_drones level' ->
         py_eq (threat_id t) (drone_id alert') = false.

(** Every alert of the levels has a threat for its drone. *)
Definition covers (levels : list ThreatLevel) (aircraft : Aircraft)
    (nearby_drones : list NearbyDrone) (threats : list Threat) : Prop :=
  forall level alert,
    level ∈ levels -> alert ∈ alerts_at aircraft nearby_drones level ->
    exists t, t ∈ threats /\ py_eq (threat_id t) (drone_id alert) = true.

Lemma distinct_ids_snoc l t :
  distinct_ids l ->
  Forall (fun t' => py_eq (threat_id t') (threat_id t) = false) l ->
  distinct_ids (l ++ [t]).
Proof.
  induction 1 as [|t0 l Ht0 Hl IH]; intros Hnew; simpl.
  - repeat constructor.
  - inversion Hnew as [|? ? Hhead Htail]; subst.
    constructor; [|now apply IH].
    rewrite Forall_app. split; [assumption|]. now repeat constructor.
Qed.

Lemma distinct_ids_permutation l l' :
  Permutation l l' -> distinct_ids l -> distinct_ids l'.
Proof.
  induction 1 as [|t l l' Hperm IH|t1 t2 l|l1 l2 l3 _ IH1 _ IH2]; intros Hd.
  - constructor.
  - inversion Hd as [|? ? Hall Hl]; subst.
    constructor; [now rewrite <- Hperm|now apply IH].
  - inversion Hd as [|? ? Hall1 Hl1]; subst.
    inversion Hl1 as [|? ? Hall2 Hl2]; subst.
    inversion Hall1 as [|? ? H12 Hrest]; subst.
    constructor; [|now constructor].
    constructor; [|assumption]. now rewrite py_eq_sym.
  - auto.
Qed.

(** The frames that [get_collision_threats] builds have the required
    columns, so [detect_collisions] returns. *)
Lemma detect_on_built_frames aircraft nearby_drones level :
  fst (detect_collisions E (current_plane_df aircraft)
         (nearby_drones_df nearby_drones)
         (h_threshold level) (v_threshold level))
  = Ok (alerts_at aircraft nearby_drones level).
Proof.
  unfold alerts_at.
  rewrite (detect_collisions_alerts E) by (vm_compute; reflexivity).
  reflexivity.
Qed.

Lemma alerts_at_pairs aircraft nearby_drones level :
  alerts_at aircraft nearby_drones level
  = omap (emitted E (h_threshold level) (v_threshold level))
      (list_prod
         (iterrows
            {| columns := columns (current_plane_df aircraft);
               rows := List.filter (complete_row required_plane_cols)
                         (rows (current_plane_df aircraft)) |})
         (iterrows
            {| columns := columns (nearby_drones_df nearby_drones);
               rows := List.filter (complete_row required_drone_cols)
                         (rows (nearby_drones_df nearby_drones)) |})).
Proof.
  unfold alerts_at.
  rewrite (detect_collisions_alerts E) by (vm_compute; reflexivity).
  reflexivity.
Qed.

(** The drone of such an alert has an identifier. *)
Lemma alerts_at_identified aircraft nearby_drones level alert :
  alert ∈ alerts_at aircraft nearby_drones level ->
  isna (drone_id alert) = false.
Proof.
  rewrite alerts_at_pairs, list_elem_of_omap.
  intros ([plane drone] & Hpair & Hemit).
  apply list_elem_of_In, in_prod_iff in Hpair as [Hplane Hdrone].
  apply list_elem_of_In in Hplane, Hdrone.
  assert (Hp : plane_series plane).
  { intros col Hcol. rewrite (iterrows_index _ _ Hplane).
    revert col Hcol.
    apply missing_columns_nil with (df := current_plane_df aircraft).
    vm_compute. reflexivity. }
  assert (Hrow : complete_row required_drone_cols (values drone) = true
                 /\ drone_series drone).
  { split.
    - unfold iterrows in Hdrone.
      apply list_elem_of_fmap in Hdrone as (r & -> & Hr).
      cbn [rows] in Hr.
      apply list_elem_of_In, filter_In in Hr as [_ Hr]. exact Hr.
    - intros col Hcol. rewrite (iterrows_index _ _ Hdrone).
      revert col Hcol.
      apply missing_columns_nil with (df := nearby_drones_df nearby_drones).
      vm_compute. reflexivity. }
  destruct Hrow as [Hcomplete Hd].
  assert (Hsome : is_Some (emitted E (h_threshold level) (v_threshold level)
                             (plane, drone))) by (rewrite Hemit; eauto).
  apply (emitted_iff E _ _ _ _ Hp Hd) in Hsome as (v & Hv & Hnear & Hvert).
  destruct (check_pair_distances E plane drone (h_threshold level)
              (v_threshold level) Hp Hd) as [_ Hfields].
  destruct (Hfields v Hv) as (alert' & Hcheck & Hid & _).
  { now rewrite Hnear, Hvert. }
  unfold emitted in Hemit. simpl in Hemit. rewrite Hcheck in Hemit.
  injection Hemit as <-. rewrite Hid.
  unfold complete_row, required_drone_cols in Hcomplete. simpl in Hcomplete.
  apply andb_true_iff in Hcomplete as [Hcomplete _].
  now apply negb_true_iff in Hcomplete.
Qed.

(** One alert: it is skipped when a threat has its drone, and becomes a
    new last threat otherwise. *)
Lemma claim_alert_cases aircraft nearby_drones level threats alert threats' :
  claim_alert E aircraft nearby_drones level threats alert = Ok threats' ->
  (threats' = threats
   /\ exists t, t ∈ threats /\ py_eq (threat_id t) (drone_id alert) = true)
  \/ (Forall (fun t => py_eq (threat_id t) (drone_id alert) = false) threats
      /\ exists t,
           threats' = threats ++ [t]
           /\ threat_id t = drone_id alert
           /\ threat_risk_level t = name level
           /\ threat_horizontal_distance t = horizontal_distance alert
           /\ threat_vertical_distance t = vertical_distance alert).
Proof.
  unfold claim_alert.
  destruct (List.find _ threats) as [t|] eqn:Hfind.
  - intros [= <-]. left. split; [reflexivity|].
    apply find_some in Hfind as [Hin Heq].
    exists t. split; [now apply list_elem_of_In|exact Heq].
  - destruct (calculate_bearing E _ _ _ _) as [bearing|e]; simpl; [|discriminate].
    destruct (get_relative_position_description E _ _ _ _) as [position|e];
      simpl; [|discriminate].
    intros [= <-]. right. split.
    + rewrite Forall_forall. intros t Ht.
      apply (find_none _ _ Hfind). now apply list_elem_of_In.
    + eexists. split; [reflexivity|]. simpl. repeat split.
Qed.

(** The state of the merge while the alerts of [level] are scanned:
    [seen] are the alerts of the level scanned so far and [done] the
    levels before it. *)
Definition merging (done : list ThreatLevel) (level : ThreatLevel)
    (seen : list Alert) (aircraft : Aircraft) (nearby_drones : list NearbyDrone)
    (threats : list Threat) : Prop :=
  distinct_ids threats
  /\ Forall (claimed_at_first_level (done ++ [level]) aircraft nearby_drones)
       threats
  /\ covers done aircraft nearby_drones threats
  /\ forall alert, alert ∈ seen ->
       exists t, t ∈ threats /\ py_eq (threat_id t) (drone_id alert) = true.

(** The state between two levels. *)
Definition merged (done : list ThreatLevel) (aircraft : Aircraft)
    (nearby_drones : list NearbyDrone) (threats : list Threat) : Prop :=
  distinct_ids threats
  /\ Forall (claimed_at_first_level done aircraft nearby_drones) threats
  /\ covers done aircraft nearby_drones threats.

Lemma claimed_later done more aircraft nearby_drones t :
  claimed_at_first_level done aircraft nearby_drones t ->
  claimed_at_first_level (done ++ more) aircraft nearby_drones t.
Proof.
  intros (before & level & after & alert & -> & H).
  exists before, level, (after ++ more), alert.
  split; [now rewrite <- app_assoc|exact H].
Qed.

Lemma merging_step done level seen aircraft nearby_drones threats alert threats' :
  alert ∈ alerts_at aircraft nearby_drones level ->
  merging done level seen aircraft nearby_drones threats ->
  claim_alert E aircraft nearby_drones level threats alert = Ok threats' ->
  merging done level (seen ++ [alert]) aircraft nearby_drones threats'.
Proof.
  intros Halert (Hdistinct & Hclaimed & Hcovers & Hseen) Hclaim.
  apply claim_alert_cases in Hclaim
    as [[-> Hexists]|[Hfresh (t & -> & Hid & Hname & Hh & Hv)]].
  - split; [assumption|]. split; [assumption|]. split; [assumption|].
    intros a [Ha|Ha%list_elem_of_singleton]%elem_of_app; [auto|now subst].
  - split; [|split; [|split]].
    + apply distinct_ids_snoc; [assumption|]. now rewrite Hid.
    + rewrite Forall_app. split; [assumption|]. constructor; [|constructor].
      exists done, level, [], alert. repeat split; try assumption.
      intros level' alert' Hlevel' Halert'.
      destruct (Hcovers level' alert' Hlevel' Halert') as (t' & Ht' & Heq').
      rewrite Forall_forall in Hfresh. specialize (Hfresh t' Ht').
      destruct (py_eq (threat_id t) (drone_id alert')) eqn:Heq; [|reflexivity].
      rewrite py_eq_sym in Heq. rewrite Hid in Heq.
      rewrite (py_eq_trans _ _ _ Heq' Heq) in Hfresh. discriminate.
    + intros level' alert' Hlevel' Halert'.
      destruct (Hcovers level' alert' Hlevel' Halert') as (t' & Ht' & Heq').
      exists t'. split; [apply elem_of_app; now left|exact Heq'].
    + intros a [Ha|Ha%list_elem_of_singleton]%elem_of_app.
      * destruct (Hseen a Ha) as (t' & Ht' & Heq').
        exists t'. split; [apply elem_of_app; now left|exact Heq'].
      * subst a. exists t. split; [apply elem_of_app; right; left|].
        rewrite Hid. apply py_eq_refl.
        now apply (alerts_at_identified aircraft nearby_drones level).
Qed.

(** The inner loop, from any point of the list of alerts. *)
Lemma merging_alerts done level aircraft nearby_drones rest :
  forall seen threats threats',
    (forall alert, alert ∈ rest -> alert ∈ alerts_at aircraft nearby_drones level) ->
    merging done level seen aircraft nearby_drones threats ->
    for_each rest (claim_alert E aircraft nearby_drones level) threats
    = Ok threats' ->
    merging done level (seen ++ rest) aircraft nearby_drones threats'.
Proof.
  induction rest as [|alert rest IH]; intros seen threats threats' Hin Hm; simpl.
  - intros [= <-]. now rewrite app_nil_r.
  - destruct (claim_alert E aircraft nearby_drones level threats alert)
      as [threats1|e] eqn:Hclaim; [|discriminate].
    intros Hrest.
    replace (seen ++ alert :: rest) with ((seen ++ [alert]) ++ rest)
      by (now rewrite <- app_assoc).
    apply (IH _ threats1); [|eapply merging_step; eauto|assumption].
    + intros a Ha. apply Hin. now right.
    + apply Hin. left.
Qed.

(** One level. *)
Lemma merged_level done level aircraft nearby_drones threats threats' :
  merged done aircraft nearby_drones threats ->
  scan_level E aircraft nearby_drones threats level = Ok threats' ->
  merged (done ++ [level]) aircraft nearby_drones threats'.
Proof.
  intros (Hdistinct & Hclaimed & Hcovers). unfold scan_level.
  rewrite detect_on_built_frames. simpl. intros Hloop.
  apply (merging_alerts done level aircraft nearby_drones _ [] threats) in Hloop
    as (Hdistinct' & Hclaimed' & Hcovers' & Hseen'); [|auto|].
  - split; [assumption|]. split; [assumption|].
    intros level' alert [Hl|Hl%list_elem_of_singleton]%elem_of_app Ha.
    + exact (Hcovers' level' alert Hl Ha).
    + subst level'. exact (Hseen' alert Ha).
  - split; [assumption|]. split; [|split; [assumption|]].
    + eapply Forall_impl; [exact Hclaimed|]. intros t. apply claimed_later.
    + intros a Ha. inversion Ha.
Qed.

(** All levels, from any point of the list. *)
Lemma merged_levels aircraft nearby_drones rest :
  forall done threats threats',
    merged done aircraft nearby_drones threats ->
    for_each rest (scan_level E aircraft nearby_drones) threats = Ok threats' ->
    merged (done ++ rest) aircraft nearby_drones threats'.
Proof.
  induction rest as [|level rest IH]; intros done threats threats' Hm; simpl.
  - intros [= <-]. now rewrite app_nil_r.
  - destruct (scan_level E aircraft nearby_drones threats level)
      as [threats1|e] eqn:Hlevel; [|discriminate].
    intros Hrest.
    replace (done ++ level :: rest) with ((done ++ [level]) ++ rest)
      by (now rewrite <- app_assoc).
    apply (IH _ threats1); [|assumption].
    eapply merged_level; eauto.
Qed.

(** The final sort rearranges the threats. *)
Lemma sort_threats_permutation threats sorted :
  sort_threats threats = Ok sorted -> Permutation sorted threats.
Proof.
  unfold sort_threats.
  destruct (map_result _ threats) as [keyed|e] eqn:Hkeys; simpl; [|discriminate].
  intros [= <-].
  assert (Hsnd : map snd keyed = threats).
  { revert keyed Hkeys. induction threats as [|t l IH]; intros keyed; simpl.
    - now intros [= <-].
    - destruct (sort_key t) as [k|e]; simpl; [|discriminate].
      destruct (map_result _ l) as [keyed'|e]; [|discriminate].
      intros [= <-]. simpl. f_equal. now apply IH. }
  rewrite <- Hsnd. apply Permutation_map, sort_by_permutation.
Qed.

(** C4. In the list that the tiered detection returns, no two threats
    have the same drone identifier; each threat carries the name of the
    first level of the list (the most severe, when the list is ordered
    so) at which [detect_collisions] reports its drone, so a drone that
    also passes later, looser levels is not listed under them; and every
    drone reported at some level is listed. *)
Theorem first_level_wins levels aircraft nearby_drones threats :
  tiered_threats E levels aircraft nearby_drones = Ok threats ->
  distinct_ids threats
  /\ Forall (claimed_at_first_level levels aircraft nearby_drones) threats
  /\ covers levels aircraft nearby_drones threats.
Proof.
  unfold tiered_threats, merge_levels.
  destruct (for_each levels _ []) as [merged_threats|e] eqn:Hmerge;
    simpl; [|discriminate].
  intros Hperm%sort_threats_permutation.
  apply (merged_levels aircraft nearby_drones levels [] []) in Hmerge
    as (Hdistinct & Hclaimed & Hcovers).
  - split; [|split].
    + apply (distinct_ids_permutation merged_threats); [now symmetry|assumption].
    + now rewrite Hperm.
    + intros level alert Hlevel Halert.
      destruct (Hcovers level alert Hlevel Halert) as (t & Ht & Heq).
      exists t. split; [now rewrite Hperm|exact Heq].
  - split; [constructor|]. split; [constructor|].
    intros level alert Hlevel. inversion Hlevel.
Qed.

(** A threat whose level is not in [risk_order] makes the final sort
    raise. *)
Lemma sort_threats_unknown_level threats t :
  t ∈ threats -> risk_order !! threat_risk_level t = None ->
  exists key, sort_threats threats = Raise (KeyError key).
Proof.
  intros Hin Hlevel. unfold sort_threats.
  induction threats as [|t0 l IH]; [inversion Hin|]. simpl.
  unfold sort_key at 1.
  destruct (risk_order !! threat_risk_level t0) as [rank|] eqn:Hrank; simpl.
  - apply elem_of_cons in Hin as [->|Hin]; [congruence|].
    destruct (IH Hin) as [key Hkey].
    destruct (map_result _ l) as [keyed|e]; simpl in *; [discriminate|].
    exists key. congruence.
  - eauto.
Qed.

End Tiers.

(** ** Tiered detection on concrete candidates *)

Module DashboardRuns.
Import Pandas Dashboard.

(** The pilot's aircraft, at 100 m. *)
Definition the_aircraft : Aircraft :=
  {| aircraft_callsign := PStr "AI100";
     aircraft_icao24 := PStr "800abc";
     aircraft_latitude := 12.0%float;
     aircraft_longitude := 77.0%float;
     aircraft_altitude := 100%float;
     aircraft_speed := 150%float;
     aircraft_heading := 90%float;
     aircraft_vertical_rate := 0%float;
     aircraft_country := PStr "India" |}.

(** A candidate straight north of the aircraft. *)
Definition candidate (id : string) (north altitude : float) : NearbyDrone :=
  {| nearby_drone_id := PStr id;
     nearby_latitude := (12.0 + north)%float;
     nearby_longitude := 77.0%float;
     nearby_altitude := altitude;
     nearby_speed := 10%float;
     nearby_heading := 0%float;
     nearby_distance := (111 * north / 1.852)%float;
     nearby_bearing := 0%float;
     nearby_relative_position := "N" |}.

(** The two levels of the specification's example. *)
Definition critical_then_low : list ThreatLevel :=
  [ {| name := "critical"; h_threshold := 0.1%float; v_threshold := 30%float |};
    {| name := "low"; h_threshold := 1.0%float; v_threshold := 150%float |} ].

(** D1 is about 55 m away and 10 m above: within both levels.  D2 is
    about 555 m away and 50 m above: within "low" only. *)
Definition two_candidates : list NearbyDrone :=
  [ candidate "D1" 0.0005%float 110%float;
    candidate "D2" 0.005%float 150%float ].

Definition threats_of_two_candidates : list Threat :=
  match tiered_threats Sample.env critical_then_low the_aircraft two_candidates with
  | Ok threats => threats
  | Raise _ => []
  end.

(** A drone about 1 km north of the aircraft, at its altitude: outside
    "low" (0.8 km) and within "advisory" (1.5 km) in real mode. *)
Definition drone_one_km_north : DataFrame :=
  Sample.drones
    [ Sample.drone_row "D3" (PFloat 12.009%float) (PFloat 77.0%float)
        (PFloat 100%float) ].

Definition real_mode_service : PilotDashboardService :=
  {| drones_df := drone_one_km_north; use_test_data := false |}.

Definition test_mode_service : PilotDashboardService :=
  {| drones_df := drone_one_km_north; use_test_data := true |}.

End DashboardRuns.

Section DashboardRunFacts.
Import Dashboard DashboardRuns.

(** The candidate within both levels is listed once, as critical. *)
Lemma candidate_of_both_levels_is_listed_once :
  map (fun t => (threat_id t, threat_risk_level t)) threats_of_two_candidates
  = [(PStr "D1", "critical"); (PStr "D2", "low")]
  /\ distinct_ids threats_of_two_candidates
  /\ Forall (claimed_at_first_level Sample.env critical_then_low
               the_aircraft two_candidates)
       threats_of_two_candidates.
Proof.
  split; [vm_compute; reflexivity|].
  destruct (first_level_wins Sample.env critical_then_low the_aircraft
              two_candidates threats_of_two_candidates)
    as (Hdistinct & Hclaimed & _).
  - vm_compute. reflexivity.
  - split; assumption.
Defined.

(** C9. In real mode a drone that only the "advisory" level reports
    becomes a threat whose level has no entry in [risk_order]: the final
    sort raises [KeyError] and [get_collision_threats] returns no list. *)
Theorem advisory_threat_raises_key_error :
  get_collision_threats Sample.env real_mode_service (Some the_aircraft) 10%float
  = Raise (KeyError "advisory").
Proof.
  unfold get_collision_threats. vm_compute. reflexivity.
Qed.

(** In test mode, whose levels all have an entry, the same call returns
    the drone as a "low" threat. *)
Lemma same_drone_in_test_mode :
  exists t,
    get_collision_threats Sample.env test_mode_service (Some the_aircraft) 10%float
    = Ok [t]
    /\ threat_id t = PStr "D3" /\ threat_risk_level t = "low".
Proof. vm_compute. eexists. repeat split. Qed.

End DashboardRunFacts.

(** ** The final sort of the threats *)

(** The stable sort sorts when, on the elements at hand, the comparison
    is asymmetric and its negation is transitive. *)
Section SortByOrder.
Context {A K : Type} (key : A -> K) (lt : K -> K -> bool) (P : A -> Prop).
Hypothesis lt_asym :
  forall a b, P a -> P b -> lt (key a) (key b) = true -> lt (key b) (key a) = false.
Hypothesis not_lt_trans :
  forall a b c, P a -> P b -> P c ->
    lt (key a) (key b) = false -> lt (key b) (key c) = false ->
    lt (key a) (key c) = false.

Definition not_after (a b : A) : Prop := lt (key b) (key a) = false.

Lemma insert_by_in_order x l :
  P x -> Forall P l -> StronglySorted not_after l ->
  StronglySorted not_after (insert_by key lt x l).
Proof.
  intros Hx HP Hsorted. induction Hsorted as [|y l Hl IH Hy]; simpl.
  - repeat constructor.
  - inversion HP as [|? ? Py Pl]; subst.
    destruct (lt (key y) (key x)) eqn:Hlt.
    + constructor; [now apply IH|].
      rewrite Forall_forall. intros z Hz.
      rewrite insert_by_permutation in Hz.
      apply elem_of_cons in Hz as [->|Hz].
      * now apply lt_asym.
      * rewrite Forall_forall in Hy. now apply Hy.
    + constructor; [now constructor|].
      constructor; [exact Hlt|].
      rewrite Forall_forall in Hy, Pl |- *. intros z Hz.
      apply (not_lt_trans z y x); auto. now apply Hy.
Qed.

Lemma sort_by_in_order l :
  Forall P l -> StronglySorted not_after (sort_by key lt l).
Proof.
  induction 1 as [|x l Hx Hl IH]; simpl; [constructor|].
  apply insert_by_in_order; [assumption| |assumption].
  now rewrite sort_by_permutation.
Qed.

End SortByOrder.

Section SortedThreats.
Import Dashboard.

(** [a] does not come after [b] in the order of the final sort: its
    level ranks lower in [risk_order], or the ranks are equal and its
    horizontal distance is not greater. *)
Definition threat_le (a b : Threat) : Prop :=
  exists rank_a rank_b,
    risk_order !! threat_risk_level a = Some rank_a
    /\ risk_order !! threat_risk_level b = Some rank_b
    /\ (rank_a < rank_b
        \/ (rank_a = rank_b
            /\ (threat_horizontal_distance a <=? threat_horizontal_distance b)%float
               = true)).

Definition measured (t : Threat) : Prop :=
  is_nan (threat_horizontal_distance t) = false.

Lemma key_lt_spec (a b : Z * float) :
  is_nan (snd a) = false -> is_nan (snd b) = false ->
  key_lt a b = false <->
  fst b < fst a \/ (fst a = fst b /\ (snd b <=? snd a)%float = true).
Proof.
  intros Ha Hb. unfold key_lt.
  destruct (Z.eqb_spec (fst a) (fst b)) as [Heq|Hne]; simpl.
  - pose proof (strictly_less _ _ Ha Hb) as Hs.
    destruct (negb (snd a =? snd b)%float) eqn:Hd; simpl in Hs.
    + rewrite Hs, negb_false_iff. split; [auto|]. intros [?|[_ ?]]; [lia|assumption].
    + symmetry in Hs. apply negb_false_iff in Hs.
      split; [auto|reflexivity].
  - rewrite Z.ltb_ge. split; [intros ?; left; lia|]. intros [?|[? _]]; lia.
Qed.

(** Where the final sort returns, and no distance is NaN, the list is
    in the order of the levels and, within a level, of the distances. *)
Lemma sort_threats_in_order threats sorted :
  Forall measured threats ->
  sort_threats threats = Ok sorted ->
  StronglySorted threat_le sorted.
Proof.
  intros Hmeasured. unfold sort_threats.
  destruct (map_result _ threats) as [keyed|e] eqn:Hkeys; simpl; [|discriminate].
  intros [= <-].
  set (good := fun kt : Z * float * Threat =>
                 sort_key (snd kt) = Ok (fst kt) /\ measured (snd kt)).
  assert (Hgood : Forall good keyed).
  { revert keyed Hkeys. induction Hmeasured as [|t l Ht Hl IH]; intros keyed; simpl.
    - intros [= <-]. constructor.
    - destruct (sort_key t) as [k|e] eqn:Hk; simpl; [|discriminate].
      destruct (map_result _ l) as [keyed'|e]; [|discriminate].
      intros [= <-]. constructor; [now split|now apply IH]. }
  assert (Hnan : forall kt, good kt -> is_nan (snd (fst kt)) = false).
  { intros [[rank h] t] [Hk Hm]. unfold sort_key in Hk. simpl in *.
    destruct (risk_order !! threat_risk_level t); [|discriminate].
    injection Hk as _ <-. exact Hm. }
  assert (Hsorted : StronglySorted (not_after fst key_lt)
                      (sort_by fst key_lt keyed)).
  { apply (sort_by_in_order fst key_lt good); [| |exact Hgood].
    - intros a b Ha Hb Hlt. unfold key_lt in *.
      destruct (Z.eqb_spec (fst (fst a)) (fst (fst b))) as [Heq|Hne];
        simpl in *.
      + rewrite Heq, Z.eqb_refl. simpl.
        destruct (negb (snd (fst a) =? snd (fst b))%float); [|discriminate].
        apply ltb_asym in Hlt. rewrite Hlt.
        destruct (negb _); reflexivity.
      + destruct (Z.eqb_spec (fst (fst b)) (fst (fst a))); [congruence|].
        simpl. apply Z.ltb_lt in Hlt. apply Z.ltb_ge. lia.
    - intros a b c Ha Hb Hc.
      rewrite !key_lt_spec by auto.
      intros [?|[? Hab]] [?|[? Hbc]]; try (left; lia).
      right. split; [lia|]. now apply (leb_trans _ (snd (fst b))). }
  assert (Hperm : Forall good (sort_by fst key_lt keyed))
    by (now rewrite sort_by_permutation).
  induction Hsorted as [|kt l Hl IH Hkt]; simpl; [constructor|].
  inversion Hperm as [|? ? Hg Hgl]; subst.
  constructor; [now apply IH|].
  rewrite Forall_forall in Hkt, Hgl. rewrite Forall_forall.
  intros t (kt' & -> & Hin)%list_elem_of_fmap.
  specialize (Hkt kt' Hin). specialize (Hgl kt' Hin).
  unfold not_after in Hkt.
  apply key_lt_spec in Hkt; [|now apply Hnan..].
  destruct kt as [[ra ha] ta], kt' as [[rb hb] tb].
  destruct Hg as [Hka _], Hgl as [Hkb _]. unfold sort_key in Hka, Hkb. simpl in *.
  destruct (risk_order !! threat_risk_level ta) as [ra'|] eqn:Hra; [|discriminate].
  destruct (risk_order !! threat_risk_level tb) as [rb'|] eqn:Hrb; [|discriminate].
  injection Hka as <- <-. injection Hkb as <- <-.
  exists ra', rb'. split; [exact Hra|]. split; [exact Hrb|].
  destruct Hkt as [?|[? ?]]; [left; lia|right; split; [lia|assumption]].
Qed.

(** The levels of test mode all have a rank, so there the sort returns. *)
Lemma sort_threats_returns threats :
  Forall (fun t => is_Some (risk_order !! threat_risk_level t)) threats ->
  exists sorted, sort_threats threats = Ok sorted.
Proof.
  intros Hranked. unfold sort_threats.
  assert (Hkeys : exists keyed,
             map_result (fun t => k ← sort_key t; Ok (k, t)) threats = Ok keyed).
  { induction Hranked as [|t l [rank Hrank] Hl [keyed IH]]; simpl; [eauto|].
    unfold sort_key at 1. rewrite Hrank. simpl. rewrite IH. eauto. }
  destruct Hkeys as [keyed ->]. simpl. eauto.
Qed.

End SortedThreats.

Section TestModeTiers.
Import Dashboard.
Variable E : Env.

(** With the levels of test mode, every threat of the merge has a rank,
    so the method returns a list whenever the merge does. *)
Lemma test_mode_threats_are_sorted aircraft nearby_drones merged_threats :
  merge_levels E test_threat_levels aircraft nearby_drones = Ok merged_threats ->
  exists threats,
    tiered_threats E test_threat_levels aircraft nearby_drones = Ok threats
    /\ Permutation threats merged_threats
    /\ (Forall measured merged_threats -> StronglySorted threat_le threats).
Proof.
  intros Hmerge.
  assert (Hranked : Forall (fun t => is_Some (risk_order !! threat_risk_level t))
                      merged_threats).
  { pose proof Hmerge as Hm. unfold merge_levels in Hm.
    apply (merged_levels E aircraft nearby_drones test_threat_levels [] [])
      in Hm as (_ & Hclaimed & _).
    - eapply Forall_impl; [exact Hclaimed|].
      intros t (before & level & after & alert & Hsplit & -> & _).
      change ([] ++ test_threat_levels) with test_threat_levels in Hsplit.
      assert (Hin : level ∈ test_threat_levels)
        by (rewrite Hsplit; apply elem_of_app; right; left).
      assert (Hall : Forall (fun l => is_Some (risk_order !! name l))
                       test_threat_levels)
        by (repeat constructor; vm_compute; eauto).
      rewrite Forall_forall in Hall. now apply Hall.
    - split; [constructor|]. split; [constructor|].
      intros level alert Hlevel. inversion Hlevel. }
  destruct (sort_threats_returns _ Hranked) as [threats Hsort].
  exists threats. unfold tiered_threats. rewrite Hmerge. simpl.
  split; [exact Hsort|]. split; [now apply sort_threats_permutation|].
  intros Hmeasured. now apply (sort_threats_in_order merged_threats).
Qed.

(** With any levels, a threat at a level without a rank makes the
    method raise [KeyError]. *)
Lemma unranked_level_raises levels aircraft nearby_drones merged_threats t :
  merge_levels E levels aircraft nearby_drones = Ok merged_threats ->
  t ∈ merged_threats ->
  risk_order !! threat_risk_level t = None ->
  exists key,
    tiered_threats E levels aircraft nearby_drones = Raise (KeyError key).
Proof.
  intros Hmerge Hin Hrank. unfold tiered_threats. rewrite Hmerge. simpl.
  now apply (sort_threats_unknown_level _ t).
Qed.

End TestModeTiers.

Section TierThresholds.
Import Pandas CollisionDetection Dashboard.
Variable E : Env.

(** The rows that the detector compares at every level: the aircraft,
    and the nearby drones, without those that lack a mandatory value. *)
Definition compared_planes (aircraft : Aircraft) : list Series :=
  iterrows
    {| columns := columns (current_plane_df aircraft);
       rows := List.filter (complete_row required_plane_cols)
                 (rows (current_plane_df aircraft)) |}.

Definition compared_drones (nearby_drones : list NearbyDrone) : list Series :=
  iterrows
    {| columns := columns (nearby_drones_df nearby_drones);
       rows := List.filter (complete_row required_drone_cols)
                 (rows (nearby_drones_df nearby_drones)) |}.

(** A drone is reported at a level exactly when it is within the two
    thresholds of the level. *)
Lemma reported_iff_within_thresholds aircraft nearby_drones level drone :
  drone ∈ compared_drones nearby_drones ->
  (exists plane alert,
      plane ∈ compared_planes aircraft
      /\ alert ∈ alerts_at E aircraft nearby_drones level
      /\ emitted E (h_threshold level) (v_threshold level) (plane, drone)
         = Some alert)
  <->
  (exists plane v,
      plane ∈ compared_planes aircraft
      /\ vertical_of E plane drone = Ok v
      /\ (horizontal_of E plane drone <=? h_threshold level)%float = true
      /\ (v <=? v_threshold level)%float = true).
Proof.
  intros Hdrone.
  assert (Hd : drone_series drone).
  { intros col Hcol. unfold compared_drones in Hdrone.
    rewrite (iterrows_index _ _ Hdrone). revert col Hcol.
    apply missing_columns_nil with (df := nearby_drones_df nearby_drones).
    vm_compute. reflexivity. }
  assert (Hp : forall plane, plane ∈ compared_planes aircraft -> plane_series plane).
  { intros plane Hplane col Hcol. unfold compared_planes in Hplane.
    rewrite (iterrows_index _ _ Hplane). revert col Hcol.
    apply missing_columns_nil with (df := current_plane_df aircraft).
    vm_compute. reflexivity. }
  split.
  - intros (plane & alert & Hplane & _ & Hemit).
    assert (Hsome : is_Some (emitted E (h_threshold level) (v_threshold level)
                               (plane, drone))) by (rewrite Hemit; eauto).
    apply (emitted_iff E _ _ _ _ (Hp _ Hplane) Hd) in Hsome as (v & Hv).
    exists plane, v. split; assumption.
  - intros (plane & v & Hplane & Hwithin).
    assert (Hsome : is_Some (emitted E (h_threshold level) (v_threshold level)
                               (plane, drone))).
    { apply (emitted_iff E _ _ _ _ (Hp _ Hplane) Hd). eauto. }
    destruct Hsome as [alert Hemit]. exists plane, alert.
    split; [assumption|]. split; [|assumption].
    rewrite alerts_at_pairs, list_elem_of_omap.
    exists (plane, drone). split; [|assumption].
    apply list_elem_of_In, in_prod_iff.
    split; apply list_elem_of_In; assumption.
Qed.

End TierThresholds.

(* ================================================================== *)
(** * Part III: further properties of the modelled code                *)
(* ================================================================== *)

(** ** The vertical distance *)

Section AbsoluteDifference.
Open Scope float_scope.

Lemma SFabs_binary_round prec emax s m e :
  SFabs (binary_round prec emax s m e) = SFabs (binary_round prec emax false m e).
Proof.
  unfold binary_round.
  destruct (shl_align m e _) as [mz ez].
  unfold binary_round_aux.
  destruct (shr_fexp prec emax (Z.pos mz) ez loc_Exact) as [mrs' e'].
  destruct (shr_fexp prec emax _ e' loc_Exact) as [mrs'' e''].
  destruct (shr_m mrs''); try reflexivity.
  destruct (Z.leb _ _); reflexivity.
Qed.

Lemma SFabs_binary_normalize_opp prec emax m e :
  SFabs (binary_normalize prec emax (- m) e false)
  = SFabs (binary_normalize prec emax m e false).
Proof.
  destruct m as [|p|p]; simpl; try reflexivity.
  - apply SFabs_binary_round.
  - symmetry. apply SFabs_binary_round.
Qed.

Lemma SFabs_sub_sym prec emax x y :
  SFabs (SFsub prec emax x y) = SFabs (SFsub prec emax y x).
Proof.
  destruct x as [sx|sx| |sx mx ex], y as [sy|sy| |sy my ey]; simpl;
    try reflexivity;
    try (destruct sx, sy; reflexivity).
  rewrite (Z.min_comm ey ex).
  rewrite <- SFabs_binary_normalize_opp. f_equal. f_equal. lia.
Qed.

Lemma abs_sub_sym a b : abs (a - b) = abs (b - a).
Proof.
  apply Prim2SF_inj. rewrite !abs_spec, !sub_spec. apply SFabs_sub_sym.
Qed.

Lemma abs_not_negative x : (abs x <? 0) = false.
Proof.
  rewrite FloatAxioms.ltb_spec, abs_spec. unfold SFltb.
  change (Prim2SF 0) with (S754_zero false).
  destruct (Prim2SF x) as [s|s| |s m e]; reflexivity.
Qed.

Lemma abs_not_below_zero x : is_nan (abs x) = false -> (0 <=? abs x) = true.
Proof.
  intros H%not_nan_Prim2SF. rewrite FloatAxioms.leb_spec. unfold SFleb.
  rewrite abs_spec in *.
  change (Prim2SF 0) with (S754_zero false).
  destruct (Prim2SF x) as [s|s| |s m e]; try reflexivity.
  now destruct H.
Qed.

(** X1. The vertical distance does not depend on the order of the two
    altitudes, it is never below zero, and unless it is NaN it is at
    least zero. *)
Theorem vertical_distance_symmetric_not_negative (altitude1 altitude2 : float) :
  CollisionDetection.calculate_vertical_distance altitude1 altitude2
  = CollisionDetection.calculate_vertical_distance altitude2 altitude1
  /\ (CollisionDetection.calculate_vertical_distance altitude1 altitude2 <? 0)
     = false
  /\ (is_nan (CollisionDetection.calculate_vertical_distance altitude1 altitude2)
      = false ->
      (0 <=? CollisionDetection.calculate_vertical_distance altitude1 altitude2)
      = true).
Proof.
  unfold CollisionDetection.calculate_vertical_distance.
  split; [apply abs_sub_sym|]. split; [apply abs_not_negative|].
  apply abs_not_below_zero.
Qed.

End AbsoluteDifference.

(** ** More about the pairwise detector *)

Section DetectorBehaviour.
Import Pandas CollisionDetection.
Variable E : Env.

(** X2. [detect_collisions] raises in one situation only: both frames
    are non-empty and a required column is absent. The exception is then
    the [ValueError] that lists the absent plane columns or, when there
    are none, the absent drone columns. Whatever the cells hold, nothing
    else makes the call raise. *)
Theorem detect_collisions_raises_only_for_missing_columns
    planes_df drones_df h_threshold v_threshold e :
  fst (detect_collisions E planes_df drones_df h_threshold v_threshold) = Raise e
  <->
  empty planes_df = false /\ empty drones_df = false
  /\ ((missing_columns required_plane_cols planes_df <> []
       /\ e = ValueError "Missing required plane columns: "
                (missing_columns required_plane_cols planes_df))
      \/ (missing_columns required_plane_cols planes_df = []
          /\ missing_columns required_drone_cols drones_df <> []
          /\ e = ValueError "Missing required drone columns: "
                   (missing_columns required_drone_cols drones_df))).
Proof.
  destruct (empty planes_df) eqn:Hp.
  { rewrite detect_collisions_empty by (now rewrite Hp).
    simpl. split; [discriminate|]. intros [[=] _]. }
  destruct (empty drones_df) eqn:Hd.
  { rewrite detect_collisions_empty by (now rewrite Hp, Hd).
    simpl. split; [discriminate|]. intros (_ & [=] & _). }
  destruct (missing_columns required_plane_cols planes_df) as [|c cs] eqn:Hmp.
  - destruct (missing_columns required_drone_cols drones_df) as [|d ds] eqn:Hmd.
    + rewrite (detect_collisions_run E) by assumption. simpl.
      split; [discriminate|]. intros (_ & _ & [[? _]|(_ & ? & _)]); congruence.
    + unfold detect_collisions. rewrite Hp, Hd, Hmp, Hmd. simpl. split.
      * intros [= <-]. repeat split.
        right. split; [reflexivity|]. split; [discriminate|reflexivity].
      * intros (_ & _ & [[? _]|(_ & _ & ->)]); [congruence|reflexivity].
  - unfold detect_collisions. rewrite Hp, Hd, Hmp. simpl. split.
    + intros [= <-]. repeat split. left. split; [discriminate|reflexivity].
    + intros (_ & _ & [[_ ->]|(? & _)]); [reflexivity|congruence].
Qed.

(** The alert of a pair does not depend on the thresholds: a pair that
    passes tighter thresholds passes looser ones with the same alert. *)
Lemma emitted_under_looser_thresholds h v h' v' pair alert :
  (h <=? h')%float = true -> (v <=? v')%float = true ->
  emitted E h v pair = Some alert -> emitted E h' v' pair = Some alert.
Proof.
  intros Hh Hv. destruct pair as [plane drone].
  unfold emitted, check_pair. simpl.
  destruct (getitem plane "latitude") as [lat1|]; simpl; [|discriminate].
  destruct (getitem plane "longitude") as [lon1|]; simpl; [|discriminate].
  destruct (getitem drone "latitude") as [lat2|]; simpl; [|discriminate].
  destruct (getitem drone "longitude") as [lon2|]; simpl; [|discriminate].
  destruct (calculate_horizontal_distance E lat1 lon1 lat2 lon2) as [d printed].
  simpl. unfold check_thresholds.
  destruct (getitem plane "baro_altitude") as [a1|]; simpl; [|discriminate].
  destruct (py_float E a1) as [x1|]; simpl; [|discriminate].
  destruct (getitem drone "altitude") as [a2|]; simpl; [|discriminate].
  destruct (py_float E a2) as [x2|]; simpl; [|discriminate].
  destruct ((d <=? h)%float && (calculate_vertical_distance x1 x2 <=? v)%float)
    eqn:Hnear; [|discriminate].
  apply andb_true_iff in Hnear as [Hd Hx].
  rewrite (leb_trans _ _ _ Hd Hh), (leb_trans _ _ _ Hx Hv). simpl.
  intros H. exact H.
Qed.

Lemma omap_sublist {A B} (f g : A -> option B) (l : list A) :
  (forall x y, f x = Some y -> g x = Some y) ->
  omap f l `sublist_of` omap g l.
Proof.
  intros Hfg. induction l as [|x l IH]; cbn; [constructor|].
  destruct (f x) as [y|] eqn:Hf.
  - rewrite (Hfg _ _ Hf). now constructor.
  - destruct (g x); [now constructor|exact IH].
Qed.

(** X3. Loosening the thresholds never loses an alert: for frames with
    the required columns, the alerts at thresholds [(h, v)] are, in
    order, among the alerts at any thresholds [(h', v')] with [h <= h']
    and [v <= v'], so there are at least as many of the latter. *)
Theorem looser_thresholds_keep_alerts planes_df drones_df h v h' v' :
  missing_columns required_plane_cols planes_df = [] ->
  missing_columns required_drone_cols drones_df = [] ->
  (h <=? h')%float = true -> (v <=? v')%float = true ->
  exists alerts alerts',
    fst (detect_collisions E planes_df drones_df h v) = Ok alerts
    /\ fst (detect_collisions E planes_df drones_df h' v') = Ok alerts'
    /\ alerts `sublist_of` alerts'
    /\ (length alerts <= length alerts')%nat.
Proof.
  intros Hmp Hmd Hh Hv. eexists _, _.
  split; [now apply detect_collisions_alerts|].
  split; [now apply detect_collisions_alerts|].
  assert (Hsub : forall pairs,
             omap (emitted E h v) pairs `sublist_of` omap (emitted E h' v') pairs).
  { intros pairs. apply omap_sublist. intros pair alert.
    now apply emitted_under_looser_thresholds. }
  split; [apply Hsub|]. apply sublist_length, Hsub.
Qed.

(** No pair passes a threshold that is NaN. *)
Lemma emitted_with_nan_threshold h v pair :
  is_nan h = true \/ is_nan v = true -> emitted E h v pair = None.
Proof.
  intros Hnan. destruct pair as [plane drone].
  unfold emitted, check_pair. simpl.
  destruct (getitem plane "latitude") as [lat1|]; simpl; [|reflexivity].
  destruct (getitem plane "longitude") as [lon1|]; simpl; [|reflexivity].
  destruct (getitem drone "latitude") as [lat2|]; simpl; [|reflexivity].
  destruct (getitem drone "longitude") as [lon2|]; simpl; [|reflexivity].
  destruct (calculate_horizontal_distance E lat1 lon1 lat2 lon2) as [d printed].
  simpl. unfold check_thresholds.
  destruct (getitem plane "baro_altitude") as [a1|]; simpl; [|reflexivity].
  destruct (py_float E a1) as [x1|]; simpl; [|reflexivity].
  destruct (getitem drone "altitude") as [a2|]; simpl; [|reflexivity].
  destruct (py_float E a2) as [x2|]; simpl; [|reflexivity].
  destruct ((d <=? h)%float && (calculate_vertical_distance x1 x2 <=? v)%float)
    eqn:Hnear; [|reflexivity].
  apply andb_true_iff in Hnear as [[_ Hh]%leb_not_nan [_ Hv]%leb_not_nan].
  destruct Hnan; congruence.
Qed.

(** X4. With a NaN threshold no pair is reported: for frames with the
    required columns the call returns the empty list. *)
Theorem nan_threshold_reports_nothing planes_df drones_df h_threshold v_threshold :
  missing_columns required_plane_cols planes_df = [] ->
  missing_columns required_drone_cols drones_df = [] ->
  is_nan h_threshold = true \/ is_nan v_threshold = true ->
  fst (detect_collisions E planes_df drones_df h_threshold v_threshold) = Ok [].
Proof.
  intros Hmp Hmd Hnan. rewrite detect_collisions_alerts by assumption.
  f_equal. induction (list_prod _ _) as [|pair pairs IH]; [reflexivity|].
  cbn. rewrite (emitted_with_nan_threshold _ _ _ Hnan). exact IH.
Qed.

Lemma omap_length_le {A B} (f : A -> option B) (l : list A) :
  (length (omap f l) <= length l)%nat.
Proof.
  induction l as [|x l IH]; cbn; [lia|]. destruct (f x); simpl; lia.
Qed.

(** X5. Past the validation, the last line printed gives the number of
    alerts returned and the number of pairs compared, which is the
    product of the sizes of the cleaned frames; there are at most that
    many alerts, hence at most [len(planes_df) * len(drones_df)]. *)
Theorem alert_count_is_printed_and_bounded
    planes_df drones_df h_threshold v_threshold :
  empty planes_df = false -> empty drones_df = false ->
  missing_columns required_plane_cols planes_df = [] ->
  missing_columns required_drone_cols drones_df = [] ->
  exists alerts printed planes_clean drones_clean,
    detect_collisions E planes_df drones_df h_threshold v_threshold
    = (Ok alerts,
       printed ++ [Complete (length alerts) (len planes_clean * len drones_clean)])
    /\ dropna required_plane_cols planes_df = Ok planes_clean
    /\ dropna required_drone_cols drones_df = Ok drones_clean
    /\ (length alerts <= len planes_clean * len drones_clean)%nat
    /\ (len planes_clean * len drones_clean <= len planes_df * len drones_df)%nat.
Proof.
  intros Hp Hd Hmp Hmd.
  eexists _, (_ :: _), _, _.
  split; [rewrite (detect_collisions_run E) by assumption; reflexivity|].
  split; [apply (dropna_complete _ _ Hmp)|].
  split; [apply (dropna_complete _ _ Hmd)|].
  split.
  - etransitivity; [apply omap_length_le|].
    rewrite length_prod. unfold iterrows, len. rewrite !length_map. reflexivity.
  - unfold len. simpl.
    apply Nat.mul_le_mono; apply List.filter_length_le.
Qed.

End DetectorBehaviour.

Section AlertContents.
Import Pandas CollisionDetection.
Variable E : Env.

Ltac mandatory_column :=
  match goal with
  | H : plane_series ?s |- _ ∈ index ?s =>
      apply H; unfold required_plane_cols; set_solver
  | H : drone_series ?s |- _ ∈ index ?s =>
      apply H; unfold required_drone_cols; set_solver
  end.

(** What an alert says about the pair of rows it comes from. *)
Definition describes (alert : Alert) (plane drone : gmap string pyval)
    (h_threshold v_threshold : float) : Prop :=
  plane_icao24 alert = cell plane "icao24"
  /\ drone_id alert = cell drone "drone_id"
  /\ plane_lat alert = cell plane "latitude"
  /\ plane_lon alert = cell plane "longitude"
  /\ drone_lat alert = cell drone "latitude"
  /\ drone_lon alert = cell drone "longitude"
  /\ py_float E (cell plane "baro_altitude") = Ok (plane_altitude alert)
  /\ py_float E (cell drone "altitude") = Ok (drone_altitude alert)
  /\ vertical_distance alert
     = round_ndigits E
         (calculate_vertical_distance (plane_altitude alert) (drone_altitude alert))
         2
  /\ (calculate_vertical_distance (plane_altitude alert) (drone_altitude alert)
      <=? v_threshold)%float = true
  /\ exists h,
       fst (calculate_horizontal_distance E
              (cell plane "latitude") (cell plane "longitude")
              (cell drone "latitude") (cell drone "longitude")) = h
       /\ horizontal_distance alert = round_ndigits E h 3
       /\ (h <=? h_threshold)%float = true.

Lemma emitted_describes plane drone h_threshold v_threshold alert :
  plane_series plane -> drone_series drone ->
  emitted E h_threshold v_threshold (plane, drone) = Some alert ->
  describes alert (values plane) (values drone) h_threshold v_threshold.
Proof.
  intros Hp Hd. unfold emitted, check_pair. simpl.
  rewrite !getitem_present by mandatory_column. simpl.
  destruct (calculate_horizontal_distance E _ _ _ _) as [h printed] eqn:Hh.
  simpl. unfold check_thresholds.
  rewrite !getitem_present by mandatory_column. simpl.
  destruct (py_float E (cell (values plane) "baro_altitude")) as [a1|] eqn:Ha1;
    simpl; [|discriminate].
  destruct (py_float E (cell (values drone) "altitude")) as [a2|] eqn:Ha2;
    simpl; [|discriminate].
  destruct ((h <=? h_threshold)%float
            && (calculate_vertical_distance a1 a2 <=? v_threshold)%float)
    eqn:Hnear; simpl; [|discriminate].
  apply andb_true_iff in Hnear as [Hnear1 Hnear2].
  intros [= <-]. unfold describes. simpl.
  repeat (split; [reflexivity || assumption|]).
  exists h. rewrite Hh. repeat split; assumption.
Qed.

(** X6. Every alert returned for frames with the required columns
    describes a plane row and a drone row of the input: it carries their
    identifiers and coordinates, none of which is a missing value, the
    altitudes as floats, and the two rounded distances, which are within
    the thresholds before rounding. *)
Theorem alerts_describe_input_rows
    planes_df drones_df h_threshold v_threshold alerts alert :
  missing_columns required_plane_cols planes_df = [] ->
  missing_columns required_drone_cols drones_df = [] ->
  fst (detect_collisions E planes_df drones_df h_threshold v_threshold)
  = Ok alerts ->
  alert ∈ alerts ->
  exists plane drone,
    plane ∈ rows planes_df /\ drone ∈ rows drones_df
    /\ describes alert plane drone h_threshold v_threshold
    /\ isna (plane_icao24 alert) = false /\ isna (drone_id alert) = false
    /\ isna (plane_lat alert) = false /\ isna (plane_lon alert) = false
    /\ isna (drone_lat alert) = false /\ isna (drone_lon alert) = false.
Proof.
  intros Hmp Hmd Hrun Hin.
  rewrite detect_collisions_alerts in Hrun by assumption.
  injection Hrun as <-.
  apply list_elem_of_omap in Hin as ([plane drone] & Hpair & Hemit).
  apply list_elem_of_In, in_prod_iff in Hpair as [Hplane Hdrone].
  apply list_elem_of_In in Hplane, Hdrone.
  assert (Hp : plane_series plane).
  { intros col Hcol. rewrite (iterrows_index _ _ Hplane).
    now apply (proj1 (missing_columns_nil _ _) Hmp). }
  assert (Hd : drone_series drone).
  { intros col Hcol. rewrite (iterrows_index _ _ Hdrone).
    now apply (proj1 (missing_columns_nil _ _) Hmd). }
  pose proof (emitted_describes _ _ _ _ _ Hp Hd Hemit) as Hdesc.
  unfold iterrows in Hplane, Hdrone.
  apply list_elem_of_fmap in Hplane as (p & -> & Hprow).
  apply list_elem_of_fmap in Hdrone as (d & -> & Hdrow).
  cbn [rows values] in *.
  apply list_elem_of_In, filter_In in Hprow as [Hprow Hpc].
  apply list_elem_of_In, filter_In in Hdrow as [Hdrow Hdc].
  exists p, d.
  split; [now apply list_elem_of_In|]. split; [now apply list_elem_of_In|].
  split; [exact Hdesc|].
  destruct Hdesc as (-> & -> & -> & -> & -> & -> & _).
  unfold complete_row, required_plane_cols, required_drone_cols in Hpc, Hdc.
  simpl in Hpc, Hdc.
  repeat match goal with
         | H : (_ && _)%bool = true |- _ => apply andb_true_iff in H as [? ?]
         | H : negb _ = true |- _ => apply negb_true_iff in H
         end.
  repeat split; assumption.
Qed.

End AlertContents.

(** ** More about the alert summary *)

Section SummaryCounts.
Import Pandas CollisionDetection.
Variable E : Env.

Lemma unique_length_le l : (length (unique l) <= length l)%nat.
Proof.
  induction l as [|v l IH]; simpl; [lia|].
  destruct (existsb (py_eq v) l); simpl; lia.
Qed.

Lemma unique_not_empty l : l <> [] -> unique l <> [].
Proof.
  induction l as [|v l IH]; [congruence|]. intros _. simpl.
  destruct (existsb (py_eq v) l) eqn:Hdup; [|discriminate].
  apply IH. destruct l; [discriminate|discriminate].
Qed.

Lemma nunique_bounds l : 0 <= nunique l <= Z.of_nat (length l).
Proof.
  unfold nunique. split; [lia|]. apply inj_le.
  etransitivity; [apply unique_length_le|apply List.filter_length_le].
Qed.

Lemma nunique_positive l v :
  v ∈ l -> isna v = false -> 1 <= nunique l.
Proof.
  intros Hin Hv. unfold nunique.
  assert (Hne : List.filter (fun v => negb (isna v)) l <> []).
  { intros Hnil.
    assert (Hf : In v (List.filter (fun v => negb (isna v)) l)).
    { apply filter_In. split; [now apply list_elem_of_In|now rewrite Hv]. }
    rewrite Hnil in Hf. destruct Hf. }
  apply unique_not_empty in Hne.
  destruct (unique _); [congruence|]. simpl. lia.
Qed.

(** X7. In every summary the number of alerts is the length of the
    list, and the numbers of distinct drones and of distinct planes lie
    between 0 and that number; they are at least 1 as soon as one alert
    has an identifier that is not missing. *)
Theorem summary_counts_are_bounded (alerts : list Alert) :
  let s := get_collision_summary E alerts in
  total_alerts s = Z.of_nat (length alerts)
  /\ 0 <= unique_drones s <= total_alerts s
  /\ 0 <= unique_planes s <= total_alerts s
  /\ (forall a, a ∈ alerts -> isna (drone_id a) = false -> 1 <= unique_drones s)
  /\ (forall a, a ∈ alerts -> isna (plane_icao24 a) = false -> 1 <= unique_planes s).
Proof.
  destruct alerts as [|a0 alerts]; cbn zeta.
  - simpl. repeat split; try lia; intros a Ha; inversion Ha.
  - cbn [get_collision_summary total_alerts unique_drones unique_planes].
    pose proof (nunique_bounds (map drone_id (a0 :: alerts))) as Hd.
    pose proof (nunique_bounds (map plane_icao24 (a0 :: alerts))) as Hp.
    rewrite length_map in Hd, Hp.
    split; [reflexivity|]. split; [exact Hd|]. split; [exact Hp|].
    split; intros a Ha Hid.
    + apply (nunique_positive _ (drone_id a)); [|assumption].
      apply list_elem_of_fmap. eauto.
    + apply (nunique_positive _ (plane_icao24 a)); [|assumption].
      apply list_elem_of_fmap. eauto.
Qed.

End SummaryCounts.

(** ** More about the classification *)

Section ClassificationBehaviour.
Import AlertTranslator.
Open Scope float_scope.

Definition level_names : list string :=
  ["CRITICAL"; "HIGH"; "MEDIUM"; "LOW"; "SAFE"].

Definition threshold_names : list string :=
  ["critical"; "high"; "medium"; "low"].

(** X8. Whatever the table of thresholds, [_get_danger_level] returns
    one of the five level names or raises the [KeyError] of a threshold
    name that the table lacks; with the four thresholds in the table it
    returns. *)
Theorem danger_level_outcomes (self : DroneAlertTranslator) (d : float) :
  match _get_danger_level self d with
  | Ok level => level ∈ level_names
  | Raise e =>
      exists k, e = KeyError k /\ k ∈ threshold_names
                /\ danger_thresholds self !! k = None
  end
  /\ ((forall k, k ∈ threshold_names -> is_Some (danger_thresholds self !! k)) ->
      exists level, _get_danger_level self d = Ok level).
Proof.
  unfold _get_danger_level, threshold, level_names, threshold_names.
  split.
  - repeat match goal with
           | |- context [danger_thresholds self !! ?k] =>
               destruct (danger_thresholds self !! k) eqn:?; simpl
           | |- context [if ?b then _ else _] => destruct b
           end;
      try set_solver;
      eexists; (split; [reflexivity|]); (split; [set_solver|assumption]).
  - intros Hall.
    destruct (Hall "critical") as [c ->]; [set_solver|].
    destruct (Hall "high") as [h ->]; [set_solver|].
    destruct (Hall "medium") as [m ->]; [set_solver|].
    destruct (Hall "low") as [l ->]; [set_solver|]. simpl.
    repeat match goal with |- context [if ?b then _ else _] => destruct b end;
      eauto.
Qed.

(** The ladder of a table that has the four thresholds. *)
Lemma danger_level_ladder_of self c h m l d :
  danger_thresholds self !! "critical" = Some c ->
  danger_thresholds self !! "high" = Some h ->
  danger_thresholds self !! "medium" = Some m ->
  danger_thresholds self !! "low" = Some l ->
  _get_danger_level self d
  = Ok (if d <=? c then "CRITICAL"
        else if d <=? h then "HIGH"
        else if d <=? m then "MEDIUM"
        else if d <=? l then "LOW"
        else "SAFE").
Proof.
  intros Hc Hh Hm Hl. unfold _get_danger_level, threshold.
  rewrite Hc, Hh, Hm, Hl. simpl.
  repeat match goal with |- context [if ?b then _ else _] => destruct b end;
    reflexivity.
Qed.

(** X9. The classification is monotone for every table of thresholds,
    ascending or not: when it returns for two distances [d1 <= d2], the
    priority of the level of [d1] is not greater than that of [d2]. *)
Theorem danger_level_monotone_for_any_thresholds
    (self : DroneAlertTranslator) (d1 d2 : float) level1 level2 :
  (d1 <=? d2) = true ->
  _get_danger_level self d1 = Ok level1 ->
  _get_danger_level self d2 = Ok level2 ->
  (_get_priority level1 <= _get_priority level2)%Z.
Proof.
  intros Hle. unfold _get_danger_level, threshold.
  assert (Hrung : forall t, (d2 <=? t) = true -> (d1 <=? t) = true)
    by (intros t; apply leb_trans; exact Hle).
  destruct priorities as (Pc & Ph & Pm & Pl & Ps).
  destruct (danger_thresholds self !! "critical") as [c|]; simpl; [|discriminate].
  destruct (d2 <=? c) eqn:C2.
  { rewrite (Hrung _ C2). intros [= <-] [= <-]. lia. }
  destruct (danger_thresholds self !! "high") as [h|]; simpl;
    [|destruct (d1 <=? c); discriminate].
  destruct (d2 <=? h) eqn:H2.
  { rewrite (Hrung _ H2). destruct (d1 <=? c); intros [= <-] [= <-]; lia. }
  destruct (danger_thresholds self !! "medium") as [m|]; simpl;
    [|destruct (d1 <=? c), (d1 <=? h); discriminate].
  destruct (d2 <=? m) eqn:M2.
  { rewrite (Hrung _ M2).
    destruct (d1 <=? c), (d1 <=? h); intros [= <-] [= <-]; lia. }
  destruct (danger_thresholds self !! "low") as [l|]; simpl;
    [|destruct (d1 <=? c), (d1 <=? h), (d1 <=? m); discriminate].
  destruct (d2 <=? l) eqn:L2.
  { rewrite (Hrung _ L2).
    destruct (d1 <=? c), (d1 <=? h), (d1 <=? m); intros [= <-] [= <-]; lia. }
  destruct (d1 <=? c), (d1 <=? h), (d1 <=? m), (d1 <=? l);
    intros [= <-] [= <-]; lia.
Qed.

(** X10. [_get_priority] takes its values between 1 and 5 on every
    string; it is below 5 exactly on the four levels that are not SAFE,
    and any string that is not a level name gets the default 5. *)
Theorem priority_range (level : string) :
  (1 <= _get_priority level <= 5)%Z
  /\ ((_get_priority level < 5)%Z <->
      level = "CRITICAL" \/ level = "HIGH" \/ level = "MEDIUM" \/ level = "LOW").
Proof.
  unfold _get_priority, priority_map.
  destruct (decide (level = "CRITICAL")) as [->|H1].
  { split; [vm_compute; split; discriminate|]. split; [auto|reflexivity]. }
  destruct (decide (level = "HIGH")) as [->|H2].
  { split; [vm_compute; split; discriminate|]. split; [auto|reflexivity]. }
  destruct (decide (level = "MEDIUM")) as [->|H3].
  { split; [vm_compute; split; discriminate|]. split; [auto|reflexivity]. }
  destruct (decide (level = "LOW")) as [->|H4].
  { split; [vm_compute; split; discriminate|]. split; [auto 6|reflexivity]. }
  destruct (decide (level = "SAFE")) as [->|H5].
  { split; [vm_compute; split; discriminate|].
    split; [intros H; vm_compute in H; discriminate|].
    intros [?|[?|[?|?]]]; discriminate. }
  rewrite !lookup_insert_ne by congruence. rewrite lookup_empty. simpl.
  split; [lia|]. split; [lia|]. intros [?|[?|[?|?]]]; congruence.
Qed.

End ClassificationBehaviour.

(** ** More about the per-drone aggregation *)

Section AggregationBehaviour.
Import AlertTranslator.
Variable E : Env.

(** X11. With the thresholds of [__init__], the alert of a pair is kept
    by the aggregation (its level is not SAFE) exactly when the computed
    distance is at most 5 km; its priority is the priority of its level
    and lies between 1 and 4 when it is kept. *)
Theorem alert_is_kept_within_low_threshold plane_data drone_data alert :
  translate_plane_to_drone_alert E init plane_data drone_data = Ok alert ->
  exists distance,
    _calculate_distance E plane_data drone_data = Ok distance
    /\ (not_safe alert = true <-> (distance <=? 5.0)%float = true)
    /\ priority alert = _get_priority (danger_level alert)
    /\ (not_safe alert = true -> 1 <= priority alert <= 4).
Proof.
  unfold translate_plane_to_drone_alert.
  destruct (_calculate_distance E plane_data drone_data) as [distance|];
    simpl; [|discriminate].
  rewrite danger_level_ladder. simpl. intros [= <-].
  exists distance. split; [reflexivity|]. unfold not_safe. simpl.
  destruct priorities as (Pc & Ph & Pm & Pl & Ps).
  destruct (distance <=? 5.0)%float eqn:H5.
  - destruct (distance <=? 0.5)%float, (distance <=? 1.0)%float,
             (distance <=? 2.0)%float;
      simpl; rewrite ?Pc, ?Ph, ?Pm, ?Pl;
      (split; [tauto|]); (split; [reflexivity|]); intros _; lia.
  - rewrite (above_lower_rung distance 2.0 5.0) by (assumption || reflexivity).
    rewrite (above_lower_rung distance 1.0 5.0) by (assumption || reflexivity).
    rewrite (above_lower_rung distance 0.5 5.0) by (assumption || reflexivity).
    simpl. split; [split; discriminate|]. split; [reflexivity|discriminate].
Qed.

Lemma map_result_ok_in {X Y} (f : X -> result Y) l ys y :
  map_result f l = Ok ys -> y ∈ ys -> exists x, x ∈ l /\ f x = Ok y.
Proof.
  revert ys. induction l as [|x l IH]; intros ys; simpl.
  - intros [= <-] Hin. inversion Hin.
  - destruct (f x) as [y0|] eqn:Hx; [|discriminate].
    destruct (map_result f l) as [ys0|]; [|discriminate].
    intros [= <-] [->|Hin]%elem_of_cons.
    + exists x. split; [left|assumption].
    + destruct (IH _ eq_refl Hin) as (x' & Hx' & Hf).
      exists x'. split; [now right|assumption].
Qed.

Lemma map_result_length {X Y} (f : X -> result Y) l ys :
  map_result f l = Ok ys -> length ys = length l.
Proof.
  revert ys. induction l as [|x l IH]; intros ys; simpl.
  - now intros [= <-].
  - destruct (f x); [|discriminate].
    destruct (map_result f l); [|discriminate].
    intros [= <-]. simpl. f_equal. now apply IH.
Qed.

(** The summaries of a successful call. *)
Lemma summaries_of_call self drone_data plane_data summaries :
  process_multiple_alerts E self drone_data plane_data = Ok summaries ->
  Forall2 (summary_of E self plane_data) drone_data summaries.
Proof.
  unfold process_multiple_alerts. intros Hcall.
  pose proof (process_alerts_from E self drone_data plane_data []) as H.
  rewrite Hcall in H. destruct H as (added & -> & Hall). exact Hall.
Qed.

(** X12. In every summary of a successful call, [highest_priority] is
    the most severe level among the drone's alerts: no alert has a
    smaller priority number; and it is SAFE exactly when the drone has
    no alert. *)
Theorem highest_priority_is_most_severe
    self drone_data plane_data summaries s :
  process_multiple_alerts E self drone_data plane_data = Ok summaries ->
  s ∈ summaries ->
  (forall a, a ∈ alerts s ->
     _get_priority (highest_priority s) <= priority a
     /\ priority a = _get_priority (danger_level a))
  /\ (highest_priority s = "SAFE" <-> alerts s = []).
Proof.
  intros Hcall Hs.
  apply summaries_of_call in Hcall.
  assert (Hsum : exists drone, summary_of E self plane_data drone s).
  { clear -Hcall Hs. induction Hcall as [|d s' ds ss Hd Hrest IH];
      [inversion Hs|].
    apply elem_of_cons in Hs as [->|Hs]; eauto. }
  destruct Hsum
    as (drone & evaluated & Heval & Hperm & Hsorted & _ & Hkept & _ & Hhigh & _).
  assert (Hprio : forall a, a ∈ alerts s ->
             priority a = _get_priority (danger_level a)).
  { intros a Ha. rewrite Hperm in Ha.
    apply list_elem_of_In, filter_In in Ha as [Ha _].
    apply list_elem_of_In in Ha.
    destruct (map_result_ok_in _ _ _ _ Heval Ha) as (plane & _ & Htr).
    unfold translate_plane_to_drone_alert in Htr.
    destruct (_calculate_distance E plane drone); simpl in Htr; [|discriminate].
    destruct (_get_danger_level self a0); simpl in Htr; [|discriminate].
    injection Htr as <-. reflexivity. }
  split.
  - intros a Ha. split; [|now apply Hprio].
    rewrite Hhigh. destruct (alerts s) as [|first rest] eqn:Halerts;
      [inversion Ha|].
    rewrite <- (Hprio first) by left.
    apply elem_of_cons in Ha as [->|Ha]; [lia|].
    inversion Hsorted as [|? ? _ Hall]; subst.
    rewrite Forall_forall in Hall. now apply Hall.
  - rewrite Hhigh. destruct (alerts s) as [|first rest]; [tauto|].
    split; [|discriminate]. intros Hsafe.
    inversion Hkept; subst. contradiction.
Qed.

(** X13. A successful call returns one summary per drone, in the order
    of the drones and with their identifiers; each holds at most as many
    alerts as there are planes, and [alert_count] is their number. *)
Theorem one_summary_per_drone self drone_data plane_data summaries :
  process_multiple_alerts E self drone_data plane_data = Ok summaries ->
  map drone_id summaries = map (fun d => dict_get d "drone_id" PNone) drone_data
  /\ length summaries = length drone_data
  /\ Forall (fun s => alert_count s = length (alerts s)
                      /\ (length (alerts s) <= length plane_data)%nat)
       summaries.
Proof.
  intros Hcall. apply summaries_of_call in Hcall.
  induction Hcall as [|d s ds ss Hd Hrest (IHid & IHlen & IHall)]; simpl.
  - repeat split. constructor.
  - destruct Hd as (evaluated & Heval & Hperm & _ & _ & _ & Hcount & _ & Hid).
    split; [now rewrite Hid, IHid|]. split; [now rewrite IHlen|].
    constructor; [|exact IHall]. split; [exact Hcount|].
    rewrite (Permutation_length Hperm).
    rewrite <- (map_result_length _ _ _ Heval).
    apply List.filter_length_le.
Qed.

(** X14. Without planes, a call returns for every drone a summary with
    no alert and the level SAFE: it never raises. *)
Theorem no_planes_all_safe self drone_data :
  exists summaries,
    process_multiple_alerts E self drone_data [] = Ok summaries
    /\ length summaries = length drone_data
    /\ Forall (fun s => alerts s = [] /\ alert_count s = 0%nat
                        /\ highest_priority s = "SAFE") summaries.
Proof.
  unfold process_multiple_alerts.
  assert (H : forall acc,
             exists added,
               for_each drone_data
                 (fun all_alerts drone =>
                    collected ← collect_alerts E self drone [];
                    Ok (all_alerts ++ [summarize_drone drone collected]))
                 acc = Ok (acc ++ added)
               /\ length added = length drone_data
               /\ Forall (fun s => alerts s = [] /\ alert_count s = 0%nat
                                   /\ highest_priority s = "SAFE") added).
  { induction drone_data as [|d ds IH]; intros acc; cbn [for_each].
    - exists []. rewrite app_nil_r. repeat split. constructor.
    - destruct (IH (acc ++ [summarize_drone d []])) as (added & Hrun & Hlen & Hall).
      exists (summarize_drone d [] :: added).
      split; [|split; [simpl; now rewrite Hlen|]].
      { change (collect_alerts E self d []) with (@Ok (list DroneAlert) []).
        cbn [mbind result_bind]. rewrite Hrun. now rewrite <- app_assoc. }
      constructor; [repeat split|exact Hall]. }
  destruct (H []) as (added & Hrun & Hlen & Hall). eauto.
Qed.

End AggregationBehaviour.

(** ** The compass sector of a bearing *)

Section CompassSectors.
Import Dashboard.
Open Scope float_scope.

Lemma SFleb_SFltb_trans x y z :
  SFleb x y = true -> SFltb y z = true -> SFltb x z = true.
Proof.
  unfold SFleb, SFltb.
  destruct x as [sx|sx| |sx mx ex], y as [sy|sy| |sy my ey],
           z as [sz|sz| |sz mz ez];
    simpl; try discriminate; try reflexivity;
    repeat match goal with
    | s : bool |- _ => destruct s
    | |- context [(?a ?= ?b)%Z] => destruct (Z.compare_spec a b)
    | |- context [Pos.compare_cont Eq ?a ?b] =>
        change (Pos.compare_cont Eq a b) with (Pos.compare a b);
        destruct (Pos.compare_spec a b)
    end; simpl in *; subst; try reflexivity; try discriminate; try lia.
Qed.

Lemma leb_ltb_trans x y z : (x <=? y) = true -> (y <? z) = true -> (x <? z) = true.
Proof.
  rewrite FloatAxioms.leb_spec, !FloatAxioms.ltb_spec. apply SFleb_SFltb_trans.
Qed.

Lemma leb_not_ltb x y : (x <=? y) = true -> (y <? x) = false.
Proof.
  intros H. destruct (y <? x) eqn:Hlt; [|reflexivity].
  apply ltb_not_leb in Hlt. congruence.
Qed.

(** A bearing at or above [lo] is not below a bound [t <= lo]. *)
Lemma not_below b t lo :
  (t <=? lo) = true -> (lo <=? b) = true -> (b <? t) = false.
Proof. intros Ht Hlo. apply leb_not_ltb. now apply (leb_trans _ lo). Qed.

(** A bearing below [hi] is not at or above a bound [top >= hi]. *)
Lemma not_at_or_above b hi top :
  (top <? hi) = false -> (b <? hi) = true -> (top <=? b) = false.
Proof.
  intros Htop Hhi. destruct (top <=? b) eqn:Hb; [|reflexivity].
  rewrite (leb_ltb_trans _ _ _ Hb Hhi) in Htop. discriminate.
Qed.

Lemma nan_compares_false b t :
  is_nan b = true -> (b <? t) = false /\ (t <=? b) = false.
Proof.
  intros Hnan%is_nan_Prim2SF.
  rewrite FloatAxioms.ltb_spec, FloatAxioms.leb_spec. unfold SFltb, SFleb.
  rewrite Hnan. simpl. split; [reflexivity|].
  destruct (Prim2SF t); reflexivity.
Qed.

Variable E : Env.

(** The name that the ladder of [get_relative_position_description]
    gives to a bearing. *)
Definition sector_of (bearing : float) : string :=
  if (bearing <? 22.5) || (337.5 <=? bearing) then "N"
  else if bearing <? 67.5 then "NE"
  else if bearing <? 112.5 then "E"
  else if bearing <? 157.5 then "SE"
  else if bearing <? 202.5 then "S"
  else if bearing <? 247.5 then "SW"
  else if bearing <? 292.5 then "W"
  else "NW".

Lemma relative_position_of_bearing lat1 lon1 lat2 lon2 :
  get_relative_position_description E lat1 lon1 lat2 lon2
  = match calculate_bearing E lat1 lon1 lat2 lon2 with
    | Ok bearing => Ok (sector_of bearing)
    | Raise e => Raise e
    end.
Proof.
  unfold get_relative_position_description, sector_of.
  destruct (calculate_bearing E lat1 lon1 lat2 lon2) as [b|e]; simpl;
    [|reflexivity].
  repeat match goal with |- context [if ?c then _ else _] => destruct c end;
    reflexivity.
Qed.

Ltac sector lo hi :=
  intros Hlo Hhi; unfold sector_of;
  rewrite ?(not_below _ 22.5 lo) by (reflexivity || assumption);
  rewrite ?(not_at_or_above _ hi 337.5) by (reflexivity || assumption);
  rewrite ?(not_below _ 67.5 lo) by (reflexivity || assumption);
  rewrite ?(not_below _ 112.5 lo) by (reflexivity || assumption);
  rewrite ?(not_below _ 157.5 lo) by (reflexivity || assumption);
  rewrite ?(not_below _ 202.5 lo) by (reflexivity || assumption);
  rewrite ?(not_below _ 247.5 lo) by (reflexivity || assumption);
  rewrite ?(not_below _ 292.5 lo) by (reflexivity || assumption);
  rewrite ?Hhi; reflexivity.

(** X15. [get_relative_position_description] raises what the bearing
    computation raises and otherwise names the 45-degree sector of the
    bearing: N below 22.5 or from 337.5, then NE, E, SE, S, SW, W and NW
    for the half-open intervals that start at 22.5, 67.5, 112.5, 157.5,
    202.5, 247.5 and 292.5. A bearing that is NaN is named NW. *)
Theorem relative_position_sectors lat1 lon1 lat2 lon2 :
  match calculate_bearing E lat1 lon1 lat2 lon2 with
  | Raise e => get_relative_position_description E lat1 lon1 lat2 lon2 = Raise e
  | Ok b =>
      exists name,
        get_relative_position_description E lat1 lon1 lat2 lon2 = Ok name
        /\ ((b <? 22.5) = true \/ (337.5 <=? b) = true -> name = "N")
        /\ ((22.5 <=? b) = true -> (b <? 67.5) = true -> name = "NE")
        /\ ((67.5 <=? b) = true -> (b <? 112.5) = true -> name = "E")
        /\ ((112.5 <=? b) = true -> (b <? 157.5) = true -> name = "SE")
        /\ ((157.5 <=? b) = true -> (b <? 202.5) = true -> name = "S")
        /\ ((202.5 <=? b) = true -> (b <? 247.5) = true -> name = "SW")
        /\ ((247.5 <=? b) = true -> (b <? 292.5) = true -> name = "W")
        /\ ((292.5 <=? b) = true -> (b <? 337.5) = true -> name = "NW")
        /\ (is_nan b = true -> name = "NW")
  end.
Proof.
  rewrite relative_position_of_bearing.
  destruct (calculate_bearing E lat1 lon1 lat2 lon2) as [b|e]; [|reflexivity].
  exists (sector_of b). split; [reflexivity|].
  split.
  { unfold sector_of. intros [->| ->]; [reflexivity|].
    now rewrite orb_true_r. }
  split; [sector 22.5 67.5|]. split; [sector 67.5 112.5|].
  split; [sector 112.5 157.5|]. split; [sector 157.5 202.5|].
  split; [sector 202.5 247.5|]. split; [sector 247.5 292.5|].
  split.
  - intros Hlo Hhi. unfold sector_of.
    rewrite (not_at_or_above _ 337.5 337.5) by (reflexivity || assumption).
    rewrite !(not_below _ _ 292.5) by (reflexivity || assumption).
    reflexivity.
  - intros Hnan. unfold sector_of.
    rewrite !(proj1 (nan_compares_false b _ Hnan)).
    rewrite (proj2 (nan_compares_false b _ Hnan)). reflexivity.
Qed.

End CompassSectors.

(** ** The nearby drones *)

Section NearbyDrones.
Import Pandas Dashboard.
Open Scope float_scope.

Lemma not_ltb_leb x y :
  is_nan x = false -> is_nan y = false -> (x <? y) = false -> (y <=? x) = true.
Proof.
  intros Hx Hy Hlt. destruct (y <=? x) eqn:Hle; [reflexivity|].
  rewrite (leb_total y x Hy Hx Hle) in Hlt. discriminate.
Qed.

(** A loop whose body leaves the list alone or appends one element. *)
Lemma for_each_appends {A B} (body : list B -> A -> result (list B))
    (Q : B -> Prop) (xs : list A) :
  (forall acc x acc',
      body acc x = Ok acc' ->
      acc' = acc \/ exists b, acc' = acc ++ [b] /\ Q b) ->
  forall acc acc',
    for_each xs body acc = Ok acc' ->
    exists added,
      acc' = acc ++ added /\ Forall Q added
      /\ (length added <= length xs)%nat.
Proof.
  intros Hbody. induction xs as [|x xs IH]; intros acc acc'; simpl.
  - intros [= <-]. exists []. rewrite app_nil_r.
    split; [reflexivity|]. split; [constructor|simpl; lia].
  - destruct (body acc x) as [acc1|] eqn:Hx; [|discriminate].
    intros Hrest. destruct (IH _ _ Hrest) as (added & -> & Hall & Hlen).
    destruct (Hbody _ _ _ Hx) as [->|(b & -> & Hb)].
    + exists added. split; [reflexivity|]. split; [assumption|lia].
    + exists (b :: added). rewrite <- app_assoc.
      split; [reflexivity|]. split; [now constructor|simpl; lia].
Qed.

Lemma StronglySorted_take {A} (R : A -> A -> Prop) n l :
  StronglySorted R l -> StronglySorted R (take n l).
Proof.
  intros Hs. revert n. induction Hs as [|x l Hl IH Hx]; intros [|n]; simpl;
    try constructor; [apply IH|].
  rewrite Forall_forall in Hx |- *. intros y Hy. apply Hx.
  now apply (subseteq_take n l).
Qed.

Lemma StronglySorted_cut {A} (R : A -> A -> Prop) n l a b :
  StronglySorted R l -> a ∈ take n l -> b ∈ drop n l -> R a b.
Proof.
  intros Hs. revert n. induction Hs as [|x l Hl IH Hx]; intros [|n]; simpl;
    try (intros Ha; inversion Ha; fail).
  intros [->|Ha]%elem_of_cons Hb.
  - rewrite Forall_forall in Hx. apply Hx. now apply (subseteq_drop n l).
  - now apply (IH n).
Qed.

Variable E : Env.

Definition in_range (range : float) (d : NearbyDrone) : Prop :=
  (nearby_distance d <=? range) = true.

Definition not_farther (a b : NearbyDrone) : Prop :=
  (nearby_distance a <=? nearby_distance b) = true.

(** The drones that the loop of [get_nearby_drones] collects are within
    the range, one per row at most. *)
Lemma visit_drone_cases current_lat current_lon range acc drone acc' :
  visit_drone E current_lat current_lon range acc drone = Ok acc' ->
  acc' = acc \/ exists d, acc' = acc ++ [d] /\ in_range range d.
Proof.
  unfold visit_drone.
  destruct (getitem drone "latitude") as [lat|]; simpl; [|discriminate].
  destruct (isna lat); [intros [= <-]; now left|].
  destruct (getitem drone "longitude") as [lon|]; simpl; [|discriminate].
  destruct (isna lon); [intros [= <-]; now left|].
  destruct (_ <=? range) eqn:Hrange; [|intros [= <-]; now left].
  repeat match goal with
         | |- context [py_float E ?v] => destruct (py_float E v); simpl;
                                         [|discriminate]
         end.
  destruct (calculate_bearing E _ _ _ _); simpl; [|discriminate].
  destruct (get_relative_position_description E _ _ _ _); simpl; [|discriminate].
  intros [= <-]. right. eexists. split; [reflexivity|exact Hrange].
Qed.

Lemma sort_nearby_in_order range l :
  Forall (in_range range) l ->
  StronglySorted not_farther (sort_by nearby_distance PrimFloat.ltb l).
Proof.
  intros Hl.
  set (P := fun d : NearbyDrone => is_nan (nearby_distance d) = false).
  assert (HP : Forall P l).
  { eapply Forall_impl; [exact Hl|]. intros d Hd. now apply leb_not_nan in Hd. }
  assert (Hs : StronglySorted (not_after nearby_distance PrimFloat.ltb)
                 (sort_by nearby_distance PrimFloat.ltb l)).
  { apply (sort_by_in_order nearby_distance PrimFloat.ltb P); [| |exact HP].
    - intros a b _ _. apply ltb_asym.
    - intros a b c Ha Hb Hc Hab Hbc.
      apply leb_not_ltb. apply (leb_trans _ (nearby_distance b)).
      + now apply not_ltb_leb.
      + now apply not_ltb_leb. }
  assert (HP' : Forall P (sort_by nearby_distance PrimFloat.ltb l))
    by (now rewrite sort_by_permutation).
  induction Hs as [|d ds Hds IH Hd]; [constructor|].
  inversion HP' as [|? ? Pd Pds]; subst.
  constructor; [now apply IH|].
  rewrite Forall_forall in Hd, Pds |- *. intros d' Hd'.
  apply not_ltb_leb; [now apply Pds|assumption|now apply Hd].
Qed.

(** X16. [get_nearby_drones] returns at most 15 drones in test mode and
    30 in real mode, never more than the frame has rows; each is within
    the effective range ([range_nm], doubled in real mode); without an
    aircraft or with an empty frame the list is empty. *)
Theorem nearby_drones_are_bounded_and_in_range
    self current_aircraft range_nm nearby :
  get_nearby_drones E self current_aircraft range_nm = Ok nearby ->
  (length nearby <= (if use_test_data self then 15 else 30))%nat
  /\ (length nearby <= len (drones_df self))%nat
  /\ Forall (in_range (if use_test_data self then range_nm else range_nm * 2))
       nearby
  /\ (current_aircraft = None \/ empty (drones_df self) = true -> nearby = []).
Proof.
  unfold get_nearby_drones.
  destruct current_aircraft as [aircraft|].
  2: { intros [= <-]. split; [apply Nat.le_0_l|]. split; [apply Nat.le_0_l|].
       split; [constructor|reflexivity]. }
  destruct (empty (drones_df self)) eqn:Hempty.
  { intros [= <-]. split; [apply Nat.le_0_l|]. split; [apply Nat.le_0_l|].
    split; [constructor|reflexivity]. }
  destruct (for_each _ _ _) as [found|] eqn:Hloop; simpl; [|discriminate].
  intros [= <-].
  apply (for_each_appends _ (in_range (if negb (use_test_data self)
                                       then range_nm * 2 else range_nm))) in Hloop
    as (added & -> & Hall & Hlen).
  2: { intros acc x acc'. apply visit_drone_cases. }
  simpl in *. unfold iterrows in Hlen. rewrite length_map in Hlen.
  split; [|split; [|split]].
  - rewrite length_take. destruct (use_test_data self); cbn [negb];
      apply Nat.le_min_l.
  - rewrite length_take.
    rewrite (Permutation_length (sort_by_permutation _ _ _)). unfold len.
    etransitivity; [apply Nat.le_min_r|exact Hlen].
  - assert (Hsorted : Forall (in_range (if negb (use_test_data self)
                                        then range_nm * 2 else range_nm))
                        (sort_by nearby_distance PrimFloat.ltb added))
      by (now rewrite sort_by_permutation).
    destruct (use_test_data self); simpl in *;
      (eapply Forall_impl; [apply Forall_take; exact Hsorted|auto]).
  - intros [?|?]; congruence.
Qed.

(** X17. The list of [get_nearby_drones] is in the order of the
    distances, nearest first, and the cut at 15 or 30 drops only drones
    that are not nearer than any drone that is returned. *)
Theorem nearby_drones_are_nearest_first self aircraft range_nm nearby :
  get_nearby_drones E self (Some aircraft) range_nm = Ok nearby ->
  StronglySorted not_farther nearby
  /\ (empty (drones_df self) = false ->
      exists found cut,
        for_each (iterrows (drones_df self))
          (visit_drone E (PFloat (aircraft_latitude aircraft))
             (PFloat (aircraft_longitude aircraft))
             (if negb (use_test_data self) then range_nm * 2 else range_nm))
          [] = Ok found
        /\ Permutation (nearby ++ cut) found
        /\ forall a b, a ∈ nearby -> b ∈ cut -> not_farther a b).
Proof.
  unfold get_nearby_drones.
  destruct (empty (drones_df self)) eqn:Hempty.
  { intros [= <-]. split; [constructor|discriminate]. }
  destruct (for_each _ _ _) as [found|] eqn:Hloop; simpl; [|discriminate].
  intros [= <-].
  pose proof Hloop as Hfound.
  apply (for_each_appends _ (in_range (if negb (use_test_data self)
                                       then range_nm * 2 else range_nm))) in Hloop
    as (added & -> & Hall & _).
  2: { intros acc x acc'. apply visit_drone_cases. }
  simpl in *.
  pose proof (sort_nearby_in_order _ _ Hall) as Hsorted.
  split; [now apply StronglySorted_take|]. intros _.
  exists added,
    (drop (if negb (use_test_data self) then 30%nat else 15%nat)
       (sort_by nearby_distance PrimFloat.ltb added)).
  split; [reflexivity|]. split.
  - rewrite take_drop. apply sort_by_permutation.
  - intros a b Ha Hb. eapply StronglySorted_cut; eauto.
Qed.

End NearbyDrones.

(** ** More about the tiered detection *)

Section ThreatContents.
Import Pandas CollisionDetection Dashboard.
Variable E : Env.








Lemma StronglySorted_lookup {A} (R : A -> A -> Prop) (l : list A) i j a b :
  StronglySorted R l -> (i < j)%nat ->
  l !! i = Some a -> l !! j = Some b -> R a b.
Proof.
  intros Hs. revert i j. induction Hs as [|x l Hl IH Hx]; intros i j Hij.
  - intros Hi. inversion Hi.
  - destruct j as [|j]; [lia|]. destruct i as [|i]; simpl.
    + intros [= <-] Hb. rewrite Forall_forall in Hx. apply Hx.
      now apply list_elem_of_lookup_2 in Hb.
    + apply IH. lia.
Qed.

(** The thresholds of a level are not above those of another. *)
Definition not_looser (a b : ThreatLevel) : Prop :=
  (h_threshold a <=? h_threshold b)%float = true
  /\ (v_threshold a <=? v_threshold b)%float = true.

Lemma alerts_at_looser_level aircraft nearby_drones level1 level2 :
  not_looser level1 level2 ->
  alerts_at E aircraft nearby_drones level1
    `sublist_of` alerts_at E aircraft nearby_drones level2.
Proof.
  intros [Hh Hv]. rewrite !alerts_at_pairs. apply omap_sublist.
  intros pair alert. now apply emitted_under_looser_thresholds.
Qed.

(** X19. The two configured lists of levels are nested: in the list of
    test mode and in the list of real mode, what a level reports is, in
    order, among what every later level reports. The first level that
    reports a drone is therefore the tightest one that does. *)
Theorem configured_levels_are_nested aircraft nearby_drones :
  (forall i j level1 level2,
      (i < j)%nat ->
      test_threat_levels !! i = Some level1 ->
      test_threat_levels !! j = Some level2 ->
      alerts_at E aircraft nearby_drones level1
        `sublist_of` alerts_at E aircraft nearby_drones level2)
  /\ (forall i j level1 level2,
        (i < j)%nat ->
        real_threat_levels !! i = Some level1 ->
        real_threat_levels !! j = Some level2 ->
        alerts_at E aircraft nearby_drones level1
          `sublist_of` alerts_at E aircraft nearby_drones level2).
Proof.
  assert (Htest : StronglySorted not_looser test_threat_levels)
    by (repeat constructor; reflexivity).
  assert (Hreal : StronglySorted not_looser real_threat_levels)
    by (repeat constructor; reflexivity).
  split; intros i j level1 level2 Hij Hi Hj; apply alerts_at_looser_level.
  - exact (StronglySorted_lookup _ _ _ _ _ _ Htest Hij Hi Hj).
  - exact (StronglySorted_lookup _ _ _ _ _ _ Hreal Hij Hi Hj).
Qed.

End ThreatContents.

(** ** The further properties on sample runs *)

Module BehaviourRuns.
Import Pandas Dashboard.

(** A table of thresholds that is not ascending. *)
Definition descending_thresholds : AlertTranslator.DroneAlertTranslator :=
  {| AlertTranslator.danger_thresholds :=
       <["critical" := 2.0%float]>
       (<["high" := 1.0%float]>
       (<["medium" := 0.5%float]>
       (<["low" := 5.0%float]> ∅))) |}.

(** Four drones north of the aircraft of [DashboardRuns], listed
    farthest first: at about 111 km, 2.2 km, 1.1 km and 0.1 km. *)
Definition four_drones : DataFrame :=
  Sample.drones
    [ Sample.drone_row "D4" (PFloat 13.0%float) (PFloat 77.0%float) (PFloat 90%float);
      Sample.drone_row "D3" (PFloat 12.02%float) (PFloat 77.0%float) (PFloat 90%float);
      Sample.drone_row "D2" (PFloat 12.01%float) (PFloat 77.0%float) (PFloat 90%float);
      Sample.drone_row "D1" (PFloat 12.001%float) (PFloat 77.0%float) (PFloat 90%float) ].

Definition four_drones_service : PilotDashboardService :=
  {| drones_df := four_drones; use_test_data := true |}.

Definition nearby_of_four_drones : list NearbyDrone :=
  match get_nearby_drones Sample.env four_drones_service
          (Some DashboardRuns.the_aircraft) 10%float with
  | Ok nearby => nearby
  | Raise _ => []
  end.

End BehaviourRuns.

Section BehaviourRunFacts.
Import Pandas CollisionDetection DetectorRuns BehaviourRuns.

(** The pair that is reported at 55.5 km and 100 m is reported at
    60 km and 150 m. *)
Lemma pair_is_kept_under_looser_thresholds :
  exists alerts alerts',
    fst (detect_collisions Sample.env plane_at_origin drone_half_degree_north
           55.5%float 100%float) = Ok alerts
    /\ fst (detect_collisions Sample.env plane_at_origin drone_half_degree_north
              60%float 150%float) = Ok alerts'
    /\ alerts `sublist_of` alerts'
    /\ (length alerts <= length alerts')%nat.
Proof.
  apply (looser_thresholds_keep_alerts Sample.env
           plane_at_origin drone_half_degree_north
           55.5%float 100%float 60%float 150%float);
    vm_compute; reflexivity.
Defined.

(** The same pair under a horizontal threshold that is NaN. *)
Lemma pair_under_nan_threshold :
  fst (detect_collisions Sample.env plane_at_origin drone_half_degree_north
         nan 100%float) = Ok [].
Proof.
  apply (nan_threshold_reports_nothing Sample.env
           plane_at_origin drone_half_degree_north nan 100%float).
  - vm_compute. reflexivity.
  - vm_compute. reflexivity.
  - left. vm_compute. reflexivity.
Defined.

(** Ten planes, of which eight are kept, and one drone. *)
Lemma count_printed_for_ten_planes :
  exists alerts printed planes_clean drones_clean,
    detect_collisions Sample.env ten_planes one_drone 0.5%float 100%float
    = (Ok alerts,
       printed ++ [Complete (length alerts) (len planes_clean * len drones_clean)])
    /\ dropna required_plane_cols ten_planes = Ok planes_clean
    /\ dropna required_drone_cols one_drone = Ok drones_clean
    /\ (length alerts <= len planes_clean * len drones_clean)%nat
    /\ (len planes_clean * len drones_clean <= len ten_planes * len one_drone)%nat.
Proof.
  apply (alert_count_is_printed_and_bounded Sample.env
           ten_planes one_drone 0.5%float 100%float);
    vm_compute; reflexivity.
Defined.

(** The alert of the pair at half a degree describes the two rows. *)
Lemma alert_of_the_pair_describes_its_rows :
  exists alert plane drone,
    fst (detect_collisions Sample.env plane_at_origin drone_half_degree_north
           55.5%float 100%float) = Ok [alert]
    /\ plane ∈ rows plane_at_origin /\ drone ∈ rows drone_half_degree_north
    /\ describes Sample.env alert plane drone 55.5%float 100%float
    /\ plane_icao24 alert = PStr "abc123" /\ drone_id alert = PStr "D1".
Proof.
  assert (Hrun : exists alert,
             fst (detect_collisions Sample.env plane_at_origin
                    drone_half_degree_north 55.5%float 100%float) = Ok [alert]
             /\ plane_icao24 alert = PStr "abc123" /\ drone_id alert = PStr "D1")
    by (vm_compute; eexists; repeat split).
  destruct Hrun as (alert & Hrun & Hplane & Hdrone).
  destruct (alerts_describe_input_rows Sample.env
              plane_at_origin drone_half_degree_north 55.5%float 100%float
              [alert] alert)
    as (plane & drone & Hp & Hd & Hdesc & _).
  - vm_compute. reflexivity.
  - vm_compute. reflexivity.
  - exact Hrun.
  - left.
  - exists alert, plane, drone. repeat (split; [assumption|]). assumption.
Defined.

End BehaviourRunFacts.

Section ClassificationRunFacts.
Import AlertTranslator BehaviourRuns.

(** With the thresholds 2, 1, 0.5 and 5, the distance 0.7 km is CRITICAL
    and 3 km is LOW. *)
Lemma descending_thresholds_are_monotone :
  _get_danger_level descending_thresholds 0.7%float = Ok "CRITICAL"
  /\ _get_danger_level descending_thresholds 3.0%float = Ok "LOW"
  /\ _get_priority "CRITICAL" <= _get_priority "LOW".
Proof.
  assert (H1 : _get_danger_level descending_thresholds 0.7%float = Ok "CRITICAL")
    by (vm_compute; reflexivity).
  assert (H2 : _get_danger_level descending_thresholds 3.0%float = Ok "LOW")
    by (vm_compute; reflexivity).
  split; [exact H1|]. split; [exact H2|].
  apply (danger_level_monotone_for_any_thresholds descending_thresholds
           0.7%float 3.0%float "CRITICAL" "LOW"); [vm_compute; reflexivity|assumption..].
Defined.

(** The plane at 0.3 km of the drone: its alert is kept, at priority 1. *)
Lemma critical_plane_is_kept :
  exists alert distance,
    translate_plane_to_drone_alert Sample.env init
      (AggregationRuns.position "CRI1" "callsign" 12.003%float 77.0%float)
      AggregationRuns.the_drone = Ok alert
    /\ _calculate_distance Sample.env
         (AggregationRuns.position "CRI1" "callsign" 12.003%float 77.0%float)
         AggregationRuns.the_drone = Ok distance
    /\ (not_safe alert = true <-> (distance <=? 5.0)%float = true)
    /\ priority alert = _get_priority (danger_level alert)
    /\ (not_safe alert = true -> 1 <= priority alert <= 4)
    /\ priority alert = 1.
Proof.
  assert (Hrun : exists alert,
             translate_plane_to_drone_alert Sample.env init
               (AggregationRuns.position "CRI1" "callsign" 12.003%float 77.0%float)
               AggregationRuns.the_drone = Ok alert
             /\ priority alert = 1)
    by (vm_compute; eexists; split; reflexivity).
  destruct Hrun as (alert & Hrun & Hone).
  destruct (alert_is_kept_within_low_threshold Sample.env _ _ _ Hrun)
    as (distance & Hd & Hkept & Hprio & Hrange).
  exists alert, distance. repeat (split; [assumption|]). assumption.
Defined.

(** The summary of the drone of [AggregationRuns]. *)
Lemma summary_of_the_drone_is_critical :
  exists s,
    process_multiple_alerts Sample.env init
      [AggregationRuns.the_drone] AggregationRuns.the_planes = Ok [s]
    /\ highest_priority s = "CRITICAL"
    /\ (forall a, a ∈ alerts s ->
          _get_priority (highest_priority s) <= priority a
          /\ priority a = _get_priority (danger_level a))
    /\ (highest_priority s = "SAFE" <-> alerts s = []).
Proof.
  assert (Hrun : exists s,
             process_multiple_alerts Sample.env init
               [AggregationRuns.the_drone] AggregationRuns.the_planes = Ok [s]
             /\ highest_priority s = "CRITICAL")
    by (vm_compute; eexists; split; reflexivity).
  destruct Hrun as (s & Hrun & Hhigh).
  exists s. split; [exact Hrun|]. split; [exact Hhigh|].
  apply (highest_priority_is_most_severe Sample.env init
           [AggregationRuns.the_drone] AggregationRuns.the_planes [s] s Hrun).
  left.
Defined.

(** One drone and four planes: one summary, of at most four alerts. *)
Lemma one_summary_for_the_drone :
  exists summaries,
    process_multiple_alerts Sample.env init
      [AggregationRuns.the_drone] AggregationRuns.the_planes = Ok summaries
    /\ map drone_id summaries = [PStr "D1"]
    /\ length summaries = 1%nat
    /\ Forall (fun s => alert_count s = length (alerts s)
                        /\ (length (alerts s) <= 4)%nat)
         summaries.
Proof.
  assert (Hrun : exists summaries,
             process_multiple_alerts Sample.env init
               [AggregationRuns.the_drone] AggregationRuns.the_planes = Ok summaries)
    by (vm_compute; eexists; reflexivity).
  destruct Hrun as (summaries & Hrun).
  exists summaries. split; [exact Hrun|].
  exact (one_summary_per_drone Sample.env init
           [AggregationRuns.the_drone] AggregationRuns.the_planes summaries Hrun).
Defined.

End ClassificationRunFacts.

Section DashboardBehaviourRunFacts.
Import Pandas Dashboard DashboardRuns BehaviourRuns.

(** Of the four drones, the three within 10 NM are returned. *)
Lemma three_of_four_drones_are_nearby :
  map nearby_drone_id nearby_of_four_drones = [PStr "D1"; PStr "D2"; PStr "D3"]
  /\ (length nearby_of_four_drones <= 15)%nat
  /\ (length nearby_of_four_drones <= len four_drones)%nat
  /\ Forall (in_range 10%float) nearby_of_four_drones.
Proof.
  split; [vm_compute; reflexivity|].
  destruct (nearby_drones_are_bounded_and_in_range Sample.env
              four_drones_service (Some the_aircraft) 10%float
              nearby_of_four_drones)
    as (Hmax & Hlen & Hrange & _).
  - vm_compute. reflexivity.
  - repeat split; assumption.
Defined.

(** They are listed nearest first, although the frame lists them
    farthest first. *)
Lemma four_drones_nearest_first :
  StronglySorted not_farther nearby_of_four_drones.
Proof.
  apply (nearby_drones_are_nearest_first Sample.env
           four_drones_service the_aircraft 10%float nearby_of_four_drones).
  vm_compute. reflexivity.
Defined.


End DashboardBehaviourRunFacts.

(* ================================================================== *)
(** * Part IV: callers and neighbours of the modelled code             *)
(* ================================================================== *)

(** ** Detection on a part of the rows *)

Section SubFrames.
Import Pandas CollisionDetection.
Variable E : Env.

Lemma filter_sublist {A} (p : A -> bool) (l l' : list A) :
  l `sublist_of` l' -> List.filter p l `sublist_of` List.filter p l'.
Proof.
  induction 1 as [|x l l' Hl IH|x l l' Hl IH]; simpl.
  - constructor.
  - destruct (p x); [now constructor|exact IH].
  - destruct (p x); [now constructor|exact IH].
Qed.

Lemma map_sublist {A B} (f : A -> B) (l l' : list A) :
  l `sublist_of` l' -> map f l `sublist_of` map f l'.
Proof.
  induction 1 as [|x l l' Hl IH|x l l' Hl IH]; simpl; now constructor.
Qed.

Lemma list_prod_sublist {A B} (l l' : list A) (k k' : list B) :
  l `sublist_of` l' -> k `sublist_of` k' ->
  list_prod l k `sublist_of` list_prod l' k'.
Proof.
  intros Hl Hk. induction Hl as [|x l l' Hl IH|x l l' Hl IH]; simpl.
  - apply sublist_nil_l.
  - apply sublist_app; [|exact IH]. now apply map_sublist.
  - now apply sublist_inserts_l.
Qed.

Lemma omap_sublist_of {A B} (f : A -> option B) (l l' : list A) :
  l `sublist_of` l' -> omap f l `sublist_of` omap f l'.
Proof.
  induction 1 as [|x l l' Hl IH|x l l' Hl IH]; cbn.
  - constructor.
  - destruct (f x); [now constructor|exact IH].
  - destruct (f x); [now constructor|exact IH].
Qed.

(** X20. Removing rows never adds an alert: for frames with the required
    columns, the alerts returned for a part of the plane rows and a part
    of the drone rows (the same columns, rows left out, order kept) are,
    in order, among the alerts returned for the whole frames. *)
Theorem fewer_rows_fewer_alerts
    planes_df drones_df planes_part drones_part h_threshold v_threshold :
  missing_columns required_plane_cols planes_df = [] ->
  missing_columns required_drone_cols drones_df = [] ->
  columns planes_part = columns planes_df ->
  columns drones_part = columns drones_df ->
  rows planes_part `sublist_of` rows planes_df ->
  rows drones_part `sublist_of` rows drones_df ->
  exists alerts_part alerts,
    fst (detect_collisions E planes_part drones_part h_threshold v_threshold)
    = Ok alerts_part
    /\ fst (detect_collisions E planes_df drones_df h_threshold v_threshold)
       = Ok alerts
    /\ alerts_part `sublist_of` alerts
    /\ (length alerts_part <= length alerts)%nat.
Proof.
  intros Hmp Hmd Hpc Hdc Hpr Hdr.
  assert (Hmp' : missing_columns required_plane_cols planes_part = [])
    by (unfold missing_columns in *; now rewrite Hpc).
  assert (Hmd' : missing_columns required_drone_cols drones_part = [])
    by (unfold missing_columns in *; now rewrite Hdc).
  eexists _, _.
  split; [now apply detect_collisions_alerts|].
  split; [now apply detect_collisions_alerts|].
  assert (Hsub : forall (f : Series * Series -> option Alert),
             omap f (list_prod
                       (iterrows {| columns := columns planes_part;
                                    rows := List.filter (complete_row required_plane_cols)
                                              (rows planes_part) |})
                       (iterrows {| columns := columns drones_part;
                                    rows := List.filter (complete_row required_drone_cols)
                                              (rows drones_part) |}))
             `sublist_of`
             omap f (list_prod
                       (iterrows {| columns := columns planes_df;
                                    rows := List.filter (complete_row required_plane_cols)
                                              (rows planes_df) |})
                       (iterrows {| columns := columns drones_df;
                                    rows := List.filter (complete_row required_drone_cols)
                                              (rows drones_df) |}))).
  { intros f. apply omap_sublist_of, list_prod_sublist; unfold iterrows; simpl.
    - rewrite Hpc. now apply map_sublist, filter_sublist.
    - rewrite Hdc. now apply map_sublist, filter_sublist. }
  split; [apply Hsub|]. apply sublist_length, Hsub.
Qed.

End SubFrames.

(** ** unified_app.py: the system status *)

Module UnifiedApp.
Import Pandas CollisionDetection.

(** The attributes of [SkyLinkUnifiedService] that the status reads,
    once [load_all_data] has set the two frames. *)
Record SkyLinkUnifiedService : Type := {
  planes_df : DataFrame;
  drones_df : DataFrame;
  use_test_data : bool
}.

(** The dictionary of [get_system_status]; its [last_update] entry is
    read off the wall clock and is left out. *)
Record SystemStatus : Type := {
  aircraft_count : nat;
  drone_count : nat;
  alert_count : nat;
  data_mode : string;
  system_status : string
}.

Section WithEnv.
Variable E : Env.

(** [get_collision_alerts_for_all], with what it prints. *)
Definition get_collision_alerts_for_all (self : SkyLinkUnifiedService)
  : result (list Alert) * list event :=
  if empty (planes_df self) || empty (drones_df self) then (Ok [], [])
  else detect_collisions E (planes_df self) (drones_df self) 0.5%float 100%float.

(** [get_system_status] *)
Definition get_system_status (self : SkyLinkUnifiedService)
  : result SystemStatus * list event :=
  let total_aircraft :=
    if negb (empty (planes_df self)) then len (planes_df self) else 0%nat in
  let total_drones :=
    if negb (empty (drones_df self)) then len (drones_df self) else 0%nat in
  let '(alerts, printed) := get_collision_alerts_for_all self in
  (alerts ← alerts;
   let total_alerts := length alerts in
   Ok {| aircraft_count := total_aircraft;
         drone_count := total_drones;
         alert_count := total_alerts;
         data_mode := if use_test_data self then "TEST SCENARIO" else "REAL DATA";
         system_status :=
           if Nat.ltb 0 total_aircraft && Nat.ltb 0 total_drones
           then "OPERATIONAL" else "LIMITED DATA" |},
   printed).

End WithEnv.
End UnifiedApp.

Section SystemStatusFacts.
Import Pandas CollisionDetection UnifiedApp.
Variable E : Env.

Lemma not_empty_has_rows df : empty df = false -> (0 < len df)%nat.
Proof.
  unfold empty, len. intros [_ H]%orb_false_iff.
  apply Nat.eqb_neq in H. lia.
Qed.

Ltac not_listed :=
  let H := fresh in
  intros H;
  repeat first
    [ apply elem_of_app in H as [H|H]
    | apply elem_of_cons in H as [H|H]; [discriminate H|] ];
  inversion H.

Lemma printed_for_no_warning h v pair : EmptyWarning ∉ printed_for E h v pair.
Proof.
  unfold printed_for, check_pair. destruct pair as [plane drone]. simpl.
  destruct (getitem plane "latitude"); simpl; [|not_listed].
  destruct (getitem plane "longitude"); simpl; [|not_listed].
  destruct (getitem drone "latitude"); simpl; [|not_listed].
  destruct (getitem drone "longitude"); simpl; [|not_listed].
  unfold calculate_horizontal_distance.
  destruct (geodesic_km E _ _); simpl;
    destruct (check_thresholds E _ _ _ _ _); not_listed.
Qed.

(** X21. [get_system_status] raises only the [ValueError] of
    [detect_collisions] for a missing column, and only when both frames
    are non-empty. When it returns, the number of alerts is at most the
    product of the two counts; the status is OPERATIONAL exactly when
    both frames are non-empty; with LIMITED DATA there is no alert and
    nothing is printed; and the warning of [detect_collisions] about
    empty datasets is never printed. *)
Theorem system_status_counts (self : SkyLinkUnifiedService) :
  match get_system_status E self with
  | (Ok s, printed) =>
      (alert_count s <= aircraft_count s * drone_count s)%nat
      /\ (system_status s = "OPERATIONAL"
          <-> empty (planes_df self) = false /\ empty (drones_df self) = false)
      /\ (system_status s = "OPERATIONAL" \/ system_status s = "LIMITED DATA")
      /\ (system_status s = "LIMITED DATA" -> alert_count s = 0%nat /\ printed = [])
      /\ EmptyWarning ∉ printed
  | (Raise e, printed) =>
      empty (planes_df self) = false /\ empty (drones_df self) = false
      /\ printed = []
      /\ exists msg names, e = ValueError msg names /\ names <> []
  end.
Proof.
  unfold get_system_status, get_collision_alerts_for_all.
  destruct (empty (planes_df self)) eqn:Hp; simpl.
  { split; [lia|]. split; [split; [discriminate|intros [[=] _]]|].
    split; [now right|]. split; [auto|not_listed]. }
  destruct (empty (drones_df self)) eqn:Hd; simpl.
  { split; [lia|].
    split; [rewrite andb_false_r; split; [discriminate|intros [_ [=]]]|].
    rewrite andb_false_r.
    split; [now right|]. split; [auto|not_listed]. }
  pose proof (not_empty_has_rows _ Hp) as Hprows.
  pose proof (not_empty_has_rows _ Hd) as Hdrows.
  destruct (missing_columns required_plane_cols (planes_df self))
    as [|c cs] eqn:Hmp.
  2: { unfold detect_collisions. rewrite Hp, Hd, Hmp. simpl.
       repeat split. eexists _, _. split; [reflexivity|discriminate]. }
  destruct (missing_columns required_drone_cols (drones_df self))
    as [|d ds] eqn:Hmd.
  2: { unfold detect_collisions. rewrite Hp, Hd, Hmp, Hmd. simpl.
       repeat split. eexists _, _. split; [reflexivity|discriminate]. }
  rewrite (detect_collisions_run E) by assumption. simpl.
  assert (H0p : Nat.ltb 0 (len (planes_df self)) = true) by now apply Nat.ltb_lt.
  assert (H0d : Nat.ltb 0 (len (drones_df self)) = true) by now apply Nat.ltb_lt.
  rewrite H0p, H0d. simpl.
  split; [|split; [tauto|split; [now left|split; [discriminate|]]]].
  - etransitivity; [apply omap_length_le|].
    rewrite length_prod. unfold iterrows, len. rewrite !length_map. simpl.
    apply Nat.mul_le_mono; apply List.filter_length_le.
  - rewrite not_elem_of_cons. split; [discriminate|].
    rewrite not_elem_of_app. split.
    + intros Hin. apply list_elem_of_In, in_concat in Hin as (l & Hl & Hin).
      apply in_map_iff in Hl as (pair & <- & _).
      apply list_elem_of_In in Hin. now apply printed_for_no_warning in Hin.
    + not_listed.
Qed.

End SystemStatusFacts.

(** ** dashboard/app.py and unified_app.py: regions and callsigns *)

Module Regions.
Import Pandas CollisionDetection.

(** The result of an expression that indexes a list with an integer
    remainder: its value, or one of the two exceptions such an
    expression can raise. *)
Inductive indexed (A : Type) : Type :=
| Item (a : A)
| ZeroDivisionError
| IndexError.
Arguments Item {A} a.
Arguments ZeroDivisionError {A}.
Arguments IndexError {A}.

#[global] Instance indexed_ret : MRet indexed := fun A a => Item a.
#[global] Instance indexed_bind : MBind indexed := fun A B f m =>
  match m with
  | Item a => f a
  | ZeroDivisionError => ZeroDivisionError
  | IndexError => IndexError
  end.

(** [a % b] on integers: the remainder has the sign of [b]. *)
Definition int_mod (a b : Z) : indexed Z :=
  if b =? 0 then ZeroDivisionError else Item (a mod b).

(** [l[i]], where a negative index counts from the end. *)
Definition list_item {A} (l : list A) (i : Z) : indexed A :=
  let n := Z.of_nat (length l) in
  let j := if i <? 0 then i + n else i in
  if (j <? 0) || (n <=? j) then IndexError
  else
    match l !! Z.to_nat j with
    | Some a => Item a
    | None => IndexError
    end.

(** [str(n)] of an integer, as an f-string formats it. *)
Definition str_of_int (n : Z) : string := pretty n.

Definition regional_prefixes : gmap string (list string) :=
  <["India" := ["AI"; "6E"; "SG"; "UK"; "G8"]]>
  (<["Bangalore" := ["AI"; "6E"; "SG"; "UK"]]>
  (<["Mumbai" := ["AI"; "6E"; "SG"; "9W"]]>
  (<["Delhi" := ["AI"; "6E"; "UK"; "9W"]]>
  (<["Europe" := ["LH"; "AF"; "BA"; "KL"; "AZ"]]>
  (<["North America" := ["UAL"; "DAL"; "AAL"; "JBU"; "SWA"]]>
  (<["London" := ["BA"; "VS"; "EZY"; "RYR"]]>
  (<["Frankfurt" := ["LH"; "DE"; "EW"]]>
  (<["New York" := ["UAL"; "DAL"; "AAL"; "JBU"]]>
  (<["Middle East" := ["EK"; "QR"; "EY"; "MS"]]>
  (<["Asia-Pacific" := ["SQ"; "CX"; "TG"; "MH"]]>
  (<["Dubai" := ["EK"; "FZ"; "QR"]]>
  (<["Singapore" := ["SQ"; "TR"; "3K"]]>
  (<["Tokyo" := ["NH"; "JL"; "MM"]]> ∅))))))))))))).

(** [regional_prefixes.get(region_name, ['REG'])] *)
Definition prefixes_of (region_name : string) : list string :=
  default ["REG"] (regional_prefixes !! region_name).

(** [generate_regional_callsign] *)
Definition generate_regional_callsign (region_name : string) (counter : Z)
  : indexed string :=
  let prefixes := prefixes_of region_name in
  i ← int_mod counter (Z.of_nat (length prefixes));
  prefix ← list_item prefixes i;
  r ← int_mod (counter * 7) 899;
  let number := 100 + r in
  Item (prefix +:+ str_of_int number).

(** One dictionary of the list [regions] of [get_region_name]. *)
Record Hub : Type := {
  hub_name : string;
  hub_lat : float;
  hub_lon : float;
  hub_radius : float
}.

Definition regions : list Hub :=
  [ {| hub_name := "Bangalore"; hub_lat := 12.95%float; hub_lon := 77.55%float;
       hub_radius := 2%float |};
    {| hub_name := "Mumbai"; hub_lat := 19.08%float; hub_lon := 72.87%float;
       hub_radius := 2%float |};
    {| hub_name := "Delhi"; hub_lat := 28.61%float; hub_lon := 77.23%float;
       hub_radius := 2%float |};
    {| hub_name := "New York"; hub_lat := 40.71%float; hub_lon := (-74.00)%float;
       hub_radius := 2%float |};
    {| hub_name := "London"; hub_lat := 51.51%float; hub_lon := (-0.12)%float;
       hub_radius := 2%float |};
    {| hub_name := "Frankfurt"; hub_lat := 50.11%float; hub_lon := 8.68%float;
       hub_radius := 2%float |};
    {| hub_name := "Dubai"; hub_lat := 25.25%float; hub_lon := 55.36%float;
       hub_radius := 2%float |};
    {| hub_name := "Singapore"; hub_lat := 1.35%float; hub_lon := 103.82%float;
       hub_radius := 2%float |};
    {| hub_name := "Tokyo"; hub_lat := 35.68%float; hub_lon := 139.69%float;
       hub_radius := 2%float |};
    {| hub_name := "Los Angeles"; hub_lat := 34.05%float; hub_lon := (-118.24)%float;
       hub_radius := 2%float |} ].

(** The builtin [int(x)] on a float: truncation towards zero. *)
Definition int_of_float (x : float) : result Z :=
  match Prim2SF x with
  | S754_nan => Raise (ValueError "cannot convert float NaN to integer" [])
  | S754_infinity _ => Raise (OverflowError "cannot convert float infinity to integer")
  | S754_zero _ => Ok 0
  | S754_finite s m e =>
      let magnitude :=
        if 0 <=? e then Z.pos m * 2 ^ e else Z.pos m / 2 ^ (- e) in
      Ok (if s then - magnitude else magnitude)
  end.

(** The truth value of [closest_region]: [None] and the empty string
    are false. *)
Definition named (closest_region : option string) : option string :=
  match closest_region with
  | Some name => if String.eqb name "" then None else Some name
  | None => None
  end.

Section WithEnv.
Variable E : Env.

(** The distance that the loop of [get_region_name] computes for a hub,
    with what the computation prints. *)
Definition hub_distance (lat lon : float) (region : Hub) : float * list event :=
  calculate_horizontal_distance E (PFloat lat) (PFloat lon)
    (PFloat (hub_lat region)) (PFloat (hub_lon region)).

(** One iteration of [for region in regions] on the state
    [(min_distance, closest_region, printed so far)]. *)
Definition visit_region (lat lon : float)
    (st : float * option string * list event) (region : Hub)
  : float * option string * list event :=
  let '(min_distance, closest_region, out) := st in
  let '(distance, printed) := hub_distance lat lon region in
  if (distance <? hub_radius region)%float && (distance <? min_distance)%float
  then (distance, Some (hub_name region), out ++ printed)
  else (min_distance, closest_region, out ++ printed).

(** The fallback of [get_region_name]: the geographic boxes, in the
    order of the [if]/[elif] chain, then the formatted name. *)
Definition geographic_region (lat lon : float) : result string :=
  if ((10 <=? lat) && (lat <=? 30) && ((70 <=? lon) && (lon <=? 90)))%float
  then Ok "India"
  else if ((35 <=? lat) && (lat <=? 70) && ((-10 <=? lon) && (lon <=? 30)))%float
  then Ok "Europe"
  else if ((25 <=? lat) && (lat <=? 60) && ((-130 <=? lon) && (lon <=? -60)))%float
  then Ok "North America"
  else if ((15 <=? lat) && (lat <=? 45) && ((25 <=? lon) && (lon <=? 70)))%float
  then Ok "Middle East"
  else if ((-10 <=? lat) && (lat <=? 50) && ((70 <=? lon) && (lon <=? 150)))%float
  then Ok "Asia-Pacific"
  else
    n ← int_of_float lat;
    m ← int_of_float (abs lon);
    Ok ("Region_" +:+ str_of_int n +:+ "N_" +:+ str_of_int m
        +:+ (if (0 <=? lon)%float then "E" else "W")).

(** [get_region_name], with what the distance computations print. *)
Definition get_region_name (lat lon : float) : result string * list event :=
  let '(min_distance, closest_region, printed) :=
    fold_left (visit_region lat lon) regions (infinity, None, []) in
  match named closest_region with
  | Some name => (Ok name, printed)
  | None => (geographic_region lat lon, printed)
  end.

End WithEnv.
End Regions.

Section Callsigns.
Import Regions.

(** What the proofs need of a list of prefixes. *)
Definition usable (prefixes : list string) : Prop :=
  prefixes <> [] /\ NoDup prefixes
  /\ Z.gcd (Z.of_nat (length prefixes)) 899 = 1.

Definition usableb (prefixes : list string) : bool :=
  negb (Nat.eqb (length prefixes) 0)
  && bool_decide (NoDup prefixes)
  && (Z.gcd (Z.of_nat (length prefixes)) 899 =? 1).

Lemma usableb_usable prefixes : usableb prefixes = true -> usable prefixes.
Proof.
  unfold usableb, usable.
  intros [[H1 H2]%andb_true_iff H3]%andb_true_iff.
  apply negb_true_iff, Nat.eqb_neq in H1. apply bool_decide_eq_true in H2.
  apply Z.eqb_eq in H3.
  split; [|split; assumption]. intros ->. now apply H1.
Qed.

(** Every list of the table, and the default list, has prefixes that
    are pairwise different, and their number is prime to 899. *)
Lemma prefixes_usable region_name : usable (prefixes_of region_name).
Proof.
  unfold prefixes_of.
  destruct (regional_prefixes !! region_name) as [prefixes|] eqn:Hlookup; simpl.
  - apply elem_of_map_to_list in Hlookup.
    assert (Hall : forallb (fun entry => usableb (snd entry))
                     (map_to_list regional_prefixes) = true)
      by (vm_compute; reflexivity).
    revert Hlookup Hall. generalize (map_to_list regional_prefixes).
    intros entries Hlookup Hall. rewrite forallb_forall in Hall.
    apply usableb_usable, (Hall (region_name, prefixes)).
    apply list_elem_of_In. exact Hlookup.
  - apply usableb_usable. vm_compute. reflexivity.
Qed.

Lemma three_digits n : 100 <= n <= 999 -> String.length (str_of_int n) = 3%nat.
Proof.
  intros Hn.
  assert (Hall : forallb
                   (fun k => Nat.eqb (String.length (str_of_int (100 + Z.of_nat k))) 3)
                   (seq 0 900) = true)
    by (vm_compute; reflexivity).
  rewrite forallb_forall in Hall.
  specialize (Hall (Z.to_nat (n - 100))).
  rewrite Z2Nat.id in Hall by lia.
  replace (100 + (n - 100)) with n in Hall by lia.
  apply Nat.eqb_eq, Hall, in_seq. lia.
Qed.

Lemma append_length (a b : string) :
  String.length (a +:+ b) = (String.length a + String.length b)%nat.
Proof. induction a as [|c a IH]; simpl; [reflexivity|now rewrite IH]. Qed.

Lemma append_inj (a a' b b' : string) :
  String.length a = String.length a' -> a +:+ b = a' +:+ b' -> a = a' /\ b = b'.
Proof.
  revert a'. induction a as [|c a IH]; intros [|c' a']; simpl; try discriminate.
  - auto.
  - intros [= Hlen] [= -> Happ]. destruct (IH _ Hlen Happ) as [-> ->]. auto.
Qed.

Lemma int_mod_item a b : b <> 0 -> int_mod a b = Item (a mod b).
Proof.
  intros Hb. unfold int_mod. now destruct (Z.eqb_spec b 0).
Qed.

Lemma list_item_lookup {A} (l : list A) i a :
  0 <= i -> l !! Z.to_nat i = Some a -> list_item l i = Item a.
Proof.
  intros Hi Ha. unfold list_item.
  assert (Hlt : (Z.to_nat i < length l)%nat)
    by (apply lookup_lt_is_Some; eauto).
  destruct (Z.ltb_spec i 0) as [?|_]; [lia|].
  destruct (Z.ltb_spec i 0) as [?|_]; [lia|].
  destruct (Z.leb_spec (Z.of_nat (length l)) i) as [?|_]; [lia|].
  simpl. now rewrite Ha.
Qed.

(** The callsign of a counter, computed step by step. *)
Lemma callsign_of region_name counter :
  let prefixes := prefixes_of region_name in
  let len := Z.of_nat (length prefixes) in
  exists prefix,
    prefixes !! Z.to_nat (counter mod len) = Some prefix
    /\ generate_regional_callsign region_name counter
       = Item (prefix +:+ str_of_int (100 + (counter * 7) mod 899)).
Proof.
  intros prefixes len.
  destruct (prefixes_usable region_name) as (Hne & _ & _).
  fold prefixes in Hne.
  assert (Hlen : 0 < len).
  { unfold len. destruct prefixes; [congruence|simpl; lia]. }
  pose proof (Z.mod_pos_bound counter len Hlen) as Hi.
  destruct (lookup_lt_is_Some_2 prefixes (Z.to_nat (counter mod len)))
    as [prefix Hprefix]; [fold len in Hlen; lia|].
  exists prefix. split; [exact Hprefix|].
  unfold generate_regional_callsign. fold prefixes. fold len.
  rewrite (int_mod_item counter len) by lia. cbn [mbind indexed_bind].
  rewrite (list_item_lookup prefixes _ prefix) by (lia || assumption).
  cbn [mbind indexed_bind].
  rewrite (int_mod_item (counter * 7) 899) by lia. reflexivity.
Qed.

(** X22. [generate_regional_callsign] never raises, whatever the region
    and the counter (negative counters included): it returns a prefix of
    the region's list, or REG for a region that the table lacks,
    followed by a number between 100 and 998, so by exactly three
    digits; 999 is never used. *)
Theorem callsign_shape (region_name : string) (counter : Z) :
  exists prefix number,
    generate_regional_callsign region_name counter
    = Item (prefix +:+ str_of_int number)
    /\ prefix ∈ prefixes_of region_name
    /\ (regional_prefixes !! region_name = None -> prefix = "REG")
    /\ 100 <= number <= 998
    /\ String.length (prefix +:+ str_of_int number)
       = (String.length prefix + 3)%nat.
Proof.
  destruct (callsign_of region_name counter) as (prefix & Hprefix & Hcall).
  exists prefix, (100 + (counter * 7) mod 899).
  pose proof (Z.mod_pos_bound (counter * 7) 899 eq_refl) as Hr.
  split; [exact Hcall|].
  split; [now apply list_elem_of_lookup_2 in Hprefix|].
  split.
  - intros Hnone. unfold prefixes_of in Hprefix. rewrite Hnone in Hprefix.
    simpl in Hprefix. rewrite Z.mod_1_r in Hprefix. simpl in Hprefix. congruence.
  - split; [lia|]. rewrite append_length, three_digits by lia. reflexivity.
Qed.

(** X23. Two counters get the same callsign in a region exactly when
    they differ by a multiple of 899 times the number of prefixes of the
    region: the callsigns of that many consecutive counters are pairwise
    different, and then they repeat. *)
Theorem callsigns_repeat (region_name : string) (counter1 counter2 : Z) :
  generate_regional_callsign region_name counter1
  = generate_regional_callsign region_name counter2
  <->
  (counter1 - counter2)
    mod (899 * Z.of_nat (length (prefixes_of region_name))) = 0.
Proof.
  destruct (callsign_of region_name counter1) as (prefix1 & Hp1 & ->).
  destruct (callsign_of region_name counter2) as (prefix2 & Hp2 & ->).
  destruct (prefixes_usable region_name) as (Hne & Hdup & Hgcd).
  set (prefixes := prefixes_of region_name) in *.
  set (len := Z.of_nat (length prefixes)) in *.
  assert (Hlen : 0 < len).
  { unfold len. destruct prefixes; [congruence|simpl; lia]. }
  pose proof (Z.mod_pos_bound counter1 len Hlen) as Hi1.
  pose proof (Z.mod_pos_bound counter2 len Hlen) as Hi2.
  pose proof (Z.mod_pos_bound (counter1 * 7) 899 eq_refl) as Hr1.
  pose proof (Z.mod_pos_bound (counter2 * 7) 899 eq_refl) as Hr2.
  rewrite Z.mod_divide by lia.
  split.
  - intros [= Hsame].
    apply append_inj in Hsame as [<- Hnumber].
    2: { apply (f_equal String.length) in Hsame.
         rewrite !append_length, !three_digits in Hsame by lia. lia. }
    apply (inj pretty) in Hnumber.
    assert (Hindex : Z.to_nat (counter1 mod len) = Z.to_nat (counter2 mod len))
      by (eapply NoDup_lookup; eauto).
    assert (H899 : (899 | counter1 - counter2)).
    { apply (Z.gauss _ 7); [|reflexivity].
      apply Z.mod_divide; [lia|].
      replace (7 * (counter1 - counter2)) with (counter1 * 7 - counter2 * 7) by lia.
      rewrite Zminus_mod. replace ((counter1 * 7) mod 899)
        with ((counter2 * 7) mod 899) by lia.
      now rewrite Z.sub_diag. }
    assert (Hdiv : (len | counter1 - counter2)).
    { apply Z.mod_divide; [lia|].
      rewrite Zminus_mod. replace (counter1 mod len) with (counter2 mod len) by lia.
      now rewrite Z.sub_diag. }
    destruct H899 as [q Hq]. rewrite Hq, (Z.mul_comm q 899) in Hdiv.
    apply Z.gauss in Hdiv; [|exact Hgcd].
    destruct Hdiv as [q' ->]. exists q'. lia.
  - intros [q Hq].
    assert (H1 : counter1 = counter2 + (q * 899) * len) by lia.
    assert (H2 : counter1 * 7 = counter2 * 7 + (q * len * 7) * 899) by lia.
    assert (Hmod : counter1 mod len = counter2 mod len)
      by (rewrite H1; apply Z_mod_plus_full).
    assert (Hnum : (counter1 * 7) mod 899 = (counter2 * 7) mod 899)
      by (rewrite H2; apply Z_mod_plus_full).
    rewrite Hmod in Hp1. rewrite Hnum. congruence.
Qed.

End Callsigns.

Section FiniteFloats.
Open Scope float_scope.

Lemma ltb_leb x y : (x <? y) = true -> (x <=? y) = true.
Proof.
  rewrite FloatAxioms.ltb_spec, FloatAxioms.leb_spec. unfold SFltb, SFleb.
  destruct (SFcompare _ _) as [[]|]; congruence.
Qed.

Lemma ltb_not_nan x y : (x <? y) = true -> is_nan x = false /\ is_nan y = false.
Proof. intros H%ltb_leb. now apply leb_not_nan. Qed.

Lemma ltb_below_infinity x y : (x <? y) = true -> (x <? infinity) = true.
Proof.
  rewrite !FloatAxioms.ltb_spec. unfold SFltb.
  change (Prim2SF infinity) with (S754_infinity false).
  destruct (Prim2SF x) as [s|[]| |s m e], (Prim2SF y) as [s'|[]| |s' m' e'];
    simpl; try reflexivity; try discriminate; destruct s; reflexivity.
Qed.

Lemma infinity_not_below y : (infinity <? y) = false.
Proof.
  rewrite FloatAxioms.ltb_spec. unfold SFltb.
  change (Prim2SF infinity) with (S754_infinity false).
  destruct (Prim2SF y) as [s|[]| |s m e]; reflexivity.
Qed.

Lemma is_infinity_Prim2SF x :
  is_infinity x = true <-> exists s, Prim2SF x = S754_infinity s.
Proof.
  unfold is_infinity. rewrite FloatAxioms.eqb_spec, abs_spec. unfold SFeqb.
  change (Prim2SF infinity) with (S754_infinity false).
  destruct (Prim2SF x) as [s|s| |s m e]; simpl; split;
    try discriminate; try (intros [? [=]]); eauto.
Qed.

(** A finite float is a zero or a number [m * 2^e] with a sign. *)
Lemma is_finite_Prim2SF x :
  is_finite x = true
  <-> (exists s, Prim2SF x = S754_zero s)
      \/ (exists s m e, Prim2SF x = S754_finite s m e).
Proof.
  unfold is_finite. rewrite andb_true_iff, !negb_true_iff.
  rewrite not_nan_Prim2SF.
  split.
  - intros [Hnan Hinf].
    destruct (Prim2SF x) as [s|s| |s m e] eqn:Hx; eauto.
    + assert (Hyes : is_infinity x = true) by (apply is_infinity_Prim2SF; eauto).
      congruence.
    + congruence.
  - intros [[s Hx]|(s & m & e & Hx)]; (split; [congruence|]);
      destruct (is_infinity x) eqn:Hinf; try reflexivity;
      apply is_infinity_Prim2SF in Hinf as [s' Hs']; congruence.
Qed.

Lemma not_finite_Prim2SF x :
  is_finite x = false
  <-> Prim2SF x = S754_nan \/ exists s, Prim2SF x = S754_infinity s.
Proof.
  split.
  - intros Hx. destruct (Prim2SF x) as [s|s| |s m e] eqn:Hs; eauto;
      assert (Hyes : is_finite x = true) by (apply is_finite_Prim2SF; eauto);
      congruence.
  - intros Hx. destruct (is_finite x) eqn:Hf; [|reflexivity].
    apply is_finite_Prim2SF in Hf as [[s Hs]|(s & m & e & Hs)];
      destruct Hx as [Hx|[s' Hx]]; congruence.
Qed.

(** Between two finite bounds there are only finite floats. *)
Lemma not_between lo hi x :
  is_finite lo = true -> is_finite hi = true -> is_finite x = false ->
  (lo <=? x) && (x <=? hi) = false.
Proof.
  intros Hlo%is_finite_Prim2SF Hhi%is_finite_Prim2SF Hx%not_finite_Prim2SF.
  rewrite !FloatAxioms.leb_spec. unfold SFleb.
  destruct Hx as [->|[[] ->]].
  - destruct (Prim2SF lo); reflexivity.
  - destruct Hlo as [[s ->]|(s & m & e & ->)]; reflexivity.
  - destruct Hhi as [[s ->]|(s & m & e & ->)]; simpl;
      destruct (SFcompare (Prim2SF lo) _) as [[]|]; reflexivity.
Qed.

End FiniteFloats.

Section RegionNames.
Import Pandas CollisionDetection Regions.
Open Scope float_scope.
Variable E : Env.

Definition distance_to (lat lon : float) (hub : Hub) : float :=
  fst (hub_distance E lat lon hub).

(** The hub is within its radius of the point. *)
Definition within (lat lon : float) (hub : Hub) : Prop :=
  (distance_to lat lon hub <? hub_radius hub) = true.

(** The state of the loop after the hubs [visited]: no hub chosen and
    none of them within its radius, or the name and distance of a hub
    within its radius that is not farther than any other such hub. *)
Definition scanned (lat lon : float) (visited : list Hub)
    (st : float * option string * list event) : Prop :=
  match snd (fst st) with
  | None =>
      fst (fst st) = infinity
      /\ Forall (fun hub => (distance_to lat lon hub <? hub_radius hub) = false)
           visited
  | Some name =>
      exists hub,
        hub ∈ visited /\ name = hub_name hub
        /\ fst (fst st) = distance_to lat lon hub
        /\ within lat lon hub
        /\ Forall (fun other =>
                     within lat lon other ->
                     (distance_to lat lon hub <=? distance_to lat lon other) = true)
             visited
  end.

Lemma visit_region_scanned lat lon visited st hub :
  scanned lat lon visited st ->
  scanned lat lon (visited ++ [hub]) (visit_region E lat lon st hub).
Proof.
  destruct st as [[min_distance closest] out].
  unfold scanned, visit_region, within. simpl.
  pose proof (eq_refl : distance_to lat lon hub = fst (hub_distance E lat lon hub))
    as Hd.
  destruct (hub_distance E lat lon hub) as [d printed]. simpl in Hd.
  destruct (d <? hub_radius hub) eqn:Hnear; simpl.
  - destruct (ltb_not_nan _ _ Hnear) as [Hdn _].
    destruct (d <? min_distance) eqn:Hless; simpl.
    + intros Hst. exists hub. rewrite Hd.
      split; [apply elem_of_app; right; left|]. split; [reflexivity|].
      split; [reflexivity|]. split; [exact Hnear|].
      apply Forall_app. split.
      * destruct closest as [name|].
        -- destruct Hst as (h0 & _ & _ & -> & _ & Hall).
           eapply Forall_impl; [exact Hall|]. simpl. intros other Hother Hw.
           apply (leb_trans _ (distance_to lat lon h0)); [now apply ltb_leb|auto].
        -- destruct Hst as [_ Hall].
           eapply Forall_impl; [exact Hall|]. simpl. intros other Hother Hw.
           congruence.
      * constructor; [|constructor]. intros _. rewrite Hd. now apply leb_refl.
    + destruct closest as [name|].
      * intros (h0 & Hin & Hname & -> & Hw & Hall). exists h0.
        split; [apply elem_of_app; now left|]. split; [exact Hname|].
        split; [reflexivity|]. split; [exact Hw|].
        apply Forall_app. split; [exact Hall|].
        constructor; [|constructor]. intros _. rewrite Hd.
        destruct (ltb_not_nan _ _ Hw) as [Hn0 _].
        now apply not_ltb_leb.
      * intros [-> Hall].
        rewrite (ltb_below_infinity _ _ Hnear) in Hless. discriminate.
  - destruct closest as [name|].
    + intros (h0 & Hin & Hname & -> & Hw & Hall). exists h0.
      split; [apply elem_of_app; now left|]. split; [exact Hname|].
      split; [reflexivity|]. split; [exact Hw|].
      apply Forall_app. split; [exact Hall|].
      constructor; [|constructor]. rewrite Hd. congruence.
    + intros [-> Hall]. split; [reflexivity|].
      apply Forall_app. split; [exact Hall|].
      constructor; [|constructor]. now rewrite Hd.
Qed.

Lemma fold_visit_region_scanned lat lon hubs :
  forall visited st,
    scanned lat lon visited st ->
    scanned lat lon (visited ++ hubs) (fold_left (visit_region E lat lon) hubs st).
Proof.
  induction hubs as [|hub hubs IH]; intros visited st Hst; simpl.
  - now rewrite app_nil_r.
  - rewrite (cons_middle hub), app_assoc. apply IH.
    now apply visit_region_scanned.
Qed.

(** The loop of [get_region_name] over the ten hubs. *)
Lemma regions_scanned lat lon :
  scanned lat lon regions
    (fold_left (visit_region E lat lon) regions (infinity, None, [])).
Proof.
  apply (fold_visit_region_scanned lat lon regions []).
  split; [reflexivity|constructor].
Qed.

Lemma hub_names_not_empty hub :
  hub ∈ regions -> named (Some (hub_name hub)) = Some (hub_name hub).
Proof.
  intros Hin.
  assert (Hall : Forall (fun h => named (Some (hub_name h)) = Some (hub_name h))
                   regions)
    by (repeat constructor).
  rewrite Forall_forall in Hall. now apply Hall.
Qed.

(** The two ways in which [get_region_name] ends. *)
Lemma region_name_cases lat lon :
  (exists hub,
      hub ∈ regions /\ within lat lon hub
      /\ fst (get_region_name E lat lon) = Ok (hub_name hub))
  \/ ((forall hub,
          hub ∈ regions ->
          (distance_to lat lon hub <? hub_radius hub) = false)
      /\ fst (get_region_name E lat lon) = geographic_region lat lon).
Proof.
  pose proof (regions_scanned lat lon) as Hscan.
  unfold get_region_name.
  destruct (fold_left _ regions _) as [[min_distance closest] printed].
  unfold scanned in Hscan. simpl in Hscan.
  destruct closest as [name|].
  - destruct Hscan as (hub & Hin & -> & _ & Hw & _). left. exists hub.
    rewrite (hub_names_not_empty _ Hin). auto.
  - destruct Hscan as [_ Hall]. right. simpl.
    split; [|reflexivity]. rewrite Forall_forall in Hall. exact Hall.
Qed.


Lemma int_of_finite x :
  is_finite x = true -> exists n, int_of_float x = Ok n.
Proof.
  intros [[s Hx]|(s & m & e & Hx)]%is_finite_Prim2SF;
    unfold int_of_float; rewrite Hx; eauto.
Qed.

Lemma abs_is_finite x : is_finite x = true -> is_finite (abs x) = true.
Proof.
  rewrite !is_finite_Prim2SF, abs_spec.
  intros [[s ->]|(s & m & e & ->)]; simpl; eauto.
Qed.

Definition region_names : list string :=
  map hub_name regions
  ++ ["India"; "Europe"; "North America"; "Middle East"; "Asia-Pacific"].

(** X25. For a point with finite coordinates [get_region_name] never
    raises: it returns the name of a hub, the name of one of the five
    geographic boxes, or a name of the form Region_<n>N_<m>E or W, where
    n is the latitude and m the absolute longitude, both truncated
    towards zero, and the letter is E exactly when the longitude is not
    negative. *)
Theorem region_name_of_finite_point (lat lon : float) :
  is_finite lat = true -> is_finite lon = true ->
  exists name,
    fst (get_region_name E lat lon) = Ok name
    /\ (name ∈ region_names
        \/ exists n m,
             int_of_float lat = Ok n /\ int_of_float (abs lon) = Ok m
             /\ name = "Region_" +:+ str_of_int n +:+ "N_" +:+ str_of_int m
                       +:+ (if 0 <=? lon then "E" else "W")).
Proof.
  intros Hlat Hlon.
  destruct (region_name_cases lat lon) as [(hub & Hin & _ & ->)|[_ ->]].
  - eexists. split; [reflexivity|]. left.
    apply elem_of_app. left. apply list_elem_of_fmap. eauto.
  - unfold geographic_region.
    repeat match goal with
           | |- context [if ?c then Ok ?s else _] =>
               destruct c;
                 [exists s; split; [reflexivity|];
                  left; apply elem_of_app; right;
                  apply list_elem_of_In; simpl; tauto|]
           end.
    destruct (int_of_finite _ Hlat) as [n ->].
    destruct (int_of_finite _ (abs_is_finite _ Hlon)) as [m ->]. simpl.
    eexists. split; [reflexivity|]. right. eauto.
Qed.

(** Without a finite latitude or longitude no box contains the point. *)
Lemma geographic_region_of_non_finite_point lat lon :
  is_finite lat = false \/ is_finite lon = false ->
  geographic_region lat lon
  = (n ← int_of_float lat; m ← int_of_float (abs lon);
     Ok ("Region_" +:+ str_of_int n +:+ "N_" +:+ str_of_int m
         +:+ (if 0 <=? lon then "E" else "W"))).
Proof.
  intros Hbad. unfold geographic_region.
  destruct Hbad as [Hlat|Hlon].
  - rewrite !(fun lo hi Hlo Hhi => not_between lo hi lat Hlo Hhi Hlat)
      by reflexivity.
    reflexivity.
  - rewrite !(fun lo hi Hlo Hhi => not_between lo hi lon Hlo Hhi Hlon)
      by reflexivity.
    rewrite !andb_false_r. reflexivity.
Qed.

Lemma int_of_non_finite x :
  is_finite x = false ->
  int_of_float x = Raise (ValueError "cannot convert float NaN to integer" [])
  \/ int_of_float x
     = Raise (OverflowError "cannot convert float infinity to integer").
Proof.
  intros [Hx|[s Hx]]%not_finite_Prim2SF; unfold int_of_float; rewrite Hx; auto.
Qed.

Lemma abs_not_finite x : is_finite x = false -> is_finite (abs x) = false.
Proof.
  rewrite !not_finite_Prim2SF, abs_spec.
  intros [->|[s ->]]; simpl; eauto.
Qed.

(** X26. With a library that refuses points that are not finite,
    [get_region_name] raises for every point whose latitude or longitude
    is NaN or an infinity: no hub is near, no box contains the point,
    and the conversion to an integer for the formatted name raises
    [ValueError] (NaN) or [OverflowError] (infinity). *)
Theorem region_name_of_non_finite_point (lat lon : float) :
  refuses_non_finite_points E ->
  is_finite lat = false \/ is_finite lon = false ->
  exists e,
    fst (get_region_name E lat lon) = Raise e
    /\ (e = ValueError "cannot convert float NaN to integer" []
        \/ e = OverflowError "cannot convert float infinity to integer").
Proof.
  intros Hlib Hbad.
  assert (Hfar : forall hub, distance_to lat lon hub = infinity).
  { intros hub. unfold distance_to, hub_distance.
    destruct (Hlib (PFloat lat) (PFloat lon)
                (PFloat (hub_lat hub)) (PFloat (hub_lon hub))) as [e He].
    - destruct Hbad; [left|right; left]; eexists; eauto.
    - now rewrite (horizontal_distance_on_exception E _ _ _ _ _ He). }
  destruct (region_name_cases lat lon) as [(hub & _ & Hw & _)|[_ ->]].
  { unfold within in Hw. rewrite Hfar, infinity_not_below in Hw. discriminate. }
  rewrite (geographic_region_of_non_finite_point _ _ Hbad).
  destruct (is_finite lat) eqn:Hlat.
  - destruct Hbad as [?|Hlon]; [discriminate|].
    destruct (int_of_finite _ Hlat) as [n ->]. simpl.
    destruct (int_of_non_finite _ (abs_not_finite _ Hlon)) as [-> | ->];
      simpl; eauto.
  - destruct (int_of_non_finite _ Hlat) as [-> | ->]; simpl; eauto.
Qed.

End RegionNames.

(** ** Sample runs of the callers *)

Module CallerRuns.
Import Pandas.

(** The plane of [DetectorRuns.plane_at_origin] after a plane that is
    far from every drone. *)
Definition two_planes : DataFrame :=
  Sample.planes
    [ Sample.plane_row "far001" (PFloat 5%float) (PFloat 5%float) (PFloat 200%float);
      Sample.plane_row "abc123" (PFloat 0%float) (PFloat 0%float) (PFloat 200%float) ].

End CallerRuns.

Section CallerRunFacts.
Import Pandas CollisionDetection DetectorRuns CallerRuns Regions.

(** The alert of the one plane is among the alerts of the two. *)
Lemma alert_of_one_plane_among_those_of_two :
  exists alerts_part alerts,
    fst (detect_collisions Sample.env plane_at_origin drone_half_degree_north
           55.5%float 100%float) = Ok alerts_part
    /\ fst (detect_collisions Sample.env two_planes drone_half_degree_north
              55.5%float 100%float) = Ok alerts
    /\ alerts_part `sublist_of` alerts
    /\ (length alerts_part <= length alerts)%nat.
Proof.
  apply (fewer_rows_fewer_alerts Sample.env two_planes drone_half_degree_north
           plane_at_origin drone_half_degree_north 55.5%float 100%float).
  - vm_compute. reflexivity.
  - vm_compute. reflexivity.
  - reflexivity.
  - reflexivity.
  - unfold plane_at_origin, two_planes, Sample.planes, of_records. cbn [rows].
    apply sublist_cons, sublist_skip, sublist_nil.
  - reflexivity.
Defined.

(** A point of the southern Pacific, far from every hub and box. *)
Lemma region_name_in_the_southern_pacific :
  exists name,
    fst (get_region_name Sample.env (-40.5)%float (-150.25)%float) = Ok name
    /\ (name ∈ region_names
        \/ exists n m,
             int_of_float (-40.5)%float = Ok n
             /\ int_of_float (abs (-150.25)%float) = Ok m
             /\ name = "Region_" +:+ str_of_int n +:+ "N_" +:+ str_of_int m
                       +:+ (if (0 <=? -150.25)%float then "E" else "W")).
Proof.
  apply (region_name_of_finite_point Sample.env (-40.5)%float (-150.25)%float);
    vm_compute; reflexivity.
Defined.

(** A latitude that is NaN. *)
Lemma region_name_of_nan_latitude :
  exists e,
    fst (get_region_name Sample.env nan 77%float) = Raise e
    /\ (e = ValueError "cannot convert float NaN to integer" []
        \/ e = OverflowError "cannot convert float infinity to integer").
Proof.
  apply (region_name_of_non_finite_point Sample.env nan 77%float).
  - exact sample_env_refuses_non_finite_points.
  - left. vm_compute. reflexivity.
Defined.

(** The names that the two points get. *)
Lemma region_names_of_the_two_points :
  fst (get_region_name Sample.env (-40.5)%float (-150.25)%float)
  = Ok "Region_-40N_150W"
  /\ fst (get_region_name Sample.env nan 77%float)
     = Raise (ValueError "cannot convert float NaN to integer" [])
  /\ fst (get_region_name Sample.env 12.95%float 77.56%float) = Ok "Bangalore"
  /\ fst (get_region_name Sample.env 20%float 80%float) = Ok "India".
Proof. repeat split; vm_compute; reflexivity. Qed.

(** Counters 4495 apart get the same callsign in India, which has five
    prefixes. *)
Lemma callsigns_of_india :
  generate_regional_callsign "India" 0 = Item "AI100"
  /\ generate_regional_callsign "India" 1 = Item "6E107"
  /\ generate_regional_callsign "India" 4495 = Item "AI100"
  /\ generate_regional_callsign "Atlantis" (-1) = Item "REG992".
Proof. repeat split; vm_compute; reflexivity. Qed.

End CallerRunFacts.

(** ** The threats of test mode *)

Section TestModeThreats.
Import Pandas Dashboard.
Variable E : Env.

Definition ranked (t : Threat) : Prop :=
  is_Some (risk_order !! threat_risk_level t).

Lemma sorted_threats_are_ranked threats sorted :
  sort_threats threats = Ok sorted -> Forall ranked sorted.
Proof.
  intros Hsort.
  assert (Hall : Forall ranked threats).
  { unfold sort_threats in Hsort.
    destruct (map_result _ threats) as [keyed|] eqn:Hkeys; [|discriminate].
    clear Hsort. revert keyed Hkeys.
    induction threats as [|t threats IH]; intros keyed; simpl; [constructor|].
    unfold sort_key at 1, ranked.
    destruct (risk_order !! threat_risk_level t) as [rank|] eqn:Hrank;
      simpl; [|discriminate].
    destruct (map_result _ threats) as [keyed'|]; [|discriminate].
    intros _. constructor; [rewrite Hrank; eauto|now apply (IH keyed')]. }
  now rewrite (sort_threats_permutation _ _ Hsort).
Qed.

(** X27. In test mode the final sort of [get_collision_threats] never
    raises: an exception of the call is one of the search for nearby
    drones or of the merge of the levels. Every threat returned has a
    level with a rank, and unless a distance is NaN the list is in the
    order of the ranks and, within a rank, of the horizontal
    distances. *)
Theorem test_mode_threats_are_ranked self current_aircraft range_nm :
  use_test_data self = true ->
  match get_collision_threats E self current_aircraft range_nm with
  | Ok threats =>
      Forall ranked threats
      /\ (Forall measured threats -> StronglySorted threat_le threats)
  | Raise e =>
      exists aircraft,
        current_aircraft = Some aircraft
        /\ (get_nearby_drones E self current_aircraft range_nm = Raise e
            \/ exists nearby_drones,
                 get_nearby_drones E self current_aircraft range_nm
                 = Ok nearby_drones
                 /\ merge_levels E test_threat_levels aircraft nearby_drones
                    = Raise e)
  end.
Proof.
  intros Htest. unfold get_collision_threats. rewrite Htest.
  destruct current_aircraft as [aircraft|];
    [|split; [constructor|intros _; constructor]].
  destruct (empty (drones_df self));
    [split; [constructor|intros _; constructor]|].
  destruct (get_nearby_drones E self (Some aircraft) range_nm)
    as [[|d nearby_drones]|e] eqn:Hnearby; simpl;
    [split; [constructor|intros _; constructor]|
    |exists aircraft; split; [reflexivity|now left]].
  destruct (merge_levels E test_threat_levels aircraft (d :: nearby_drones))
    as [merged_threats|e] eqn:Hmerge.
  - destruct (test_mode_threats_are_sorted E _ _ _ Hmerge)
      as (threats & Hrun & Hperm & Hsorted).
    rewrite Hrun. split.
    + unfold tiered_threats in Hrun. rewrite Hmerge in Hrun. simpl in Hrun.
      now apply (sorted_threats_are_ranked merged_threats).
    + intros Hmeasured. apply Hsorted. now rewrite <- Hperm.
  - unfold tiered_threats. rewrite Hmerge. simpl.
    exists aircraft. split; [reflexivity|]. right.
    exists (d :: nearby_drones). split; [reflexivity|exact Hmerge].
Qed.

End TestModeThreats.

Section TestModeThreatRuns.
Import Dashboard DashboardRuns.

(** The drone of [DashboardRuns] in test mode. *)
Lemma threats_of_the_test_mode_service :
  exists threats,
    get_collision_threats Sample.env test_mode_service (Some the_aircraft) 10%float
    = Ok threats
    /\ Forall ranked threats
    /\ (Forall measured threats -> StronglySorted threat_le threats).
Proof.
  pose proof (test_mode_threats_are_ranked Sample.env test_mode_service
                (Some the_aircraft) 10%float eq_refl) as Hrun.
  destruct (get_collision_threats Sample.env test_mode_service
              (Some the_aircraft) 10%float) as [threats|e] eqn:Hcall.
  - exists threats. split; [reflexivity|exact Hrun].
  - exfalso. vm_compute in Hcall. discriminate.
Defined.

End TestModeThreatRuns.

(** ** dashboard/app.py: [get_nearby_aircraft] *)

Module AircraftSearch.
Import Pandas CollisionDetection Dashboard.

(** The method can also raise [AttributeError], when [.strip()] is
    called on a callsign that is not a string. *)
Inductive error : Type :=
| Builtin (e : exn)
| AttributeError (msg : string).

Inductive outcome (A : Type) : Type :=
| Returned (a : A)
| Raised (e : error).
Arguments Returned {A} a.
Arguments Raised {A} e.

#[global] Instance outcome_ret : MRet outcome := fun A a => Returned a.
#[global] Instance outcome_bind : MBind outcome := fun A B f m =>
  match m with
  | Returned a => f a
  | Raised e => Raised e
  end.

Definition lift {A} (r : result A) : outcome A :=
  match r with
  | Ok a => Returned a
  | Raise e => Raised (Builtin e)
  end.

(** A loop that appends one element per item and stops at the first
    exception. *)
Fixpoint map_outcome {A B} (f : A -> outcome B) (xs : list A)
  : outcome (list B) :=
  match xs with
  | [] => Returned []
  | x :: xs' =>
      match f x with
      | Returned y =>
          match map_outcome f xs' with
          | Returned ys => Returned (y :: ys)
          | Raised e => Raised e
          end
      | Raised e => Raised e
      end
  end.

(** The attributes of the service that the method reads. *)
Record PilotDashboardService : Type := {
  planes_df : DataFrame;
  use_test_data : bool
}.

(** One dictionary of the list returned by [get_nearby_aircraft]. *)
Record NearbyAircraft : Type := {
  near_callsign : string;
  near_icao24 : pyval;
  near_latitude : float;
  near_longitude : float;
  near_altitude : float;
  near_speed : float;
  near_distance : float;
  near_bearing : float;
  near_relative_position : string
}.

Definition target_aircraft_count : nat := 50.

Section WithEnv.
Variable E : Env.
(** The builtin [str.strip]. *)
Variable strip : string -> string.

(** [v.strip()] on a value. *)
Definition stripped (v : pyval) : outcome string :=
  match v with
  | PStr s => Returned (strip s)
  | PFloat _ => Raised (AttributeError "'float' object has no attribute 'strip'")
  | PNone => Raised (AttributeError "'NoneType' object has no attribute 'strip'")
  end.

(** One iteration of the loop over the planes, which both modes run:
    the own aircraft and the planes without coordinates are skipped, a
    plane within [search_range] is appended with its distance. *)
Definition visit_plane (current_lat current_lon current_icao : pyval)
    (search_range : float) (found : list (Series * float)) (plane : Series)
  : result (list (Series * float)) :=
  icao ← getitem plane "icao24";
  if py_eq icao current_icao then Ok found
  else
    lat ← getitem plane "latitude";
    if isna lat then Ok found
    else
      lon ← getitem plane "longitude";
      if isna lon then Ok found
      else
        let distance_km :=
          fst (calculate_horizontal_distance E current_lat current_lon lat lon) in
        let distance_nm := (distance_km / 1.852)%float in
        if (distance_nm <=? search_range)%float
        then Ok (found ++ [(plane, distance_nm)])
        else Ok found.

Definition scan_planes (self : PilotDashboardService)
    (current_lat current_lon current_icao : pyval) (search_range : float)
  : result (list (Series * float)) :=
  for_each (iterrows (planes_df self))
    (visit_plane current_lat current_lon current_icao search_range) [].

(** [for search_range in search_ranges: ... else: nearby_pairs = []],
    where [last] is [search_ranges[-1]]. *)
Fixpoint search (self : PilotDashboardService)
    (current_lat current_lon current_icao : pyval)
    (search_ranges : list float) (last : float)
  : result (list (Series * float)) :=
  match search_ranges with
  | [] => Ok []
  | search_range :: rest =>
      temp_nearby ←
        scan_planes self current_lat current_lon current_icao search_range;
      if Nat.leb target_aircraft_count (length temp_nearby)
      then Ok (take target_aircraft_count (sort_by snd PrimFloat.ltb temp_nearby))
      else if PrimFloat.eqb search_range last
              && negb (Nat.eqb (length temp_nearby) 0)
      then Ok (sort_by snd PrimFloat.ltb temp_nearby)
      else search self current_lat current_lon current_icao rest last
  end.

(** The dictionary appended for one pair of [nearby_pairs]. *)
Definition describe (current_lat current_lon : pyval) (pair : Series * float)
  : outcome NearbyAircraft :=
  let '(plane, distance_nm) := pair in
  callsign ← stripped (get plane "callsign" (PStr ""));
  let icao24 := get plane "icao24" (PStr "") in
  lat ← lift (getitem plane "latitude");
  latitude ← lift (py_float E lat);
  lon ← lift (getitem plane "longitude");
  longitude ← lift (py_float E lon);
  altitude ← lift (py_float E (get plane "baro_altitude" (PFloat 0%float)));
  speed ← lift (py_float E (get plane "velocity" (PFloat 0%float)));
  bearing ← lift (calculate_bearing E current_lat current_lon lat lon);
  position ←
    lift (get_relative_position_description E current_lat current_lon lat lon);
  Returned {| near_callsign := callsign;
              near_icao24 := icao24;
              near_latitude := latitude;
              near_longitude := longitude;
              near_altitude := altitude;
              near_speed := speed;
              near_distance := distance_nm;
              near_bearing := bearing;
              near_relative_position := position |}.

(** [nearby_pairs], by the mode. *)
Definition nearby_pairs_of (self : PilotDashboardService)
    (aircraft : Aircraft) (range_nm : float) : result (list (Series * float)) :=
  let current_lat := PFloat (aircraft_latitude aircraft) in
  let current_lon := PFloat (aircraft_longitude aircraft) in
  let current_icao := aircraft_icao24 aircraft in
  if negb (use_test_data self) then
    let search_ranges :=
      [range_nm; range_nm * 2; range_nm * 5; range_nm * 10]%float in
    search self current_lat current_lon current_icao
      search_ranges (range_nm * 10)%float
  else
    let effective_range := range_nm in
    scan_planes self current_lat current_lon current_icao effective_range.

(** [get_nearby_aircraft] *)
Definition get_nearby_aircraft (self : PilotDashboardService)
    (current_aircraft : option Aircraft) (range_nm : float)
  : outcome (list NearbyAircraft) :=
  match current_aircraft with
  | None => Returned []
  | Some aircraft =>
      if empty (planes_df self) then Returned []
      else
        let current_lat := PFloat (aircraft_latitude aircraft) in
        let current_lon := PFloat (aircraft_longitude aircraft) in
        nearby_pairs ← lift (nearby_pairs_of self aircraft range_nm);
        nearby_aircraft ←
          map_outcome (describe current_lat current_lon) nearby_pairs;
        if use_test_data self
        then
          let max_aircraft := 15%nat in
          Returned (take max_aircraft nearby_aircraft)
        else Returned nearby_aircraft
  end.

End WithEnv.
End AircraftSearch.

Section AircraftSearchFacts.
Import Pandas CollisionDetection Dashboard AircraftSearch.
Open Scope float_scope.
Variable E : Env.
Variable strip : string -> string.

(** Two ranges that are equal as numbers admit the same distances. *)
Lemma leb_eqb_compat d s t : (s =? t) = true -> (d <=? s) = (d <=? t).
Proof.
  intros Hst.
  pose proof (eqb_leb _ _ Hst) as H1.
  pose proof (eqb_leb _ _ (eq_trans (eqb_sym t s) Hst)) as H2.
  destruct (d <=? s) eqn:Hs, (d <=? t) eqn:Ht; try reflexivity.
  - rewrite (leb_trans _ _ _ Hs H1) in Ht. discriminate.
  - rewrite (leb_trans _ _ _ Ht H2) in Hs. discriminate.
Qed.

Lemma for_each_ext {A S} (body1 body2 : S -> A -> result S) xs :
  (forall acc x, body1 acc x = body2 acc x) ->
  forall acc, for_each xs body1 acc = for_each xs body2 acc.
Proof.
  intros Hbody. induction xs as [|x xs IH]; intros acc; simpl; [reflexivity|].
  rewrite Hbody. destruct (body2 acc x); [apply IH|reflexivity].
Qed.

(** A loop whose body leaves the list alone or appends the item with a
    tag: the items collected are, in order, among those of the loop. *)
Lemma for_each_selects {A C} (body : list (A * C) -> A -> result (list (A * C)))
    (Q : A * C -> Prop) (xs : list A) :
  (forall acc x acc',
      body acc x = Ok acc' ->
      acc' = acc \/ exists c, acc' = acc ++ [(x, c)] /\ Q (x, c)) ->
  forall acc acc',
    for_each xs body acc = Ok acc' ->
    exists added,
      acc' = acc ++ added /\ Forall Q added
      /\ map fst added `sublist_of` xs.
Proof.
  intros Hbody. induction xs as [|x xs IH]; intros acc acc'; simpl.
  - intros [= <-]. exists []. rewrite app_nil_r.
    split; [reflexivity|]. split; constructor.
  - destruct (body acc x) as [acc1|] eqn:Hx; [|discriminate].
    intros Hrest. destruct (IH _ _ Hrest) as (added & -> & Hall & Hsub).
    destruct (Hbody _ _ _ Hx) as [->|(c & -> & Hc)].
    + exists added. split; [reflexivity|]. split; [assumption|].
      now apply sublist_cons.
    + exists ((x, c) :: added). rewrite <- app_assoc.
      split; [reflexivity|]. split; [now constructor|].
      simpl. now apply sublist_skip.
Qed.

(** What the scan keeps of a plane. *)
Definition kept (current_icao : pyval) (search_range : float)
    (pair : Series * float) : Prop :=
  (snd pair <=? search_range) = true
  /\ exists icao,
       getitem (fst pair) "icao24" = Ok icao
       /\ py_eq icao current_icao = false.

Lemma visit_plane_cases current_lat current_lon current_icao search_range
    found plane found' :
  visit_plane E current_lat current_lon current_icao search_range found plane
  = Ok found' ->
  found' = found
  \/ exists d, found' = found ++ [(plane, d)]
               /\ kept current_icao search_range (plane, d).
Proof.
  unfold visit_plane.
  destruct (getitem plane "icao24") as [icao|] eqn:Hicao; simpl; [|discriminate].
  destruct (py_eq icao current_icao) eqn:Hown; [intros [= <-]; now left|].
  destruct (getitem plane "latitude") as [lat|]; simpl; [|discriminate].
  destruct (isna lat); [intros [= <-]; now left|].
  destruct (getitem plane "longitude") as [lon|]; simpl; [|discriminate].
  destruct (isna lon); [intros [= <-]; now left|].
  destruct (_ <=? search_range) eqn:Hrange; intros [= <-]; [|now left].
  right. eexists. split; [reflexivity|]. split; [exact Hrange|eauto].
Qed.

Lemma scan_planes_spec self current_lat current_lon current_icao search_range found :
  scan_planes E self current_lat current_lon current_icao search_range = Ok found ->
  Forall (kept current_icao search_range) found
  /\ map fst found `sublist_of` iterrows (planes_df self).
Proof.
  unfold scan_planes. intros Hscan.
  apply (for_each_selects _ (kept current_icao search_range)) in Hscan
    as (added & -> & Hall & Hsub).
  - now split.
  - intros acc x acc'. apply visit_plane_cases.
Qed.

Lemma scan_planes_length self current_lat current_lon current_icao search_range found :
  scan_planes E self current_lat current_lon current_icao search_range = Ok found ->
  (length found <= len (planes_df self))%nat.
Proof.
  intros [_ Hsub%sublist_length]%scan_planes_spec.
  rewrite length_map in Hsub. unfold iterrows in Hsub.
  now rewrite length_map in Hsub.
Qed.

Lemma scan_planes_eq_range self current_lat current_lon current_icao s t :
  (s =? t) = true ->
  scan_planes E self current_lat current_lon current_icao s
  = scan_planes E self current_lat current_lon current_icao t.
Proof.
  intros Hst. unfold scan_planes. apply for_each_ext.
  intros acc plane. unfold visit_plane.
  destruct (getitem plane "icao24"); simpl; [|reflexivity].
  destruct (py_eq _ _); [reflexivity|].
  destruct (getitem plane "latitude"); simpl; [|reflexivity].
  destruct (isna _); [reflexivity|].
  destruct (getitem plane "longitude"); simpl; [|reflexivity].
  destruct (isna _); [reflexivity|].
  now rewrite (leb_eqb_compat _ _ _ Hst).
Qed.

Definition not_farther_pair (a b : Series * float) : Prop :=
  (snd a <=? snd b) = true.

Lemma sort_pairs_in_order current_icao search_range l :
  Forall (kept current_icao search_range) l ->
  StronglySorted not_farther_pair (sort_by snd PrimFloat.ltb l).
Proof.
  intros Hl.
  set (P := fun p : Series * float => is_nan (snd p) = false).
  assert (HP : Forall P l).
  { eapply Forall_impl; [exact Hl|]. intros p [Hp _]. now apply leb_not_nan in Hp. }
  assert (Hs : StronglySorted (not_after snd PrimFloat.ltb)
                 (sort_by snd PrimFloat.ltb l)).
  { apply (sort_by_in_order snd PrimFloat.ltb P); [| |exact HP].
    - intros a b _ _. apply ltb_asym.
    - intros a b c Ha Hb Hc Hab Hbc.
      apply leb_not_ltb. apply (leb_trans _ (snd b)); now apply not_ltb_leb. }
  assert (HP' : Forall P (sort_by snd PrimFloat.ltb l))
    by (now rewrite sort_by_permutation).
  induction Hs as [|d ds Hds IH Hd]; [constructor|].
  inversion HP' as [|? ? Pd Pds]; subst.
  constructor; [now apply IH|].
  rewrite Forall_forall in Hd, Pds |- *. intros d' Hd'.
  apply not_ltb_leb; [now apply Pds|assumption|now apply Hd].
Qed.

(** The pairs that the real mode settles on: found at one of the
    ranges, at most 50, nearest first. *)
Lemma search_spec self current_lat current_lon current_icao ranges last pairs :
  search E self current_lat current_lon current_icao ranges last = Ok pairs ->
  pairs = []
  \/ exists search_range found,
       search_range ∈ ranges
       /\ scan_planes E self current_lat current_lon current_icao search_range
          = Ok found
       /\ (pairs = take target_aircraft_count (sort_by snd PrimFloat.ltb found)
           \/ (pairs = sort_by snd PrimFloat.ltb found
               /\ (search_range =? last) = true
               /\ (length found < target_aircraft_count)%nat)).
Proof.
  revert pairs. induction ranges as [|s ranges IH]; intros pairs; cbn [search];
    [intros [= <-]; now left|].
  destruct (scan_planes E self current_lat current_lon current_icao s)
    as [temp|] eqn:Hscan; cbn [mbind result_bind]; [|discriminate].
  destruct (Nat.leb_spec target_aircraft_count (length temp)) as [Hmany|Hfew].
  { intros [= <-]. right. exists s, temp.
    split; [left|]. split; [exact Hscan|now left]. }
  destruct ((s =? last) && negb (Nat.eqb (length temp) 0)) eqn:Hlast.
  { intros [= <-]. apply andb_true_iff in Hlast as [Hlast _].
    right. exists s, temp. split; [left|]. split; [exact Hscan|]. right. auto. }
  intros [->|(s' & found & Hin & Hfound & Hpairs)]%IH; [now left|].
  right. exists s', found. split; [now right|]. auto.
Qed.

Lemma map_outcome_spec {A B} (f : A -> outcome B) xs ys :
  map_outcome f xs = Returned ys -> Forall2 (fun x y => f x = Returned y) xs ys.
Proof.
  revert ys. induction xs as [|x xs IH]; intros ys; simpl.
  - intros [= <-]. constructor.
  - destruct (f x) as [y|] eqn:Hx; [|discriminate].
    destruct (map_outcome f xs) as [ys'|]; [|discriminate].
    intros [= <-]. constructor; [exact Hx|now apply IH].
Qed.

(** What a dictionary of the result says about its pair. *)
Lemma describe_spec current_lat current_lon pair a :
  describe E strip current_lat current_lon pair = Returned a ->
  near_distance a = snd pair
  /\ near_icao24 a = get (fst pair) "icao24" (PStr "").
Proof.
  destruct pair as [plane d]. unfold describe.
  repeat match goal with
         | |- context [mbind _ ?m] =>
             destruct m; cbn [mbind outcome_bind]; [|discriminate]
         end.
  intros [= <-]. split; reflexivity.
Qed.

Lemma described_pairs current_lat current_lon pairs nearby :
  map_outcome (describe E strip current_lat current_lon) pairs = Returned nearby ->
  map near_distance nearby = map snd pairs
  /\ map near_icao24 nearby = map (fun p => get (fst p) "icao24" (PStr "")) pairs.
Proof.
  intros Hall%map_outcome_spec.
  induction Hall as [|p a ps as' Hp Hrest [IH1 IH2]]; simpl; [split; reflexivity|].
  destruct (describe_spec _ _ _ _ Hp) as [-> ->]. now rewrite IH1, IH2.
Qed.

(** The pairs of a successful call, before the cut of test mode. *)
Lemma nearby_aircraft_pairs self aircraft range_nm nearby :
  empty (planes_df self) = false ->
  get_nearby_aircraft E strip self (Some aircraft) range_nm = Returned nearby ->
  exists pairs described,
    nearby_pairs_of E self aircraft range_nm = Ok pairs
    /\ map_outcome (describe E strip (PFloat (aircraft_latitude aircraft))
                      (PFloat (aircraft_longitude aircraft))) pairs
       = Returned described
    /\ nearby = if use_test_data self then take 15 described else described.
Proof.
  intros Hempty. unfold get_nearby_aircraft. rewrite Hempty.
  destruct (nearby_pairs_of E self aircraft range_nm) as [pairs|];
    cbn [lift mbind outcome_bind]; [|discriminate].
  destruct (map_outcome _ pairs) as [described|] eqn:Hdescribed;
    cbn [mbind outcome_bind]; [|discriminate].
  intros Hnearby. exists pairs, described.
  split; [reflexivity|]. split; [exact Hdescribed|].
  destruct (use_test_data self); now injection Hnearby as <-.
Qed.

Lemma get_of_getitem (plane : Series) k v dflt :
  getitem plane k = Ok v -> get plane k dflt = cell (values plane) k.
Proof.
  unfold getitem, get. destruct (bool_decide (k ∈ index plane)); [reflexivity|discriminate].
Qed.


Definition ranges_of (test_mode : bool) (range_nm : float) : list float :=
  if test_mode then [range_nm]
  else [range_nm; range_nm * 2; range_nm * 5; range_nm * 10].

(** The pairs that the two modes collect. *)
Lemma nearby_pairs_spec self aircraft range_nm pairs :
  nearby_pairs_of E self aircraft range_nm = Ok pairs ->
  (exists search_range,
      search_range ∈ ranges_of (use_test_data self) range_nm
      /\ Forall (kept (aircraft_icao24 aircraft) search_range) pairs)
  /\ (length pairs <= len (planes_df self))%nat
  /\ (if use_test_data self
      then map fst pairs `sublist_of` iterrows (planes_df self)
      else (length pairs <= target_aircraft_count)%nat
           /\ StronglySorted not_farther_pair pairs).
Proof.
  unfold nearby_pairs_of, ranges_of.
  destruct (use_test_data self); cbn [negb].
  - intros Hscan. pose proof (scan_planes_length _ _ _ _ _ _ Hscan) as Hlen.
    apply scan_planes_spec in Hscan as [Hkept Hsub].
    split; [exists range_nm; split; [left|exact Hkept]|]. now split.
  - intros [->|(s & found & Hin & Hscan & Hpairs)]%search_spec.
    { split; [exists range_nm; split; [left|constructor]|].
      split; [apply Nat.le_0_l|]. split; [apply Nat.le_0_l|constructor]. }
    pose proof (scan_planes_length _ _ _ _ _ _ Hscan) as Hlen.
    apply scan_planes_spec in Hscan as [Hkept _].
    pose proof (sort_pairs_in_order _ _ _ Hkept) as Hsorted.
    assert (Hkept' : Forall (kept (aircraft_icao24 aircraft) s)
                       (sort_by snd PrimFloat.ltb found))
      by (now rewrite sort_by_permutation).
    assert (Hlen' : length (sort_by snd PrimFloat.ltb found) = length found)
      by (apply Permutation_length, sort_by_permutation).
    destruct Hpairs as [->|(-> & _ & Hfew)].
    + split; [exists s; split; [exact Hin|now apply Forall_take]|].
      rewrite length_take, Hlen'.
      split; [etransitivity; [apply Nat.le_min_r|exact Hlen]|].
      split; [apply Nat.le_min_l|now apply StronglySorted_take].
    + split; [exists s; split; [exact Hin|exact Hkept']|].
      rewrite Hlen'. split; [exact Hlen|]. split; [lia|exact Hsorted].
Qed.

Lemma kept_icao current_icao search_range pair :
  kept current_icao search_range pair ->
  get (fst pair) "icao24" (PStr "") = cell (values (fst pair)) "icao24"
  /\ py_eq (get (fst pair) "icao24" (PStr "")) current_icao = false.
Proof.
  intros (_ & icao & Hicao & Hown).
  rewrite (get_of_getitem _ _ _ _ Hicao). split; [reflexivity|].
  unfold getitem in Hicao.
  destruct (bool_decide _); [|discriminate]. now injection Hicao as ->.
Qed.

(** X28. When [get_nearby_aircraft] returns, the list has at most 15
    aircraft in test mode and 50 in real mode, never more than the frame
    has rows; none has the [icao24] of the current aircraft; all are
    within one search range, which is [range_nm] in test mode and
    [range_nm] times 1, 2, 5 or 10 in real mode; without a current
    aircraft or with an empty frame the list is empty. *)
Theorem nearby_aircraft_are_bounded self current_aircraft range_nm nearby :
  get_nearby_aircraft E strip self current_aircraft range_nm = Returned nearby ->
  (length nearby <= (if use_test_data self then 15 else 50))%nat
  /\ (length nearby <= len (planes_df self))%nat
  /\ (forall aircraft,
        current_aircraft = Some aircraft ->
        Forall (fun a => py_eq (near_icao24 a) (aircraft_icao24 aircraft) = false)
          nearby)
  /\ (exists search_range,
        search_range ∈ ranges_of (use_test_data self) range_nm
        /\ Forall (fun a => (near_distance a <=? search_range) = true) nearby)
  /\ (current_aircraft = None \/ empty (planes_df self) = true -> nearby = []).
Proof.
  assert (Hnone : forall l : list NearbyAircraft,
             l = [] ->
             (length l <= (if use_test_data self then 15 else 50))%nat
             /\ (length l <= len (planes_df self))%nat
             /\ (forall aircraft,
                   current_aircraft = Some aircraft ->
                   Forall (fun a => py_eq (near_icao24 a) (aircraft_icao24 aircraft)
                                    = false) l)
             /\ (exists search_range,
                   search_range ∈ ranges_of (use_test_data self) range_nm
                   /\ Forall (fun a => (near_distance a <=? search_range) = true) l)).
  { intros l ->. split; [apply Nat.le_0_l|]. split; [apply Nat.le_0_l|].
    split; [intros; constructor|]. exists range_nm.
    split; [unfold ranges_of; destruct (use_test_data self); left|constructor]. }
  destruct current_aircraft as [aircraft|].
  2: { intros [= <-]. destruct (Hnone [] eq_refl) as (? & ? & ? & ?).
       repeat (split; [assumption|]). reflexivity. }
  destruct (empty (planes_df self)) eqn:Hempty.
  { unfold get_nearby_aircraft. rewrite Hempty. intros [= <-].
    destruct (Hnone [] eq_refl) as (? & ? & ? & ?).
    repeat (split; [assumption|]). reflexivity. }
  intros (pairs & described & Hpairs & Hdescribed & Hcut)%nearby_aircraft_pairs;
    [|exact Hempty].
  apply nearby_pairs_spec in Hpairs as ((s & Hs & Hkept) & Hlen & Hmode).
  destruct (described_pairs _ _ _ _ Hdescribed) as [Hdist Hicao].
  assert (Hsame : length described = length pairs).
  { apply (f_equal (@length _)) in Hdist. now rewrite !length_map in Hdist. }
  assert (Hown : Forall (fun a => py_eq (near_icao24 a) (aircraft_icao24 aircraft)
                                  = false) described).
  { apply (Forall_fmap near_icao24
             (fun v => py_eq v (aircraft_icao24 aircraft) = false)).
    change (@fmap list _ _ _ near_icao24 described) with (map near_icao24 described).
    rewrite Hicao. apply Forall_fmap. eapply Forall_impl; [exact Hkept|].
    intros p Hp. now apply kept_icao in Hp as [_ Hp]. }
  assert (Hnear : Forall (fun a => (near_distance a <=? s) = true) described).
  { apply (Forall_fmap near_distance (fun d => (d <=? s) = true)).
    change (@fmap list _ _ _ near_distance described) with (map near_distance described).
    rewrite Hdist. apply Forall_fmap. eapply Forall_impl; [exact Hkept|].
    now intros p [Hp _]. }
  destruct (use_test_data self); subst nearby.
  - split; [rewrite length_take; apply Nat.le_min_l|].
    split; [rewrite length_take; etransitivity; [apply Nat.le_min_r|lia]|].
    split; [intros ? [= <-]; now apply Forall_take|].
    split; [exists s; split; [exact Hs|now apply Forall_take]|].
    intros [?|?]; discriminate.
  - destruct Hmode as [Hmax _]. unfold target_aircraft_count in Hmax.
    split; [lia|]. split; [lia|].
    split; [now intros ? [= <-]|].
    split; [exists s; split; assumption|].
    intros [?|?]; discriminate.
Qed.


(** The search of real mode over a frame of fewer than 50 planes. *)
Lemma search_few self current_lat current_lon current_icao ranges last pairs :
  (len (planes_df self) < target_aircraft_count)%nat ->
  search E self current_lat current_lon current_icao ranges last = Ok pairs ->
  (exists search_range found,
      (search_range =? last) = true
      /\ scan_planes E self current_lat current_lon current_icao search_range
         = Ok found
      /\ pairs = sort_by snd PrimFloat.ltb found)
  \/ (pairs = []
      /\ Forall (fun search_range =>
                   exists found,
                     scan_planes E self current_lat current_lon current_icao
                       search_range = Ok found
                     /\ ((search_range =? last) = true -> found = []))
           ranges).
Proof.
  intros Hfew. revert pairs.
  induction ranges as [|s ranges IH]; intros pairs; cbn [search];
    [intros [= <-]; right; split; [reflexivity|constructor]|].
  destruct (scan_planes E self current_lat current_lon current_icao s)
    as [temp|] eqn:Hscan; cbn [mbind result_bind]; [|discriminate].
  pose proof (scan_planes_length _ _ _ _ _ _ Hscan) as Hlen.
  destruct (Nat.leb_spec target_aircraft_count (length temp)) as [Hmany|_];
    [lia|].
  destruct (s =? last) eqn:Hlast; cbn [andb].
  - destruct temp as [|p temp]; cbn [length Nat.eqb negb].
    + intros [Hfound|[-> Hall]]%IH; [now left|].
      right. split; [reflexivity|]. constructor; [|exact Hall].
      exists []. split; [exact Hscan|auto].
    + intros [= <-]. left. exists s, (p :: temp). auto.
  - intros [Hfound|[-> Hall]]%IH; [now left|].
    right. split; [reflexivity|]. constructor; [|exact Hall].
    exists temp. split; [exact Hscan|intros ?; congruence].
Qed.

(** X30. In real mode, over a frame of fewer than 50 planes, the
    requested range is multiplied by ten: the list holds every plane
    that the scan keeps at [range_nm * 10] (the planes other than the
    current aircraft, with both coordinates, within that distance),
    nearest first. *)
Theorem real_mode_extends_the_range self aircraft range_nm nearby :
  use_test_data self = false ->
  empty (planes_df self) = false ->
  (len (planes_df self) < 50)%nat ->
  get_nearby_aircraft E strip self (Some aircraft) range_nm = Returned nearby ->
  exists found,
    scan_planes E self (PFloat (aircraft_latitude aircraft))
      (PFloat (aircraft_longitude aircraft)) (aircraft_icao24 aircraft)
      (range_nm * 10) = Ok found
    /\ map near_distance nearby = map snd (sort_by snd PrimFloat.ltb found)
    /\ length nearby = length found.
Proof.
  intros Hreal Hempty Hfew
    (pairs & described & Hpairs & Hdescribed & Hcut)%nearby_aircraft_pairs;
    [|exact Hempty].
  rewrite Hreal in Hcut. subst nearby.
  destruct (described_pairs _ _ _ _ Hdescribed) as [Hdist _].
  unfold nearby_pairs_of in Hpairs. rewrite Hreal in Hpairs. cbn [negb] in Hpairs.
  assert (Hfound : exists found,
             scan_planes E self (PFloat (aircraft_latitude aircraft))
               (PFloat (aircraft_longitude aircraft)) (aircraft_icao24 aircraft)
               (range_nm * 10) = Ok found
             /\ pairs = sort_by snd PrimFloat.ltb found).
  { apply search_few in Hpairs as [(s & found & Hs & Hscan & ->)|[-> Hall]];
      [| |exact Hfew].
    - exists found. split; [|reflexivity].
      now rewrite <- (scan_planes_eq_range _ _ _ _ _ _ Hs).
    - inversion Hall as [|? ? _ H2]; subst. inversion H2 as [|? ? _ H3]; subst.
      inversion H3 as [|? ? _ H4]; subst.
      inversion H4 as [|? ? (found & Hscan & Hnone) _]; subst.
      exists found. split; [exact Hscan|].
      destruct found as [|p found]; [reflexivity|].
      destruct (range_nm * 10 =? range_nm * 10) eqn:Hself;
        [now specialize (Hnone eq_refl)|].
      apply scan_planes_spec in Hscan as [Hkept _].
      inversion Hkept as [|? ? [Hp _] _]; subst.
      apply leb_not_nan in Hp as [_ Hp].
      rewrite (eqb_refl _ Hp) in Hself. discriminate. }
  destruct Hfound as (found & Hscan & ->).
  exists found. split; [exact Hscan|]. split; [exact Hdist|].
  apply (f_equal (@length _)) in Hdist. rewrite !length_map in Hdist.
  rewrite Hdist. apply Permutation_length, sort_by_permutation.
Qed.

End AircraftSearchFacts.

Module AircraftRuns.
Import Pandas Dashboard AircraftSearch.

(** The callsigns of the sample hold no blank: [strip] leaves them as
    they are. *)
Definition unchanged (s : string) : string := s.

(** The ten planes of [DetectorRuns], half a degree east of the
    aircraft of [DashboardRuns] and up to 0.9 degrees north of it. *)
Definition real_mode_service : PilotDashboardService :=
  {| planes_df := DetectorRuns.ten_planes; use_test_data := false |}.

Definition test_mode_service : PilotDashboardService :=
  {| planes_df := DetectorRuns.ten_planes; use_test_data := true |}.

Definition nearby_in_real_mode : list NearbyAircraft :=
  match get_nearby_aircraft Sample.env unchanged real_mode_service
          (Some DashboardRuns.the_aircraft) 10%float with
  | Returned nearby => nearby
  | Raised _ => []
  end.

Definition nearby_in_test_mode : list NearbyAircraft :=
  match get_nearby_aircraft Sample.env unchanged test_mode_service
          (Some DashboardRuns.the_aircraft) 50%float with
  | Returned nearby => nearby
  | Raised _ => []
  end.

End AircraftRuns.

Section AircraftRunFacts.
Import Pandas Dashboard AircraftSearch AircraftRuns.

(** In real mode the eight planes with coordinates are returned for a
    range of 10 NM, although the nearest is 30 NM away. *)
Lemma eight_planes_nearby_in_real_mode :
  length nearby_in_real_mode = 8%nat
  /\ (length nearby_in_real_mode <= 50)%nat
  /\ (length nearby_in_real_mode <= len DetectorRuns.ten_planes)%nat
  /\ Forall (fun a => py_eq (near_icao24 a) (PStr "800abc") = false)
       nearby_in_real_mode
  /\ exists search_range,
       search_range ∈ [10; 10 * 2; 10 * 5; 10 * 10]%float
       /\ Forall (fun a => (near_distance a <=? search_range)%float = true)
            nearby_in_real_mode.
Proof.
  split; [vm_compute; reflexivity|].
  destruct (nearby_aircraft_are_bounded Sample.env unchanged real_mode_service
              (Some DashboardRuns.the_aircraft) 10%float nearby_in_real_mode)
    as (Hmax & Hlen & Hown & Hrange & _).
  - vm_compute. reflexivity.
  - split; [exact Hmax|]. split; [exact Hlen|].
    split; [exact (Hown _ eq_refl)|exact Hrange].
Defined.


(** The eight planes are those within 100 NM. *)
Lemma eight_planes_within_a_hundred_miles :
  exists found,
    scan_planes Sample.env real_mode_service (PFloat 12.0%float) (PFloat 77.0%float)
      (PStr "800abc") (10 * 10)%float = Ok found
    /\ map near_distance nearby_in_real_mode
       = map snd (sort_by snd PrimFloat.ltb found)
    /\ length nearby_in_real_mode = length found.
Proof.
  apply (real_mode_extends_the_range Sample.env unchanged real_mode_service
           DashboardRuns.the_aircraft 10%float nearby_in_real_mode).
  - reflexivity.
  - vm_compute. reflexivity.
  - vm_compute. lia.
  - vm_compute. reflexivity.
Defined.

(** The identifiers in the two lists: nearest first in real mode, in
    the order of the frame in test mode. *)
Lemma nearby_planes_of_the_two_modes :
  map near_icao24 nearby_in_real_mode
  = [PStr "P0"; PStr "P1"; PStr "P3"; PStr "P4"; PStr "P5"; PStr "P7";
     PStr "P8"; PStr "P9"]
  /\ map near_icao24 nearby_in_test_mode
     = [PStr "P0"; PStr "P1"; PStr "P3"; PStr "P4"; PStr "P5"].
Proof. split; vm_compute; reflexivity. Qed.

End AircraftRunFacts.
